(** * job-scraper: a shallow embedding of the scrapers, the registry and the
    command-line orchestrator, with the properties of the specification.

    Python values are modelled as follows.
    - [str] is a Rocq [string]: the bytes of the text in UTF-8, a lone
      surrogate (which [json.loads] can produce and UTF-8 proper cannot
      hold) by the three bytes the [surrogatepass] handler gives it.
      Substring search and the JSON and CSV escapes work on these bytes as
      they do on the code points; [str.strip] removes the white space of
      Unicode; [str.lower] is a parameter, as its tables are not part of
      the program.
    - [int] is [Z].
    - a naive [datetime] is a record of its seven fields.
    - [Optional[T]] is [option T]; a [dict] read with [.get] is a record of
      optional fields or a list of pairs in insertion order.
    - an exception that leaves a function is an [Outcome].
    - the clock, the network, the files and the two output streams are a
      [World] that answers and a [State] that is threaded through the
      program.

    The libraries the program calls are part of the model: [datetime],
    [os.path], [json], [csv] and [logging] as functions written after their
    behaviour, [str.lower], [dateutil], [re] and [tabulate] as parameters.
    The answers of the two boards are taken in the shape their
    documentation gives them: an object whose keys may be missing but hold
    values of the documented kind when present. *)

From stdpp Require Import gmap strings.
From Stdlib Require Import ZArith List String Ascii Bool Lia Permutation Sorted DecimalString.
From Equations Require Import Equations.
Import ListNotations.

Local Open Scope string_scope.
Local Open Scope Z_scope.

(** stdpp keeps [simpl] from unfolding the append of strings; the proofs
    below compute with it. *)
#[local] Arguments String.append !_ _ / : simpl nomatch.

(** ** Text *)

Module Str.

Definition is_upper (c : ascii) : bool :=
  let n := nat_of_ascii c in (65 <=? n)%nat && (n <=? 90)%nat.

Definition lower_char (c : ascii) : ascii :=
  if is_upper c then ascii_of_nat (nat_of_ascii c + 32) else c.

(** What [str.lower] does to a text of ASCII characters: the letters A to Z
    are folded, everything else is kept.  On other text [str.lower] follows
    the tables of Unicode; the program takes it as a parameter, and this
    function only gives its values on ASCII text and in the sample runs. *)
Fixpoint ascii_lower (s : string) : string :=
  match s with
  | EmptyString => EmptyString
  | String c s' => String (lower_char c) (ascii_lower s')
  end.

Definition is_ascii_char (c : ascii) : bool := (nat_of_ascii c <? 128)%nat.

Fixpoint is_ascii (s : string) : bool :=
  match s with
  | EmptyString => true
  | String c s' => is_ascii_char c && is_ascii s'
  end.

(** The ASCII characters [str.isspace] holds of: tab to carriage return,
    the four separators and the blank. *)
Definition is_space (c : ascii) : bool :=
  let n := nat_of_ascii c in
  ((9 <=? n)%nat && (n <=? 13)%nat) || ((28 <=? n)%nat && (n <=? 32)%nat).

(** The other characters [str.isspace] holds of, in their UTF-8 form:
    U+0085 and U+00A0 in two bytes; U+1680, U+2000 to U+200A, U+2028, U+2029,
    U+202F, U+205F and U+3000 in three. *)
Definition is_space2 (a b : ascii) : bool :=
  (nat_of_ascii a =? 194)%nat
  && ((nat_of_ascii b =? 133)%nat || (nat_of_ascii b =? 160)%nat).

Definition is_space3 (a b c : ascii) : bool :=
  let x := nat_of_ascii a in
  let y := nat_of_ascii b in
  let z := nat_of_ascii c in
  ((x =? 225) && (y =? 154) && (z =? 128))%nat
  || ((x =? 226) && (y =? 128)
      && (((128 <=? z) && (z <=? 138)) || (z =? 168) || (z =? 169) || (z =? 175)))%nat
  || ((x =? 226) && (y =? 129) && (z =? 159))%nat
  || ((x =? 227) && (y =? 128) && (z =? 128))%nat.

(** [str.lstrip()] *)
Fixpoint lstrip (s : string) : string :=
  match s with
  | String a s1 =>
      if is_space a then lstrip s1
      else
        match s1 with
        | String b s2 =>
            if is_space2 a b then lstrip s2
            else
              match s2 with
              | String c s3 => if is_space3 a b c then lstrip s3 else s
              | EmptyString => s
              end
        | EmptyString => s
        end
  | EmptyString => EmptyString
  end.

(** [str.rstrip()]: the text is cut where nothing but white space follows. *)
Fixpoint rstrip (s : string) : string :=
  match s with
  | EmptyString => EmptyString
  | String c s' =>
      match lstrip s with
      | EmptyString => EmptyString
      | String _ _ => String c (rstrip s')
      end
  end.

(** [str.strip()] *)
Definition strip (s : string) : string := rstrip (lstrip s).

Fixpoint startswith (p s : string) : bool :=
  match p, s with
  | EmptyString, _ => true
  | String a p', String b s' => Ascii.eqb a b && startswith p' s'
  | String _ _, EmptyString => false
  end.

(** [p in s]: [p] occurs in [s] as a contiguous run of characters. *)
Fixpoint contains (p s : string) : bool :=
  startswith p s ||
  match s with
  | EmptyString => false
  | String _ s' => contains p s'
  end.

(** Python's truth value of a string. *)
Definition truthy (s : string) : bool :=
  match s with EmptyString => false | _ => true end.

(** [sep.join(l)] *)
Definition join (sep : string) (l : list string) : string := String.concat sep l.

Definition digit_char (d : Z) : ascii := ascii_of_nat (48 + Z.to_nat d).

(** ["%0<width>d" % n] for [0 <= n < 10 ^ width]: exactly [width] digits. *)
Fixpoint zpad (width : nat) (n : Z) : string :=
  match width with
  | O => EmptyString
  | S w => zpad w (n / 10) ++ String (digit_char (n mod 10)) EmptyString
  end.

(** [str(n)] for a natural number and for an integer. *)
Definition of_nat (n : nat) : string := NilEmpty.string_of_uint (Nat.to_uint n).

Definition of_Z (n : Z) : string :=
  match n with
  | Z0 => "0"
  | Zpos p => of_nat (Pos.to_nat p)
  | Zneg p => "-" ++ of_nat (Pos.to_nat p)
  end.

(** [fmt % args] for a format whose only directives are [%s], as many as
    there are arguments, each argument given by its [str]. *)
Fixpoint percent (fmt : string) (args : list string) : string :=
  match fmt with
  | EmptyString => EmptyString
  | String c rest =>
      match c, rest, args with
      | "%"%char, String "s"%char rest', a :: args' => a ++ percent rest' args'
      | _, _, _ => String c (percent rest args)
      end
  end.

(** The text holds a lone surrogate: the byte 237 followed by a byte from
    160 to 191.  Such a text has no UTF-8 form. *)
Definition continues_surrogate (s : string) : bool :=
  match s with
  | String d _ => (160 <=? nat_of_ascii d)%nat && (nat_of_ascii d <=? 191)%nat
  | EmptyString => false
  end.

Fixpoint has_surrogate (s : string) : bool :=
  match s with
  | EmptyString => false
  | String c s' =>
      ((nat_of_ascii c =? 237)%nat && continues_surrogate s') || has_surrogate s'
  end.

End Str.

(** ** Dates and times *)

Record datetime := mk_datetime {
  year : Z; month : Z; day : Z;
  hour : Z; minute : Z; second : Z; microsecond : Z
}.

Record timedelta := mk_timedelta { td_days : Z; td_seconds : Z; td_microseconds : Z }.

Module Datetime.

Definition is_leap (y : Z) : bool :=
  (y mod 4 =? 0) && (negb (y mod 100 =? 0) || (y mod 400 =? 0)).

Definition days_in_month (y m : Z) : Z :=
  if m =? 2 then (if is_leap y then 29 else 28)
  else if (m =? 4) || (m =? 6) || (m =? 9) || (m =? 11) then 30
  else 31.

Definition days_before_year (y : Z) : Z :=
  let y1 := y - 1 in y1 * 365 + y1 / 4 - y1 / 100 + y1 / 400.

(** Days of the year before the first day of month [m]. *)
Definition days_before_month (y m : Z) : Z :=
  nth (Z.to_nat m) [0; 0; 31; 59; 90; 120; 151; 181; 212; 243; 273; 304; 334] 0
  + (if (2 <? m) && is_leap y then 1 else 0).

(** [date.toordinal]: 0001-01-01 is day 1. *)
Definition toordinal (d : datetime) : Z :=
  days_before_year (year d) + days_before_month (year d) (month d) + day d.

Definition us_per_second : Z := 1000000.
Definition seconds_per_day : Z := 86400.
Definition us_per_day : Z := seconds_per_day * us_per_second.

(** The [timedelta] constructor brings its arguments to the normal form
    [0 <= seconds < 86400], [0 <= microseconds < 10^6]; the sign is
    carried by [days]. *)
Definition timedelta_of (d s us : Z) : timedelta :=
  let total := (d * seconds_per_day + s) * us_per_second + us in
  {| td_days := total / us_per_day;
     td_seconds := (total mod us_per_day) / us_per_second;
     td_microseconds := total mod us_per_second |}.

Definition seconds_of_day (d : datetime) : Z :=
  second d + minute d * 60 + hour d * 3600.

(** [a - b] for two naive datetimes. *)
Definition sub (a b : datetime) : timedelta :=
  timedelta_of (toordinal a - toordinal b)
               (seconds_of_day a - seconds_of_day b)
               (microsecond a - microsecond b).

(** Microseconds since the start of day 0 of the proleptic calendar: the
    position of a datetime on the time line. *)
Definition timeline (d : datetime) : Z :=
  (toordinal d * seconds_per_day + seconds_of_day d) * us_per_second + microsecond d.

(** Naive datetimes compare by their fields, most significant first. *)
Definition fields (d : datetime) : list Z :=
  [year d; month d; day d; hour d; minute d; second d; microsecond d].

Fixpoint cmp (a b : list Z) : comparison :=
  match a, b with
  | x :: a', y :: b' =>
      match x ?= y with
      | Eq => cmp a' b'
      | c => c
      end
  | [], [] => Eq
  | [], _ :: _ => Lt
  | _ :: _, [] => Gt
  end.

Definition compare (a b : datetime) : comparison := cmp (fields a) (fields b).
Definition ltb (a b : datetime) : bool :=
  match compare a b with Lt => true | _ => false end.
Definition leb (a b : datetime) : bool :=
  match compare a b with Gt => false | _ => true end.

(** [datetime.isoformat()] of a naive datetime: the fraction is printed
    only when it is not zero. *)
Definition isoformat (d : datetime) : string :=
  Str.zpad 4 (year d) ++ "-" ++ Str.zpad 2 (month d) ++ "-" ++ Str.zpad 2 (day d)
  ++ "T" ++ Str.zpad 2 (hour d) ++ ":" ++ Str.zpad 2 (minute d) ++ ":" ++ Str.zpad 2 (second d)
  ++ (if microsecond d =? 0 then "" else "." ++ Str.zpad 6 (microsecond d)).

(** [strftime("%Y-%m-%d")].  The C library of Linux writes the year in
    decimal without padding it: four digits from the year 1000 on, fewer
    before. *)
Definition year_text (y : Z) : string :=
  if 1000 <=? y then Str.zpad 4 y else Str.of_Z y.

Definition strftime_ymd (d : datetime) : string :=
  year_text (year d) ++ "-" ++ Str.zpad 2 (month d) ++ "-" ++ Str.zpad 2 (day d).

(** The invariant of the [datetime] constructor. *)
Definition valid (d : datetime) : Prop :=
  1 <= year d <= 9999 /\ 1 <= month d <= 12 /\
  1 <= day d <= days_in_month (year d) (month d) /\
  0 <= hour d < 24 /\ 0 <= minute d < 60 /\ 0 <= second d < 60 /\
  0 <= microsecond d < 1000000.

Definition valid_b (d : datetime) : bool :=
  (1 <=? year d) && (year d <=? 9999) && (1 <=? month d) && (month d <=? 12)
  && (1 <=? day d) && (day d <=? days_in_month (year d) (month d))
  && (0 <=? hour d) && (hour d <? 24) && (0 <=? minute d) && (minute d <? 60)
  && (0 <=? second d) && (second d <? 60)
  && (0 <=? microsecond d) && (microsecond d <? 1000000).

Definition digit_val (c : ascii) : option Z :=
  let n := nat_of_ascii c in
  if (48 <=? n)%nat && (n <=? 57)%nat then Some (Z.of_nat (n - 48)) else None.

(** Reads exactly [width] decimal digits. *)
Fixpoint parse_digits (width : nat) (acc : Z) (s : string) : option (Z * string) :=
  match width with
  | O => Some (acc, s)
  | S width' =>
      match s with
      | String c s' =>
          match digit_val c with
          | Some d => parse_digits width' (acc * 10 + d) s'
          | None => None
          end
      | EmptyString => None
      end
  end.

Definition expect (c : ascii) (s : string) : option string :=
  match s with
  | String a s' => if Ascii.eqb a c then Some s' else None
  | EmptyString => None
  end.

(** [datetime.fromisoformat] on the two shapes [isoformat] writes for a
    naive datetime, [YYYY-MM-DDTHH:MM:SS] and [YYYY-MM-DDTHH:MM:SS.ffffff];
    a text of another shape, or fields out of range, give [None]. *)
Definition fromisoformat (s : string) : option datetime :=
  '(y, s) ← parse_digits 4 0 s;
  s ← expect "-" s;
  '(m, s) ← parse_digits 2 0 s;
  s ← expect "-" s;
  '(d, s) ← parse_digits 2 0 s;
  s ← expect "T" s;
  '(hh, s) ← parse_digits 2 0 s;
  s ← expect ":" s;
  '(mm, s) ← parse_digits 2 0 s;
  s ← expect ":" s;
  '(ss, s) ← parse_digits 2 0 s;
  '(us, s) ← match s with
             | EmptyString => Some (0, s)
             | _ => s ← expect "." s; parse_digits 6 0 s
             end;
  match s with
  | EmptyString =>
      let r := mk_datetime y m d hh mm ss us in
      if valid_b r then Some r else None
  | _ => None
  end.

End Datetime.

(** ** The record type (scrapers/base.py) *)

Record JobPosting := mk_JobPosting {
  title : string;
  company : string;
  location : string;
  publication_date : datetime;
  description : string;
  url : string
}.

(** [JobPosting.to_dict]: the flat key-value form, keys in insertion order. *)
Definition to_dict (self : JobPosting) : list (string * string) :=
  [ ("title", title self);
    ("company", company self);
    ("location", location self);
    ("publication_date", Datetime.isoformat (publication_date self));
    ("description", description self);
    ("url", url self) ].

(** ** Exceptions, the world outside the program, and the program state *)

(** The exceptions the program raises itself and those of the files it
    writes: [open] raises [OSError], and a write of a text that has no UTF-8
    form raises [UnicodeEncodeError]. *)
Inductive Exception :=
| NotImplementedError (msg : string)
| KeyError (msg : string)
| ValueError (msg : string)
| OSError (msg : string)
| UnicodeEncodeError (msg : string)
| SystemExit (code : Z).

Inductive Outcome (A : Type) :=
| Return (a : A)
| Raise (e : Exception).
Arguments Return {A} a.
Arguments Raise {A} e.

(** A value of a query-string parameter or of a log argument. *)
Inductive Param := PInt (n : Z) | PStr (s : string).

(** [requests.get(url, params=params, timeout=timeout)] *)
Record Request := mk_Request {
  req_url : string;
  req_params : gmap string Param;
  req_timeout : Z
}.

(** What [requests.get] gives back: it raises (no connection, time-out, ...)
    or returns a response with a status code and a body.  The body is held
    as [response.json()] decodes it, in the shape the board documents; a
    body that is not JSON, or not of that shape, on which the scrapers would
    raise outside their [try] blocks, is not represented. *)
Inductive HttpResult (B : Type) :=
| RequestException (exc : string)
| HttpResponse (status_code : Z) (json : B).
Arguments RequestException {B} exc.
Arguments HttpResponse {B} status_code json.

(** [int(v)] of a JSON field that should hold a number. *)
Inductive JsonInt := JInt (n : Z) | JNotInt.

(** The JSON of The Muse as documented: every key may be missing; a key
    that is present holds a value of the kind the scraper expects. *)
Record MuseLocation := mk_MuseLocation { loc_name : option string }.
Record MuseCompany := mk_MuseCompany { muse_company_name : option string }.
Record MuseRefs := mk_MuseRefs { landing_page : option string }.
Record MuseJob := mk_MuseJob {
  mj_publication_date : option string;
  mj_locations : option (list MuseLocation);
  mj_name : option string;
  mj_company : option MuseCompany;
  mj_contents : option string;
  mj_refs : option MuseRefs
}.
Record MusePage := mk_MusePage {
  mp_results : option (list MuseJob);
  mp_page_count : option JsonInt
}.

(** The JSON of Remotive. *)
Record RemotiveJob := mk_RemotiveJob {
  rj_publication_date : option string;
  rj_candidate_required_location : option string;
  rj_title : option string;
  rj_company_name : option string;
  rj_url : option string;
  rj_description : option string
}.
Record RemotivePage := mk_RemotivePage { rp_jobs : option (list RemotiveJob) }.

(** The world: the wall clock, the two job boards and the operating system
    under the files.  [utcnow k] is what the [k]-th reading of the clock
    returns; a board answers a request knowing how many requests the process
    sent before it; [open_error path] is the message of the [OSError] that
    opening [path] for writing meets (a missing directory, a path that is a
    directory, no permission), [write_error path text] that of the [OSError]
    that writing [text] to the open file meets (a full disk), and [None]
    when there is none. *)
Record World := mk_World {
  utcnow : nat -> datetime;
  themuse_api : nat -> Request -> HttpResult MusePage;
  remotive_api : nat -> Request -> HttpResult RemotivePage;
  open_error : string -> option string;
  write_error : string -> string -> option string
}.

Inductive Scraper := TheMuseScraper | IndeedScraper | LinkedInScraper | RemotiveScraper.

Record LogRecord := mk_LogRecord { log_format : string; log_args : list Param }.

(** [str] of a log argument, and the message of a record: [msg % args]. *)
Definition param_text (p : Param) : string :=
  match p with
  | PInt n => Str.of_Z n
  | PStr s => s
  end.

Definition log_line (r : LogRecord) : string :=
  Str.percent (log_format r) (map param_text (log_args r)).

Record State := mk_State {
  clock_reads : nat;                        (* readings of the clock so far *)
  sent : list Request;                      (* requests sent so far, oldest first *)
  logged : list LogRecord;                  (* logger.error records, oldest first *)
  registry : list (string * Scraper);       (* the module-level dict SCRAPERS *)
  fs : gmap string string;                  (* files by path *)
  stdout : list string;                     (* what was printed, oldest first *)
  stderr : list string                      (* what went to standard error *)
}.

Definition M (A : Type) : Type := State -> Outcome A * State.

Definition ret {A} (a : A) : M A := fun st => (Return a, st).
Definition raise {A} (e : Exception) : M A := fun st => (Raise e, st).
Definition bind {A B} (m : M A) (k : A -> M B) : M B :=
  fun st =>
    match m st with
    | (Return a, st') => k a st'
    | (Raise e, st') => (Raise e, st')
    end.

Notation "'let*' x ':=' m 'in' k" := (bind m (fun x => k))
  (at level 10, x name, m at level 100, k at level 200).

Definition tick (st : State) : State :=
  mk_State (S (clock_reads st)) (sent st) (logged st) (registry st) (fs st) (stdout st) (stderr st).
Definition add_sent (r : Request) (st : State) : State :=
  mk_State (clock_reads st) (sent st ++ [r])%list (logged st) (registry st) (fs st) (stdout st) (stderr st).
Definition add_logged (r : LogRecord) (st : State) : State :=
  mk_State (clock_reads st) (sent st) (logged st ++ [r])%list (registry st) (fs st) (stdout st) (stderr st).
Definition set_fs (f : gmap string string) (st : State) : State :=
  mk_State (clock_reads st) (sent st) (logged st) (registry st) f (stdout st) (stderr st).
Definition add_stdout (s : string) (st : State) : State :=
  mk_State (clock_reads st) (sent st) (logged st) (registry st) (fs st) (stdout st ++ [s])%list (stderr st).
Definition add_stderr (s : string) (st : State) : State :=
  mk_State (clock_reads st) (sent st) (logged st) (registry st) (fs st) (stdout st) (stderr st ++ [s])%list.

(** [logger.error(fmt, *args)].  The program configures no logging, so the
    record goes to the handler of last resort, which prints its message on
    standard error. *)
Definition add_error (r : LogRecord) (st : State) : State :=
  add_stderr (log_line r) (add_logged r st).

Definition logger_error (fmt : string) (args : list Param) : M unit :=
  fun st => (Return tt, add_error (mk_LogRecord fmt args) st).

(** [print]: the two standard streams are taken to accept every text. *)
Definition print (s : string) : M unit := fun st => (Return tt, add_stdout s st).
Definition print_stderr (s : string) : M unit := fun st => (Return tt, add_stderr s st).

(** ** Dictionaries with string keys, in insertion order *)

Fixpoint dict_get {V : Type} (k : string) (d : list (string * V)) : option V :=
  match d with
  | [] => None
  | (k', v) :: d' => if String.eqb k k' then Some v else dict_get k d'
  end.

Definition dict_keys {V : Type} (d : list (string * V)) : list string := map fst d.

(** ** [list.sort(key=key, reverse=True)]: descending by key and stable *)

Module Sort.
Section Sort.
Context {A K : Type} (key : A -> K) (le : K -> K -> bool).

Fixpoint insert_desc (x : A) (l : list A) : list A :=
  match l with
  | [] => [x]
  | y :: l' => if le (key y) (key x) then x :: y :: l' else y :: insert_desc x l'
  end.

Fixpoint sort_desc (l : list A) : list A :=
  match l with
  | [] => []
  | x :: l' => insert_desc x (sort_desc l')
  end.
End Sort.
End Sort.

(** ** [os.path.splitext] on POSIX paths *)

Module Path.

(** [s.rfind(c)], [None] for -1. *)
Fixpoint rfind (c : ascii) (s : string) : option nat :=
  match s with
  | EmptyString => None
  | String a s' =>
      match rfind c s' with
      | Some i => Some (S i)
      | None => if Ascii.eqb a c then Some O else None
      end
  end.

Fixpoint all_dots (s : string) : bool :=
  match s with
  | EmptyString => true
  | String a s' => Ascii.eqb a "." && all_dots s'
  end.

(** The extension starts at the last dot of the last path component,
    unless only dots come before it in that component. *)
Definition splitext (p : string) : string * string :=
  match rfind "." p with
  | None => (p, "")
  | Some dotIndex =>
      let filenameIndex :=
        match rfind "/" p with
        | Some sepIndex => S sepIndex
        | None => O
        end in
      if (filenameIndex <=? dotIndex)%nat
         && negb (all_dots (substring filenameIndex (dotIndex - filenameIndex) p))
      then (substring 0 dotIndex p, substring dotIndex (String.length p - dotIndex) p)
      else (p, "")
  end.

End Path.

(** ** [json.dump(obj, f, ensure_ascii=False, indent=2)] *)

Module Json.

(** The JSON values the program writes: strings, arrays and objects. *)
#[warnings="-register-all"]
Inductive value :=
| Str (s : string)
| Arr (items : list value)
| Obj (members : list (string * value)).

Definition dquote : ascii := "034"%char.
Definition backslash : ascii := "092"%char.
Definition LF : ascii := "010"%char.
Definition CR : ascii := "013"%char.
Definition TAB : ascii := "009"%char.
Definition BS : ascii := "008"%char.
Definition FF : ascii := "012"%char.

Definition hex_digit (n : nat) : ascii :=
  if (n <? 10)%nat then ascii_of_nat (48 + n) else ascii_of_nat (87 + n).

(** The escape table of the encoder when [ensure_ascii] is off: the quote,
    the backslash and the control characters below 0x20. *)
Definition escape_char (c : ascii) : string :=
  let n := nat_of_ascii c in
  let esc (e : ascii) := String backslash (String e EmptyString) in
  if Ascii.eqb c dquote then esc dquote
  else if Ascii.eqb c backslash then esc backslash
  else if Ascii.eqb c LF then esc "n"%char
  else if Ascii.eqb c CR then esc "r"%char
  else if Ascii.eqb c TAB then esc "t"%char
  else if Ascii.eqb c BS then esc "b"%char
  else if Ascii.eqb c FF then esc "f"%char
  else if (n <? 32)%nat then
    String backslash
      (String "u" (String "0" (String "0"
        (String (hex_digit (n / 16)%nat) (String (hex_digit (n mod 16)%nat) EmptyString)))))
  else String c EmptyString.

Fixpoint escape (s : string) : string :=
  match s with
  | EmptyString => EmptyString
  | String c s' => escape_char c ++ escape s'
  end.

Definition encode_string (s : string) : string :=
  String dquote (escape s ++ String dquote EmptyString).

Fixpoint spaces (n : nat) : string :=
  match n with
  | O => EmptyString
  | S n' => String " " (spaces n')
  end.

(** A line break and the indentation of nesting depth [level]. *)
Definition newline_indent (level : nat) : string := String LF (spaces (2 * level)).



(** The pieces in which the encoder hands the text to [json.dump], which
    writes them one by one ([_make_iterencode]).  An array gives its opening
    bracket together with the first item when that is a string and alone
    otherwise, and likewise each separator; an object gives its brace, each
    separator, each key, each colon and each value apart. *)
Section Chunks.
Variable enc : value -> list string.
Variable separator : string.

Fixpoint items_chunks (buf : string) (l : list value) : list string :=
  match l with
  | [] => []
  | item :: l' =>
      let chunks :=
        match item with
        | Str s => [(buf ++ encode_string s)%string]
        | _ => buf :: enc item
        end in
      (chunks ++ items_chunks separator l')%list
  end.

Fixpoint members_chunks (first : bool) (l : list (string * value)) : list string :=
  match l with
  | [] => []
  | kv :: l' =>
      ((if first then [] else [separator])
       ++ [encode_string (fst kv); ": "] ++ enc (snd kv) ++ members_chunks false l')%list
  end.
End Chunks.

Fixpoint iterencode (level : nat) (v : value) : list string :=
  let separator := ("," ++ newline_indent (S level))%string in
  match v with
  | Str s => [encode_string s]
  | Arr [] => ["[]"]
  | Arr items =>
      (items_chunks (iterencode (S level)) separator
         ("[" ++ newline_indent (S level))%string items
       ++ [newline_indent level; "]"])%list
  | Obj [] => ["{}"]
  | Obj members =>
      (["{"; newline_indent (S level)]
       ++ members_chunks (iterencode (S level)) separator true members
       ++ [newline_indent level; "}"])%list
  end.

(** A flat dictionary of strings as a JSON object. *)
Definition of_dict (d : list (string * string)) : value :=
  Obj (map (fun kv => (fst kv, Str (snd kv))) d).

(** *** [json.load]: the decoder, for the same three kinds of value *)















End Json.

(** ** [csv.DictWriter] with the default (excel) dialect *)

Module Csv.

Definition special (c : ascii) : bool :=
  Ascii.eqb c "," || Ascii.eqb c Json.dquote || Ascii.eqb c Json.CR || Ascii.eqb c Json.LF.

Fixpoint needs_quotes (field : string) : bool :=
  match field with
  | EmptyString => false
  | String c s => special c || needs_quotes s
  end.

(** Every quote character is written twice. *)
Fixpoint double_quotes (field : string) : string :=
  match field with
  | EmptyString => EmptyString
  | String c s =>
      if Ascii.eqb c Json.dquote then String c (String c (double_quotes s))
      else String c (double_quotes s)
  end.

Definition write_field (field : string) : string :=
  if needs_quotes field
  then String Json.dquote (double_quotes field ++ String Json.dquote EmptyString)
  else field.

Definition lineterminator : string := String Json.CR (String Json.LF EmptyString).

(** [writer.writerow(fields)] for a row of at least two fields. *)
Definition writerow (fields : list string) : string :=
  Str.join "," (map write_field fields) ++ lineterminator.

(** [DictWriter._dict_to_list]: a key outside [fieldnames] is an error,
    a missing key gives the empty field. *)
Definition dict_to_list (fieldnames : list string) (rowdict : list (string * string))
    : option (list string) :=
  if forallb (fun k => existsb (String.eqb k) fieldnames) (dict_keys rowdict)
  then Some (map (fun k => default "" (dict_get k rowdict)) fieldnames)
  else None.

End Csv.

(** ** Reading the JSON output back *)



(** ** The scrapers *)

Inductive ReFlag := DOTALL | IGNORECASE.

(** A value together with the equation that it is the value of [a]. *)
Definition inspect {A : Type} (a : A) : {b : A | a = b} := exist _ a eq_refl.

(** The pages The Muse may still be asked for: unknown before the first
    answer, then [total_pages + 1 - page]. *)
Inductive fewer_pages : option nat -> option nat -> Prop :=
| fewer_known (n : nat) : fewer_pages (Some n) None
| fewer_lt (n m : nat) : (n < m)%nat -> fewer_pages (Some n) (Some m).

Lemma fewer_pages_acc_below (n : nat) :
  forall m, (m < n)%nat -> Acc fewer_pages (Some m).
Proof.
  induction n as [|n IH]; intros m Hm.
  - exfalso. exact (Nat.nlt_0_r m Hm).
  - constructor. intros y Hy.
    refine (match Hy in fewer_pages a b
                  return b = Some m -> Acc fewer_pages a with
            | fewer_known _ => fun E => _
            | fewer_lt k j Hkj => fun E => _
            end eq_refl).
    + discriminate E.
    + apply IH. injection E as ->.
      exact (Nat.lt_le_trans _ _ _ Hkj (proj1 (Nat.lt_succ_r _ _) Hm)).
Defined.

#[local] Instance fewer_pages_wf : WellFounded fewer_pages.
Proof.
  intros [n|].
  - exact (fewer_pages_acc_below (S n) n (Nat.lt_succ_diag_r n)).
  - constructor. intros y Hy.
    refine (match Hy in fewer_pages a b return b = None -> Acc fewer_pages a with
            | fewer_known k => fun _ => fewer_pages_acc_below (S k) k (Nat.lt_succ_diag_r k)
            | fewer_lt _ _ _ => fun E => _
            end eq_refl).
    discriminate E.
Defined.

Section Program.

(** [str.lower], which folds a text to lower case by the tables of
    Unicode.  The program depends on it through equalities and substring
    tests of lowered texts only. *)
Variable lower : string -> string.

(** The libraries the scrapers call: [dateutil.parser.isoparse] followed by
    [.replace(tzinfo=None)] ([None] when it raises), and [re.sub]. *)
Variable isoparse : string -> option datetime.
Variable re_sub : string -> list ReFlag -> string -> string -> string.

(** [tabulate(rows, headers=headers, tablefmt="github")] *)
Variable tabulate : list (list string) -> list string -> string.

Variable w : World.

Definition datetime_utcnow : M datetime :=
  fun st => (Return (utcnow w (clock_reads st)), tick st).

(** [BaseScraper._within_days] *)
Definition _within_days (date : datetime) (days : option Z) : M bool :=
  match days with
  | None => ret true
  | Some days =>
      let* now := datetime_utcnow in
      let delta := Datetime.sub now date in
      ret (td_days delta <? days)
  end.

(** [_strip_html], the same in both scrapers. *)
Definition _strip_html (html : string) : string :=
  let html := re_sub "<script.*?</script>" [DOTALL; IGNORECASE] "" html in
  let html := re_sub "<style.*?</style>" [DOTALL; IGNORECASE] "" html in
  let text := re_sub "<[^>]+>" [] "" html in
  let text := re_sub "\s+" [] " " text in
  Str.strip text.

(** The publication date of an item, or [None] when the [try] block
    raises: the key is missing or the text does not parse. *)
Definition parse_publication_date (raw : option string) : option datetime :=
  match raw with
  | Some s => isoparse s
  | None => None
  end.

(** [if location:] holds for a string that is present and not empty. *)
Definition location_given (location : option string) : option string :=
  match location with
  | Some l => if Str.truthy l then Some l else None
  | None => None
  end.

(** [max_results is not None and n >= max_results] *)
Definition cap_reached (max_results : option Z) (n : Z) : bool :=
  match max_results with
  | Some m => m <=? n
  | None => false
  end.

(** *** The Muse *)

Definition THEMUSE_API_ENDPOINT : string := "https://www.themuse.com/api/public/jobs".

Definition remote_keywords : list string := ["remote"; "flexible"].

(** Lines 93-101 of themuse_scraper.py: the value of [match] when the
    location filter [location] is applied to [job]. *)
Definition muse_loc_names (job : MuseJob) : list string :=
  map (fun loc => default "" (loc_name loc)) (default [] (mj_locations job)).

Definition muse_location_match (location : string) (job : MuseJob) : bool :=
  let loc_names := muse_loc_names job in
  let matched :=
    existsb (fun loc_name => Str.contains (lower location) (lower loc_name)) loc_names in
  if negb matched then
    existsb (fun loc_name =>
               existsb (fun keyword => Str.contains keyword (lower loc_name)) remote_keywords)
            loc_names
  else matched.

(** Lines 92-103: the item goes on to become a posting. *)
Definition muse_location_pass (location : option string) (job : MuseJob) : bool :=
  match location_given location with
  | Some l => muse_location_match l job
  | None => true
  end.

Definition muse_posting (job : MuseJob) (pub_date : datetime) : JobPosting :=
  let title := Str.strip (default "" (mj_name job)) in
  let company_name :=
    Str.strip (default "" (muse_company_name (default (mk_MuseCompany None) (mj_company job)))) in
  let loc := default [] (mj_locations job) in
  let loc_str :=
    match loc with
    | first :: _ => default "" (loc_name first)
    | [] => ""
    end in
  let description := _strip_html (default "" (mj_contents job)) in
  let url := default "" (landing_page (default (mk_MuseRefs None) (mj_refs job))) in
  mk_JobPosting title company_name loc_str pub_date description url.

(** How the [for job in jobs] loop of The Muse ends: the list is used up,
    or [return results] is reached inside it. *)
Inductive ForExit :=
| Exhausted (results : list JobPosting) (fetched : Z)
| Returned (results : list JobPosting).

Fixpoint muse_for (location : option string) (days max_results : option Z)
    (jobs : list MuseJob) (results : list JobPosting) (fetched : Z) : M ForExit :=
  match jobs with
  | [] => ret (Exhausted results fetched)
  | job :: jobs' =>
      match parse_publication_date (mj_publication_date job) with
      | None => muse_for location days max_results jobs' results fetched
      | Some pub_date =>
          let* recent := _within_days pub_date days in
          if negb recent then muse_for location days max_results jobs' results fetched
          else
            if negb (muse_location_pass location job)
            then muse_for location days max_results jobs' results fetched
            else
              let results := (results ++ [muse_posting job pub_date])%list in
              let fetched := fetched + 1 in
              if cap_reached max_results fetched then ret (Returned results)
              else muse_for location days max_results jobs' results fetched
      end
  end.

(** The variables of the [while True] loop. *)
Record MuseLoop := mk_MuseLoop {
  ml_results : list JobPosting;
  ml_page : Z;
  ml_fetched : Z;
  ml_total_pages : option Z
}.

(** One pass through the body of the loop ends the search ([break] and
    [return results] both return [results]) or goes on to the next page. *)
Inductive MuseStep :=
| Stop (results : list JobPosting)
| Next (ls : MuseLoop).

Definition muse_params (query : string) (location : option string) (page : Z)
    : gmap string Param :=
  let params : gmap string Param := {[ "page" := PInt page ]} in
  let params := if Str.truthy query then <[ "q" := PStr query ]> params else params in
  match location_given location with
  | Some l => <[ "location" := PStr l ]> params
  | None => params
  end.

Definition muse_get (r : Request) : M (HttpResult MusePage) :=
  fun st => (Return (themuse_api w (List.length (sent st)) r), add_sent r st).

(** [int(data.get("page_count", 0))], 0 when [int] raises. *)
Definition page_count_of (data : MusePage) : Z :=
  match mp_page_count data with
  | None => 0
  | Some (JInt n) => n
  | Some JNotInt => 0
  end.

Definition past_last_page (ls : MuseLoop) : bool :=
  match ml_total_pages ls with
  | Some total_pages => total_pages <? ml_page ls
  | None => false
  end.

Definition muse_body (query : string) (location : option string)
    (days max_results : option Z) (ls : MuseLoop) : M MuseStep :=
  if past_last_page ls then ret (Stop (ml_results ls))
  else
    let params := muse_params query location (ml_page ls) in
    let* response := muse_get (mk_Request THEMUSE_API_ENDPOINT params 10) in
    match response with
    | RequestException exc =>
        let* _ := logger_error "Error contacting The Muse API: %s" [PStr exc] in
        ret (Stop (ml_results ls))
    | HttpResponse status_code data =>
        if negb (status_code =? 200) then
          let* _ := logger_error "The Muse API returned non‑200 status %s for page %s"
                                 [PInt status_code; PInt (ml_page ls)] in
          ret (Stop (ml_results ls))
        else
          let jobs := default [] (mp_results data) in
          match jobs with
          | [] => ret (Stop (ml_results ls))
          | _ :: _ =>
              let* exit := muse_for location days max_results jobs (ml_results ls) (ml_fetched ls) in
              match exit with
              | Returned results => ret (Stop results)
              | Exhausted results fetched =>
                  let total_pages :=
                    match ml_total_pages ls with
                    | None => page_count_of data
                    | Some total_pages => total_pages
                    end in
                  ret (Next (mk_MuseLoop results (ml_page ls + 1) fetched (Some total_pages)))
              end
          end
    end.

Definition pages_left (ls : MuseLoop) : option nat :=
  match ml_total_pages ls with
  | Some total_pages => Some (Z.to_nat (total_pages + 1 - ml_page ls))
  | None => None
  end.

(** The [while True] loop. *)
Equations? muse_while (query : string) (location : option string)
    (days max_results : option Z) (ls : MuseLoop) (st : State)
    : Outcome (list JobPosting) * State by wf (pages_left ls) fewer_pages :=
  muse_while query location days max_results ls st
    with inspect (muse_body query location days max_results ls st) := {
    | exist _ (Return (Stop results), st') _ => (Return results, st')
    | exist _ (Return (Next ls'), st') Hbody =>
        muse_while query location days max_results ls' st'
    | exist _ (Raise e, st') _ => (Raise e, st') }.
Proof.
  revert Hbody. unfold muse_body, pages_left, past_last_page, bind, ret, logger_error, muse_get.
  destruct (ml_total_pages ls) as [tp|] eqn:Htp.
  - destruct (tp <? ml_page ls) eqn:Hlt; [discriminate|].
    destruct (themuse_api _ _ _) as [exc|code data]; [discriminate|].
    destruct (negb _); [discriminate|].
    destruct (default [] (mp_results data)); [discriminate|].
    destruct (muse_for _ _ _ _ _ _ _) as [[[r f|r]|e] s]; try discriminate.
    intros H; inversion H; subst; cbn.
    apply fewer_lt. apply Z.ltb_ge in Hlt. lia.
  - destruct (themuse_api _ _ _) as [exc|code data]; [discriminate|].
    destruct (negb _); [discriminate|].
    destruct (default [] (mp_results data)); [discriminate|].
    destruct (muse_for _ _ _ _ _ _ _) as [[[r f|r]|e] s]; try discriminate.
    intros H; inversion H; subst; cbn.
    apply fewer_known.
Defined.

(** [TheMuseScraper.search] *)
Definition themuse_search (query : string) (location : option string)
    (days max_results : option Z) : M (list JobPosting) :=
  muse_while query location days max_results (mk_MuseLoop [] 1 0 None).

(** *** Remotive *)

Definition REMOTIVE_API_ENDPOINT : string := "https://remotive.com/api/remote-jobs".

(** Lines 67-70 of remotive_scraper.py. *)
Definition remotive_location_pass (location : option string) (job_location : string) : bool :=
  match location_given location with
  | Some l => Str.contains (lower l) (lower job_location)
  | None => true
  end.

Definition remotive_posting (job : RemotiveJob) (job_location : string)
    (pub_date : datetime) : JobPosting :=
  let title := Str.strip (default "" (rj_title job)) in
  let company_name := Str.strip (default "" (rj_company_name job)) in
  let url := Str.strip (default "" (rj_url job)) in
  let description := _strip_html (default "" (rj_description job)) in
  mk_JobPosting title company_name job_location pub_date description url.

(** The [for job in jobs] loop of Remotive; [break] ends it. *)
Fixpoint remotive_for (location : option string) (days max_results : option Z)
    (jobs : list RemotiveJob) (results : list JobPosting) : M (list JobPosting) :=
  match jobs with
  | [] => ret results
  | job :: jobs' =>
      match parse_publication_date (rj_publication_date job) with
      | None => remotive_for location days max_results jobs' results
      | Some pub_date =>
          let* recent := _within_days pub_date days in
          if negb recent then remotive_for location days max_results jobs' results
          else
            let job_location := Str.strip (default "" (rj_candidate_required_location job)) in
            if negb (remotive_location_pass location job_location)
            then remotive_for location days max_results jobs' results
            else
              let results := (results ++ [remotive_posting job job_location pub_date])%list in
              if cap_reached max_results (Z.of_nat (List.length results)) then ret results
              else remotive_for location days max_results jobs' results
      end
  end.

Definition remotive_get (r : Request) : M (HttpResult RemotivePage) :=
  fun st => (Return (remotive_api w (List.length (sent st)) r), add_sent r st).

(** [RemotiveScraper.search] *)
Definition remotive_search (query : string) (location : option string)
    (days max_results : option Z) : M (list JobPosting) :=
  let params : gmap string Param :=
    if Str.truthy query then {[ "search" := PStr query ]} else ∅ in
  let* response := remotive_get (mk_Request REMOTIVE_API_ENDPOINT params 10) in
  match response with
  | RequestException exc =>
      let* _ := logger_error "Error contacting Remotive API: %s" [PStr exc] in
      ret []
  | HttpResponse status_code data =>
      if negb (status_code =? 200) then
        let* _ := logger_error "Remotive API returned status %s" [PInt status_code] in
        ret []
      else
        let jobs := default [] (rp_jobs data) in
        remotive_for location days max_results jobs []
  end.

(** *** The two placeholders *)

Definition indeed_search (query : string) (location : option string)
    (days max_results : option Z) : M (list JobPosting) :=
  raise (NotImplementedError
    "Indeed scraping is not implemented. Indeed restricts scraping; consider using their official API or third‑party services.").

Definition linkedin_search (query : string) (location : option string)
    (days max_results : option Z) : M (list JobPosting) :=
  raise (NotImplementedError
    "LinkedIn scraping is not implemented. LinkedIn terms of service prohibit automated scraping; please use their official API or other tools.").

(** *** The shared interface: [site_name] and [search] of each class *)

Definition site_name (self : Scraper) : string :=
  match self with
  | TheMuseScraper => "themuse"
  | IndeedScraper => "indeed"
  | LinkedInScraper => "linkedin"
  | RemotiveScraper => "remotive"
  end.

Definition search (self : Scraper) (query : string) (location : option string)
    (days max_results : option Z) : M (list JobPosting) :=
  match self with
  | TheMuseScraper => themuse_search query location days max_results
  | IndeedScraper => indeed_search query location days max_results
  | LinkedInScraper => linkedin_search query location days max_results
  | RemotiveScraper => remotive_search query location days max_results
  end.

(** ** The registry (scrapers/__init__.py, job_scraper/__init__.py) *)

(** The dictionary [SCRAPERS] as the module defines it.  A class stands
    for its instances: a scraper has no fields. *)
Definition SCRAPERS : list (string * Scraper) :=
  [ (site_name TheMuseScraper, TheMuseScraper);
    (site_name IndeedScraper, IndeedScraper);
    (site_name LinkedInScraper, LinkedInScraper);
    (site_name RemotiveScraper, RemotiveScraper) ].

Definition get_scraper (site_name : string) : M Scraper :=
  fun st =>
    let site := lower site_name in
    match dict_get site (registry st) with
    | None =>
        (Raise (KeyError ("Unknown site '" ++ site_name ++ "'. Available sites: "
                          ++ Str.join ", " (dict_keys (registry st)))), st)
    | Some cls => (Return cls, st)
    end.

(** ** The command line (cli.py) *)

(** The result of [parse_args]. *)
Record Namespace := mk_Namespace {
  ns_site : string;
  ns_query : string;
  ns_location : option string;
  ns_days : Z;
  ns_max_results : Z;
  ns_output : option string
}.

Definition format_console (jobs : list JobPosting) : M unit :=
  let rows :=
    map (fun job => [ title job; company job; location job;
                      Datetime.strftime_ymd (publication_date job); url job ]) jobs in
  let headers := ["Title"; "Company"; "Location"; "Posted"; "URL"] in
  let table := tabulate rows headers in
  print table.

(** [open(path, "w", encoding="utf-8")] creates the file or empties it,
    unless the operating system refuses; nothing is created then. *)
Definition open_w (path : string) : M unit :=
  fun st =>
    match open_error w path with
    | Some msg => (Raise (OSError msg), st)
    | None => (Return tt, set_fs (<[ path := "" ]> (fs st)) st)
    end.

(** [f.write(text)] appends to the file.  The text is encoded first, and a
    lone surrogate has no UTF-8 form: the write raises and the file keeps
    what the earlier writes put there. *)
Definition f_write (path : string) (text : string) : M unit :=
  fun st =>
    if Str.has_surrogate text then
      (Raise (UnicodeEncodeError "surrogates not allowed"), st)
    else
      match write_error w path text with
      | Some msg => (Raise (OSError msg), st)
      | None =>
          (Return tt, set_fs (<[ path := default "" (fs st !! path) ++ text ]> (fs st)) st)
      end.

(** [json.dump(obj, f, ...)]: [for chunk in iterable: fp.write(chunk)]. *)
Fixpoint write_chunks (path : string) (chunks : list string) : M unit :=
  match chunks with
  | [] => ret tt
  | chunk :: chunks' =>
      let* _ := f_write path chunk in
      write_chunks path chunks'
  end.

Definition json_dump (v : Json.value) (path : string) : M unit :=
  write_chunks path (Json.iterencode 0 v).

Definition csv_fieldnames : list string :=
  ["title"; "company"; "location"; "publication_date"; "description"; "url"].

Fixpoint csv_writerows (path : string) (jobs : list JobPosting) : M unit :=
  match jobs with
  | [] => ret tt
  | job :: jobs' =>
      match Csv.dict_to_list csv_fieldnames (to_dict job) with
      | Some row =>
          let* _ := f_write path (Csv.writerow row) in
          csv_writerows path jobs'
      | None => raise (ValueError "dict contains fields not in fieldnames")
      end
  end.

Definition wrote_message (jobs : list JobPosting) (path : string) : string :=
  "Wrote " ++ Str.of_nat (List.length jobs) ++ " jobs to " ++ path.

Definition write_output (jobs : list JobPosting) (path : string) : M unit :=
  let ext := lower (snd (Path.splitext path)) in
  if String.eqb ext ".json" then
    let* _ := open_w path in
    let* _ := json_dump (Json.Arr (map (fun job => Json.of_dict (to_dict job)) jobs)) path in
    print (wrote_message jobs path)
  else if String.eqb ext ".csv" then
    let* _ := open_w path in
    let* _ := f_write path (Csv.writerow csv_fieldnames) in
    let* _ := csv_writerows path jobs in
    print (wrote_message jobs path)
  else
    raise (ValueError ("Unsupported output format '" ++ ext ++ "'. Please use .json or .csv.")).

(** [jobs.sort(key=lambda j: j.publication_date, reverse=True)] *)
Definition sort_jobs (jobs : list JobPosting) : list JobPosting :=
  Sort.sort_desc publication_date Datetime.leb jobs.

(** [try: ... except NotImplementedError as e: ...] *)
Definition except_NotImplementedError {A : Type} (body : M A) (handler : string -> M A) : M A :=
  fun st =>
    match body st with
    | (Raise (NotImplementedError msg), st') => handler msg st'
    | other => other
    end.

(** [days = args.days if args.days > 0 else None] *)
Definition normalize_days (days : Z) : option Z :=
  if 0 <? days then Some days else None.

(** The output sink: a file when [args.output] is given, else the console. *)
Definition emit (output : option string) (jobs : list JobPosting) : M unit :=
  match output with
  | Some path => if Str.truthy path then write_output jobs path else format_console jobs
  | None => format_console jobs
  end.

Definition main (args : Namespace) : M unit :=
  let site := lower (ns_site args) in
  let* scraper := get_scraper site in
  let days := normalize_days (ns_days args) in
  let* jobs := except_NotImplementedError
            (search scraper (ns_query args) (ns_location args) days
                    (Some (ns_max_results args)))
            (fun msg => let* _ := print_stderr msg in raise (SystemExit 1)) in
  let jobs := sort_jobs jobs in
  emit (ns_output args) jobs.

End Program.

(** ** Sample inputs *)

(** The state of a process that has just started. *)
Definition initial_state : State := mk_State 0 [] [] SCRAPERS ∅ [] [].

Definition sample_date (y m d : Z) : datetime := mk_datetime y m d 0 0 0 0.

Definition sample_re_sub (pattern : string) (flags : list ReFlag) (repl s : string) : string := s.

Definition sample_tabulate (rows : list (list string)) (headers : list string) : string :=
  Str.join " | " (headers ++ List.concat rows)%list.

(** The clock stands at noon of 2 March 2024 and advances a second with
    every reading. *)
Definition sample_clock (k : nat) : datetime := mk_datetime 2024 3 2 12 0 (Z.of_nat k) 0.

Definition muse_job_dated (d : string) (names : list string) : MuseJob :=
  mk_MuseJob (Some d) (Some (map (fun n => mk_MuseLocation (Some n)) names))
             (Some "Engineer") (Some (mk_MuseCompany (Some "Acme"))) (Some "text")
             (Some (mk_MuseRefs (Some "https://example.org/job"))).

Definition remotive_job_dated (d : string) : RemotiveJob :=
  mk_RemotiveJob (Some d) (Some "Worldwide") (Some "Engineer") (Some "Acme")
                 (Some "https://example.org/job") (Some "text").

(** The Muse answers page 1 with two items and announces two pages; every
    other request to it fails in transport.  Remotive answers with three
    items.  Every file opens and takes what is written to it. *)
Definition sample_world : World :=
  mk_World sample_clock
    (fun _ r =>
       match req_params r !! "page" with
       | Some (PInt 1) =>
           HttpResponse 200
             (mk_MusePage
                (Some [ muse_job_dated "2024-03-01T00:00:00" ["Remote"];
                        muse_job_dated "2024-03-02T00:00:00" ["Boston, MA"] ])
                (Some (JInt 2)))
       | _ => RequestException "connection reset"
       end)
    (fun _ _ =>
       HttpResponse 200
         (mk_RemotivePage
            (Some [ remotive_job_dated "2024-01-01T00:00:00";
                    remotive_job_dated "2024-03-01T00:00:00";
                    remotive_job_dated "2024-02-01T00:00:00" ])))
    (fun _ => None)
    (fun _ _ => None).

Definition sample_search (self : Scraper) (days max_results : option Z)
    : Outcome (list JobPosting) * State :=
  search Str.ascii_lower Datetime.fromisoformat sample_re_sub sample_world self "engineer" None
         days max_results initial_state.


Definition posting_dated (d : datetime) : JobPosting := mk_JobPosting "" "" "" d "" "".

(** The Muse asked without a cap: page 1 answers, page 2 fails. *)
Definition sample_muse_all : Outcome (list JobPosting) * State :=
  sample_search TheMuseScraper None None.

Definition sample_muse_all_jobs : list JobPosting :=
  match fst sample_muse_all with
  | Return jobs => jobs
  | Raise _ => []
  end.

(** Remotive asked without a number of days and without a cap. *)
Definition sample_remotive_all : Outcome (list JobPosting) * State :=
  sample_search RemotiveScraper None None.

Definition sample_remotive_all_jobs : list JobPosting :=
  match fst sample_remotive_all with
  | Return jobs => jobs
  | Raise _ => []
  end.

(** Remotive asked for the postings of the last seven days. *)
Definition sample_recent : Outcome (list JobPosting) * State :=
  sample_search RemotiveScraper (Some 7) None.

Definition sample_recent_jobs : list JobPosting :=
  match fst sample_recent with
  | Return jobs => jobs
  | Raise _ => []
  end.


(** The command line [--site remotive --query engineer --days 0]. *)
Definition sample_args : Namespace := mk_Namespace "remotive" "engineer" None 0 50 None.

Definition sample_found : list JobPosting :=
  match fst (sample_search RemotiveScraper None (Some 50)) with
  | Return jobs => jobs
  | Raise _ => []
  end.

(** ** Vocabulary of the specification *)

(** [p] occurs in [s]. *)
Definition Substring (p s : string) : Prop :=
  exists pre post : string, s = pre ++ p ++ post.

(** What is known of [str.lower] without its tables: on a text of ASCII
    characters it folds the letters A to Z and keeps the rest. *)
Definition lowers_ascii (lower : string -> string) : Prop :=
  forall s, Str.is_ascii s = true -> lower s = Str.ascii_lower s.

(** [p] occurs in [s] when case is ignored, that is, after [str.lower] on
    both. *)
Definition SubstringNoCase (lower : string -> string) (p s : string) : Prop :=
  Substring (lower p) (lower s).

(** The extension [write_output] looks at. *)
Definition output_ext (lower : string -> string) (path : string) : string :=
  lower (snd (Path.splitext path)).






(** The posting is dated after the point [D] days before the [k]-th reading
    of the clock: it is not older than [now - D days]. *)
Definition newer_than (w : World) (D : Z) (k : nat) (p : JobPosting) : Prop :=
  Datetime.timeline (utcnow w k) - D * Datetime.us_per_day
  < Datetime.timeline (publication_date p).

(** With a number of days, the posting was compared with a reading of the
    clock taken between the [lo]-th and the [hi]-th and found recent. *)
Definition seen_recent (w : World) (days : option Z) (lo hi : nat) (p : JobPosting) : Prop :=
  match days with
  | Some D => exists k, (lo <= k < hi)%nat /\ newer_than w D k p
  | None => True
  end.

(** A request that fails: [requests.get] raised, or the status is not 200. *)
Definition failed {B : Type} (r : HttpResult B) : Prop :=
  match r with
  | RequestException _ => True
  | HttpResponse status_code _ => status_code <> 200
  end.

(** The request The Muse receives for page [page]. *)
Definition muse_request (query : string) (location : option string) (page : Z) : Request :=
  mk_Request THEMUSE_API_ENDPOINT (muse_params query location page) 10.

(** The request Remotive receives. *)
Definition remotive_request (query : string) : Request :=
  mk_Request REMOTIVE_API_ENDPOINT
    (if Str.truthy query then {[ "search" := PStr query ]} else ∅) 10.

(** [fetched] counts the postings in [results]. *)
Definition counted (ls : MuseLoop) : Prop :=
  ml_fetched ls = Z.of_nat (List.length (ml_results ls)).

(** The board a scraper talks to fails on the request [r] sent as the
    [i]-th of the process. *)
Definition failed_at (w : World) (self : Scraper) (i : nat) (r : Request) : Prop :=
  match self with
  | TheMuseScraper => failed (themuse_api w i r)
  | RemotiveScraper => failed (remotive_api w i r)
  | IndeedScraper | LinkedInScraper => False
  end.


(** What a run of the loop of The Muse from [ls] in state [st] gives: it
    returns [out] (it does not raise), which extends the results of [ls]
    with postings that passed the recency check during the run, within a
    cap of at least one. *)
Definition muse_run_ok (w : World) (days max_results : option Z) (ls : MuseLoop) (st : State)
    (r : Outcome (list JobPosting) * State) : Prop :=
  exists out st',
    r = (Return out, st')
    /\ (clock_reads st <= clock_reads st')%nat
    /\ (exists added, out = (ml_results ls ++ added)%list
          /\ Forall (seen_recent w days (clock_reads st) (clock_reads st')) added)
    /\ (forall m, max_results = Some m -> 1 <= m ->
          Z.of_nat (List.length (ml_results ls)) < m -> Z.of_nat (List.length out) <= m).


(** A computation that leaves the component [f] of the state as it was. *)
Definition preserves {A T : Type} (f : State -> T) (m : M A) : Prop :=
  forall st, f (snd (m st)) = f st.

(** A computation that leaves the registry as it was. *)
Definition keeps_registry {A : Type} (m : M A) : Prop := preserves registry m.

(** A computation that sends no request. *)
Definition sends_nothing {A : Type} (m : M A) : Prop := preserves sent m.




(** The message of the [ValueError] of [write_output]. *)
Definition unsupported_message (ext : string) : string :=
  "Unsupported output format '" ++ ext ++ "'. Please use .json or .csv.".














(** ** Vocabulary of the further properties *)

(** The outcome of the recency check against the [k]-th reading of the
    clock, on the time line. *)
Definition recent_at (w : World) (days : option Z) (k : nat) (date : datetime) : bool :=
  match days with
  | None => true
  | Some D =>
      Datetime.timeline (utcnow w k) - Datetime.timeline date <? D * Datetime.us_per_day
  end.

(** What a call may do to the state when it only reads the clock ([k]
    times), sends requests and logs errors, each of which is printed on
    standard error. *)
Definition footprint (k : nat) (reqs : list Request) (logs : list LogRecord)
    (st st' : State) : Prop :=
  st' = mk_State (clock_reads st + k) (sent st ++ reqs) (logged st ++ logs)
                 (registry st) (fs st) (stdout st) (stderr st ++ map log_line logs).

(** The location Remotive gives an item. *)
Definition remotive_job_location (job : RemotiveJob) : string :=
  Str.strip (default "" (rj_candidate_required_location job)).

(** The posting of an item whose date parses and that passes the location
    filter; the recency check and the cap are left aside. *)
Definition remotive_select (lower : string -> string) (isoparse : string -> option datetime)
    (re_sub : string -> list ReFlag -> string -> string -> string)
    (location : option string) (job : RemotiveJob) : option JobPosting :=
  match parse_publication_date isoparse (rj_publication_date job) with
  | Some pub_date =>
      if remotive_location_pass lower location (remotive_job_location job)
      then Some (remotive_posting re_sub job (remotive_job_location job) pub_date)
      else None
  | None => None
  end.

Definition muse_select (lower : string -> string) (isoparse : string -> option datetime)
    (re_sub : string -> list ReFlag -> string -> string -> string)
    (location : option string) (job : MuseJob) : option JobPosting :=
  match parse_publication_date isoparse (mj_publication_date job) with
  | Some pub_date =>
      if muse_location_pass lower location job then Some (muse_posting re_sub job pub_date)
      else None
  | None => None
  end.

(** The items of an answer the scrapers go through: those of a response
    with status 200. *)
Definition muse_items (r : HttpResult MusePage) : list MuseJob :=
  match r with
  | HttpResponse status_code data =>
      if status_code =? 200 then default [] (mp_results data) else []
  | RequestException _ => []
  end.

Definition remotive_items (r : HttpResult RemotivePage) : list RemotiveJob :=
  match r with
  | HttpResponse status_code data =>
      if status_code =? 200 then default [] (rp_jobs data) else []
  | RequestException _ => []
  end.

(** The items The Muse supplies in answer to the requests [reqs], sent as
    the [i]-th and following of the process. *)
Fixpoint muse_received (w : World) (i : nat) (reqs : list Request) : list MuseJob :=
  match reqs with
  | [] => []
  | r :: reqs' => (muse_items (themuse_api w i r) ++ muse_received w (S i) reqs')%list
  end.

(** The page numbers [start], [start + 1], ...: [n] of them. *)
Fixpoint pages_from (start : Z) (n : nat) : list Z :=
  match n with
  | O => []
  | S n' => start :: pages_from (start + 1) n'
  end.

(** The number of postings a cap lets through: at least one. *)
Definition cap_length (max_results : Z) : nat := Z.to_nat (Z.max 1 max_results).

(** The number of pages an answer of The Muse announces. *)
Definition announced_pages (r : HttpResult MusePage) : Z :=
  match r with
  | HttpResponse _ data => page_count_of data
  | RequestException _ => 0
  end.

(** The postings in hand after a pass through the body of the loop. *)
Definition step_results (step : MuseStep) : list JobPosting :=
  match step with
  | Stop results => results
  | Next ls => ml_results ls
  end.

(** Remotive asked for the postings for [world]. *)
Definition sample_located : Outcome (list JobPosting) * State :=
  search Str.ascii_lower Datetime.fromisoformat sample_re_sub sample_world RemotiveScraper "engineer"
         (Some "world") None None initial_state.

Definition sample_located_jobs : list JobPosting :=
  match fst sample_located with
  | Return jobs => jobs
  | Raise _ => []
  end.

(** The second item of the sample answer of Remotive and its posting. *)
Definition sample_remotive_job : RemotiveJob := remotive_job_dated "2024-03-01T00:00:00".

Definition sample_remotive_posting : JobPosting :=
  mk_JobPosting "Engineer" "Acme" "Worldwide" (sample_date 2024 3 1) "text"
                "https://example.org/job".

(** The first item of the sample answer of The Muse and its posting. *)
Definition sample_muse_job : MuseJob := muse_job_dated "2024-03-01T00:00:00" ["Remote"].

Definition sample_muse_posting : JobPosting :=
  mk_JobPosting "Engineer" "Acme" "Remote" (sample_date 2024 3 1) "text"
                "https://example.org/job".



(** The command lines [--site indeed --query engineer] and
    [--site remotive --query engineer --days 0 --output jobs.json],
    [... --output jobs.txt]. *)
Definition sample_args_indeed : Namespace := mk_Namespace "indeed" "engineer" None 7 50 None.


Definition sample_args_txt : Namespace :=
  mk_Namespace "remotive" "engineer" None 0 50 (Some "jobs.txt").


(** Two keys that neither comes before the other: the sort takes them for
    equal. *)
Definition same_key {A K : Type} (key : A -> K) (le : K -> K -> bool) (k : K) (x : A) : bool :=
  le k (key x) && le (key x) k.

Definition same_date (d : datetime) (p : JobPosting) : bool :=
  same_key publication_date Datetime.leb d p.

(** The items whose publication date is there and parses. *)
Definition remotive_parseable (isoparse : string -> option datetime) (job : RemotiveJob) : bool :=
  match parse_publication_date isoparse (rj_publication_date job) with
  | Some _ => true
  | None => false
  end.

Definition muse_parseable (isoparse : string -> option datetime) (job : MuseJob) : bool :=
  match parse_publication_date isoparse (mj_publication_date job) with
  | Some _ => true
  | None => false
  end.

(** Of the [n] pages asked for from [page] on, the request for [page] being
    the [i]-th of the process, every one but the last was answered with
    status 200 and at least one item. *)
Fixpoint pages_answered (w : World) (query : string) (location : option string)
    (i : nat) (page : Z) (n : nat) : Prop :=
  match n with
  | O => True
  | S n' =>
      match n' with
      | O => True
      | S _ =>
          muse_items (themuse_api w i (muse_request query location page)) <> []
          /\ pages_answered w query location (S i) (page + 1) n'
      end
  end.

(** A text that neither begins nor ends with ASCII white space. *)
Definition starts_with_space (s : string) : bool :=
  match s with
  | String c _ => Str.is_space c
  | EmptyString => false
  end.

Fixpoint ends_with_space (s : string) : bool :=
  match s with
  | EmptyString => false
  | String c s' =>
      match s' with
      | EmptyString => Str.is_space c
      | String _ _ => ends_with_space s'
      end
  end.

Definition trimmed (s : string) : Prop :=
  starts_with_space s = false /\ ends_with_space s = false.

(** The command line [--site themuse --query engineer --days -3]. *)
Definition sample_args_no_days : Namespace := mk_Namespace "themuse" "engineer" None (-3) 50 None.

(** The command line [--site remotive --query engineer --days 0 --max-results 2
    --output jobs.csv]. *)
Definition sample_args_csv : Namespace :=
  mk_Namespace "remotive" "engineer" None 0 2 (Some "jobs.csv").



(** The Muse asked for the postings for [boston]. *)
Definition sample_muse_located : Outcome (list JobPosting) * State :=
  search Str.ascii_lower Datetime.fromisoformat sample_re_sub sample_world TheMuseScraper "engineer"
         (Some "boston") None None initial_state.

Definition sample_muse_located_jobs : list JobPosting :=
  match fst sample_muse_located with
  | Return jobs => jobs
  | Raise _ => []
  end.

(** * Properties *)

(** ** Strings *)

Lemma append_assoc (a b c : string) : (a ++ b) ++ c = a ++ (b ++ c).
Proof. induction a as [|x a IH]; simpl; [reflexivity | now rewrite IH]. Qed.


Lemma startswith_spec (p s : string) :
  Str.startswith p s = true <-> exists post, s = p ++ post.
Proof.
  revert s. induction p as [|a p IH]; intros s; cbn.
  - split; [intros _; now exists s | reflexivity].
  - destruct s as [|b s]; cbn.
    + split; [discriminate | intros [post H]; discriminate].
    + rewrite andb_true_iff, Ascii.eqb_eq, IH. split.
      * intros [-> [post ->]]. now exists post.
      * intros [post H]. injection H as -> ->. split; [reflexivity | now exists post].
Qed.

(** The operator [in] on strings finds exactly the substrings. *)
Lemma contains_spec (p s : string) :
  Str.contains p s = true <-> Substring p s.
Proof.
  unfold Substring. induction s as [|b s IH].
  - cbn. rewrite orb_false_r, startswith_spec. split.
    + intros [post H]. now exists "", post.
    + intros [[|x pre] [post H]]; [now exists post | discriminate].
  - cbn [Str.contains]. rewrite orb_true_iff, IH, startswith_spec. split.
    + intros [[post H] | [pre [post H]]].
      * now exists "", post.
      * exists (String b pre), post. cbn. now rewrite H.
    + intros [[|x pre] [post H]].
      * left. now exists post.
      * right. cbn in H. injection H as -> ->. now exists pre, post.
Qed.

(** ** The recency check *)

Lemma us_per_day_pos : 0 < Datetime.us_per_day.
Proof. reflexivity. Qed.

(** The days of a difference are the whole days between the two points of
    the time line, rounded down. *)
Lemma sub_days (a b : datetime) :
  td_days (Datetime.sub a b)
  = (Datetime.timeline a - Datetime.timeline b) / Datetime.us_per_day.
Proof.
  unfold Datetime.sub, Datetime.timedelta_of, Datetime.timeline. cbn [td_days].
  f_equal. ring.
Qed.

Lemma days_lt_iff (delta D : Z) :
  (delta / Datetime.us_per_day <? D) = true <-> delta < D * Datetime.us_per_day.
Proof.
  pose proof us_per_day_pos as Hpos.
  rewrite Z.ltb_lt. split; intros H.
  - pose proof (Z.mul_succ_div_gt delta _ Hpos) as Hgt. nia.
  - apply Z.div_lt_upper_bound; lia.
Qed.

Section RecencyCheck.
Variable w : World.

Lemma within_days_some (date : datetime) (D : Z) (st : State) :
  _within_days w date (Some D) st
  = (Return (td_days (Datetime.sub (utcnow w (clock_reads st)) date) <? D), tick st).
Proof. reflexivity. Qed.

(** With a number of days the check reads the clock once and accepts
    exactly the dates less than [D] days behind that reading. *)
Lemma within_days_spec (date : datetime) (D : Z) (st : State) :
  exists b, _within_days w date (Some D) st = (Return b, tick st) /\
    (b = true <->
     Datetime.timeline (utcnow w (clock_reads st)) - Datetime.timeline date
     < D * Datetime.us_per_day).
Proof.
  eexists. split; [apply within_days_some|].
  rewrite sub_days. apply days_lt_iff.
Qed.
End RecencyCheck.

(** C10: a posting dated after the reading of the clock passes the recency
    check for every positive number of days. *)
Theorem C10_future_dates_pass (w : World) (date : datetime) (D : Z) (st : State) :
  0 < D ->
  Datetime.timeline (utcnow w (clock_reads st)) < Datetime.timeline date ->
  fst (_within_days w date (Some D) st) = Return true.
Proof.
  intros HD Hlater.
  destruct (within_days_spec w date D st) as (b & Hrun & Hb).
  rewrite Hrun. cbn [fst]. f_equal.
  apply Hb. pose proof us_per_day_pos as Hday.
  assert (Hneg : Datetime.timeline (utcnow w (clock_reads st)) - Datetime.timeline date < 0)
    by lia.
  nia.
Qed.

(** ** The placeholders *)

(** C8: whatever the arguments, [search] of the Indeed and of the LinkedIn
    scraper raises [NotImplementedError] with a message that is not empty;
    it returns no posting, and the state after the call is the state before
    it, so no request has been sent. *)
Theorem C8_unsupported_adapters
    (lower : string -> string) (isoparse : string -> option datetime)
    (re_sub : string -> list ReFlag -> string -> string -> string) (w : World)
    (query : string) (location : option string) (days max_results : option Z)
    (st : State) :
  (exists msg,
      search lower isoparse re_sub w IndeedScraper query location days max_results st
      = (Raise (NotImplementedError msg), st)
      /\ Str.truthy msg = true /\ Substring "Indeed restricts scraping" msg)
  /\ (exists msg,
      search lower isoparse re_sub w LinkedInScraper query location days max_results st
      = (Raise (NotImplementedError msg), st)
      /\ Str.truthy msg = true
      /\ Substring "LinkedIn terms of service prohibit automated scraping" msg)
  /\ sends_nothing (search lower isoparse re_sub w IndeedScraper query location days max_results)
  /\ sends_nothing (search lower isoparse re_sub w LinkedInScraper query location days max_results).
Proof.
  repeat split; try (intros st0; reflexivity).
  - eexists. split; [reflexivity|]. split; [reflexivity|].
    apply contains_spec. vm_compute. reflexivity.
  - eexists. split; [reflexivity|]. split; [reflexivity|].
    apply contains_spec. vm_compute. reflexivity.
Qed.

(** ** What a computation leaves alone *)

Lemma preserves_ret {A T} (f : State -> T) (a : A) : preserves f (ret a).
Proof. intros st. reflexivity. Qed.

Lemma preserves_raise {A T} (f : State -> T) (e : Exception) : preserves f (@raise A e).
Proof. intros st. reflexivity. Qed.

Lemma preserves_bind {A B T} (f : State -> T) (m : M A) (k : A -> M B) :
  preserves f m -> (forall a, preserves f (k a)) -> preserves f (bind m k).
Proof.
  intros Hm Hk st. unfold bind. specialize (Hm st).
  destruct (m st) as [[a|e] st1]; cbn in *; [rewrite Hk|]; exact Hm.
Qed.

Lemma preserves_if {A T} (f : State -> T) (b : bool) (m1 m2 : M A) :
  preserves f m1 -> preserves f m2 -> preserves f (if b then m1 else m2).
Proof. now destruct b. Qed.

Section Frame.
Variable lower : string -> string.
Variable isoparse : string -> option datetime.
Variable re_sub : string -> list ReFlag -> string -> string -> string.
Variable tabulate : list (list string) -> list string -> string.
Variable w : World.

Ltac frame_prim := intros st; reflexivity.

Lemma registry_utcnow : keeps_registry (datetime_utcnow w).
Proof. frame_prim. Qed.

Lemma registry_logger_error fmt args : keeps_registry (logger_error fmt args).
Proof. frame_prim. Qed.

Lemma registry_print s : keeps_registry (print s).
Proof. frame_prim. Qed.

Lemma registry_print_stderr s : keeps_registry (print_stderr s).
Proof. frame_prim. Qed.

Lemma registry_muse_get r : keeps_registry (muse_get w r).
Proof. frame_prim. Qed.

Lemma registry_remotive_get r : keeps_registry (remotive_get w r).
Proof. frame_prim. Qed.

Lemma registry_open_w path : keeps_registry (open_w w path).
Proof. intros st. unfold open_w. now destruct (open_error w path). Qed.

Lemma registry_f_write path text : keeps_registry (f_write w path text).
Proof.
  intros st. unfold f_write.
  destruct (Str.has_surrogate text); [reflexivity|].
  now destruct (write_error w path text).
Qed.

Lemma registry_get_scraper s : keeps_registry (get_scraper lower s).
Proof. intros st. unfold get_scraper. now destruct (dict_get _ _). Qed.

Ltac frame_with tac :=
  unfold keeps_registry in *;
  repeat first
    [ apply preserves_ret | apply preserves_raise
    | apply registry_utcnow | apply registry_logger_error | apply registry_print
    | apply registry_print_stderr | apply registry_muse_get | apply registry_remotive_get
    | apply registry_open_w | apply registry_f_write | apply registry_get_scraper
    | tac
    | apply preserves_if
    | apply preserves_bind; [|intros ?] ].

Ltac frame := frame_with fail.

Lemma registry_within_days date days : keeps_registry (_within_days w date days).
Proof. destruct days; unfold _within_days; frame. Qed.

Lemma registry_muse_for location days max_results jobs :
  forall results fetched,
    keeps_registry (muse_for lower isoparse re_sub w location days max_results jobs results fetched).
Proof.
  induction jobs as [|job jobs IH]; intros results fetched; cbn [muse_for].
  - frame.
  - destruct (parse_publication_date _ _); [|apply IH].
    frame_with ltac:(first [apply registry_within_days | apply IH]).
Qed.

Lemma registry_muse_body query location days max_results ls :
  keeps_registry (muse_body lower isoparse re_sub w query location days max_results ls).
Proof.
  unfold muse_body.
  frame_with ltac:(idtac; match goal with
                   | |- preserves _ (match ?r with RequestException _ => _ | _ => _ end) =>
                       destruct r
                   | |- preserves _ (match ?r with [] => _ | _ => _ end) => destruct r
                   | |- preserves _ (match ?r with Exhausted _ _ => _ | _ => _ end) =>
                       destruct r
                   | |- _ => apply registry_muse_for
                   end).
Qed.

Lemma registry_muse_while query location days max_results ls :
  keeps_registry (muse_while lower isoparse re_sub w query location days max_results ls).
Proof.
  intros st.
  apply (muse_while_elim lower isoparse re_sub w
           (fun _ _ _ _ _ st r => registry (snd r) = registry st)).
  - intros q l d m ls0 st0 results st' Hbody _.
    pose proof (registry_muse_body q l d m ls0 st0) as H. now rewrite Hbody in H.
  - intros q l d m ls0 st0 ls' st' Hbody IH _.
    pose proof (registry_muse_body q l d m ls0 st0) as H. rewrite Hbody in H.
    cbn in H. congruence.
  - intros q l d m ls0 st0 e st' Hbody _.
    pose proof (registry_muse_body q l d m ls0 st0) as H. now rewrite Hbody in H.
Qed.

Lemma registry_remotive_for location days max_results jobs :
  forall results,
    keeps_registry (remotive_for lower isoparse re_sub w location days max_results jobs results).
Proof.
  induction jobs as [|job jobs IH]; intros results; cbn [remotive_for].
  - frame.
  - destruct (parse_publication_date _ _); [|apply IH].
    frame_with ltac:(first [apply registry_within_days | apply IH]).
Qed.

Lemma registry_search self query location days max_results :
  keeps_registry (search lower isoparse re_sub w self query location days max_results).
Proof.
  destruct self; cbn [search].
  - apply registry_muse_while.
  - intros st. reflexivity.
  - intros st. reflexivity.
  - unfold remotive_search.
    frame_with ltac:(idtac; match goal with
                     | |- preserves _ (match ?r with RequestException _ => _ | _ => _ end) =>
                         destruct r
                     | |- _ => apply registry_remotive_for
                     end).
Qed.

Lemma registry_csv_writerows path jobs : keeps_registry (csv_writerows w path jobs).
Proof.
  induction jobs as [|job jobs IH]; cbn [csv_writerows].
  - frame.
  - destruct (Csv.dict_to_list _ _); frame_with ltac:(apply IH).
Qed.

Lemma registry_write_chunks path chunks : keeps_registry (write_chunks w path chunks).
Proof.
  induction chunks as [|chunk chunks IH]; cbn [write_chunks].
  - frame.
  - frame_with ltac:(apply IH).
Qed.

Lemma registry_write_output jobs path : keeps_registry (write_output lower w jobs path).
Proof.
  unfold write_output, json_dump.
  frame_with ltac:(first [apply registry_csv_writerows | apply registry_write_chunks]).
Qed.

Lemma registry_emit output jobs : keeps_registry (emit lower tabulate w output jobs).
Proof.
  unfold emit, format_console.
  destruct output as [path|]; frame_with ltac:(apply registry_write_output).
Qed.

Lemma registry_main args : keeps_registry (main lower isoparse re_sub tabulate w args).
Proof.
  unfold main.
  frame_with ltac:(apply registry_emit).
  intros st. unfold except_NotImplementedError.
  match goal with
  | |- context [search _ _ _ _ ?scraper _ _ _ _ st] =>
      pose proof (registry_search scraper (ns_query args) (ns_location args)
                    (normalize_days (ns_days args)) (Some (ns_max_results args)) st) as H
  end.
  destruct (search _ _ _ _ _ _ _ _ _ st) as [[jobs|[msg|msg|msg|msg|msg|code]] st'];
    cbn in *; exact H.
Qed.
End Frame.

(** ** The registry *)

Lemma dict_get_None {V : Type} (k : string) (d : list (string * V)) :
  dict_get k d = None <-> ~ In k (dict_keys d).
Proof.
  induction d as [|[k' v] d IH]; cbn.
  - tauto.
  - destruct (String.eqb_spec k k') as [->|Hne].
    + split; [discriminate | intros H; exfalso; apply H; now left].
    + rewrite IH. split; [intros H [E|HIn]; [congruence | tauto] | tauto].
Qed.

Lemma dict_get_Some_In {V : Type} (k : string) (d : list (string * V)) (v : V) :
  dict_get k d = Some v -> In (k, v) d.
Proof.
  induction d as [|[k' v'] d IH]; cbn; [discriminate|].
  destruct (String.eqb_spec k k') as [->|Hne].
  - intros [= ->]. now left.
  - intros H. right. now apply IH.
Qed.

(** C7: with the registry the module defines, [get_scraper s] returns the
    scraper registered under [s.lower()] when there is one, and otherwise
    raises [KeyError] with a message that names every registered site;
    neither outcome changes the state.  This holds whatever [str.lower]
    does to [s].  No run of [main] changes the registry. *)
Theorem C7_registry_lookup
    (lower : string -> string) (isoparse : string -> option datetime)
    (re_sub : string -> list ReFlag -> string -> string -> string)
    (tabulate : list (list string) -> list string -> string) (w : World)
    (s : string) (st : State) :
  registry st = SCRAPERS ->
  (In (lower s) (dict_keys SCRAPERS) ->
     exists cls, get_scraper lower s st = (Return cls, st)
                 /\ In (lower s, cls) SCRAPERS /\ site_name cls = lower s)
  /\ (~ In (lower s) (dict_keys SCRAPERS) ->
     exists msg, get_scraper lower s st = (Raise (KeyError msg), st)
                 /\ forall k, In k (dict_keys SCRAPERS) -> Substring k msg)
  /\ (forall args, registry (snd (main lower isoparse re_sub tabulate w args st)) = SCRAPERS).
Proof.
  intros Hreg. split; [|split].
  - intros HIn. unfold get_scraper. rewrite Hreg.
    destruct (dict_get (lower s) SCRAPERS) as [cls|] eqn:Hget.
    + exists cls. split; [reflexivity|]. split; [now apply dict_get_Some_In|].
      cbn in HIn. destruct HIn as [E|[E|[E|[E|[]]]]]; rewrite <- E in Hget |- *;
        cbn in Hget; injection Hget as <-; reflexivity.
    + apply dict_get_None in Hget. contradiction.
  - intros HnotIn. unfold get_scraper. rewrite Hreg.
    apply dict_get_None in HnotIn. rewrite HnotIn.
    eexists. split; [reflexivity|].
    intros k Hk. cbn in Hk.
    set (head := "Unknown site '" ++ s ++ "'. Available sites: ").
    change (Str.join ", " (dict_keys SCRAPERS)) with "themuse, indeed, linkedin, remotive".
    destruct Hk as [<-|[<-|[<-|[<-|[]]]]].
    + exists head, ", indeed, linkedin, remotive". unfold head.
      now rewrite !append_assoc.
    + exists (head ++ "themuse, "), ", linkedin, remotive". unfold head.
      now rewrite !append_assoc.
    + exists (head ++ "themuse, indeed, "), ", remotive". unfold head.
      now rewrite !append_assoc.
    + exists (head ++ "themuse, indeed, linkedin, "), "". unfold head.
      now rewrite !append_assoc.
  - intros args. rewrite <- Hreg. apply registry_main.
Qed.

Lemma C7_registry_lookup_witness :
  registry initial_state = SCRAPERS
  /\ exists cls, get_scraper Str.ascii_lower "TheMuse" initial_state
                 = (Return cls, initial_state)
                 /\ In (Str.ascii_lower "TheMuse", cls) SCRAPERS
                 /\ site_name cls = Str.ascii_lower "TheMuse".
Proof.
  split; [reflexivity|].
  apply (C7_registry_lookup Str.ascii_lower (fun _ => None) (fun _ _ _ s => s) (fun _ _ => "")
           sample_world "TheMuse" initial_state eq_refl).
  left. reflexivity.
Defined.

Lemma C10_future_dates_pass_witness :
  0 < 7
  /\ Datetime.timeline (mk_datetime 2024 1 1 0 0 0 0)
     < Datetime.timeline (mk_datetime 2024 1 1 0 0 0 1)
  /\ fst (_within_days
            (mk_World (fun _ => mk_datetime 2024 1 1 0 0 0 0)
                      (fun _ _ => RequestException "") (fun _ _ => RequestException "")
                      (fun _ => None) (fun _ _ => None))
            (mk_datetime 2024 1 1 0 0 0 1) (Some 7) initial_state)
     = Return true.
Proof.
  split; [reflexivity|]. split; [reflexivity|].
  apply C10_future_dates_pass; reflexivity.
Defined.

(** ** The location filter of The Muse *)

Lemma lowers_ascii_ascii_lower : lowers_ascii Str.ascii_lower.
Proof. intros s _. reflexivity. Qed.

Lemma muse_location_match_spec (lower : string -> string) (l : string) (job : MuseJob) :
  muse_location_match lower l job = true <->
  (exists name, In name (muse_loc_names job) /\ SubstringNoCase lower l name)
  \/ (exists name keyword,
        In name (muse_loc_names job) /\ In keyword remote_keywords
        /\ Substring keyword (lower name)).
Proof.
  unfold muse_location_match, SubstringNoCase.
  set (names := muse_loc_names job).
  destruct (existsb (fun n => Str.contains (lower l) (lower n)) names) eqn:Hdirect;
    cbn [negb].
  - split; [intros _ | reflexivity].
    apply existsb_exists in Hdirect as (name & HIn & Hc).
    left. exists name. split; [exact HIn | now apply contains_spec].
  - rewrite existsb_exists. split.
    + intros (name & HIn & Hkw). apply existsb_exists in Hkw as (kw & HkwIn & Hc).
      right. exists name, kw. repeat split; try assumption. now apply contains_spec.
    + intros [(name & HIn & Hsub) | (name & kw & HIn & HkwIn & Hsub)].
      * apply contains_spec in Hsub.
        assert (existsb (fun n => Str.contains (lower l) (lower n)) names = true) as E
            by (apply existsb_exists; eauto).
        congruence.
      * exists name. split; [exact HIn|]. apply existsb_exists.
        exists kw. split; [exact HkwIn | now apply contains_spec].
Qed.




(** ** Sorting *)

Section SortProperties.
Context {A K : Type} (key : A -> K) (le : K -> K -> bool).
Hypothesis le_total : forall a b, le a b = false -> le b a = true.
Hypothesis le_trans : forall a b c, le a b = true -> le b c = true -> le a c = true.

(** [b] does not come before [a] in descending order. *)
Let desc (a b : A) : Prop := le (key b) (key a) = true.

Lemma insert_desc_perm (x : A) (l : list A) :
  Permutation (x :: l) (Sort.insert_desc key le x l).
Proof.
  induction l as [|y l IH]; cbn; [reflexivity|].
  destruct (le (key y) (key x)); [reflexivity|].
  rewrite perm_swap. now apply perm_skip.
Qed.

Lemma sort_desc_perm (l : list A) : Permutation l (Sort.sort_desc key le l).
Proof.
  induction l as [|x l IH]; cbn; [reflexivity|].
  rewrite <- insert_desc_perm. now apply perm_skip.
Qed.

Lemma insert_desc_sorted (x : A) (l : list A) :
  StronglySorted desc l -> StronglySorted desc (Sort.insert_desc key le x l).
Proof.
  induction l as [|y l IH]; intros Hs; cbn.
  - constructor; [constructor | constructor].
  - inversion Hs as [|? ? Hl Hy]; subst.
    destruct (le (key y) (key x)) eqn:Hyx.
    + constructor; [exact Hs|]. constructor; [exact Hyx|].
      eapply Forall_impl; [|exact Hy]. intros z Hz. unfold desc in *. eauto.
    + constructor; [now apply IH|].
      apply (Permutation_Forall (insert_desc_perm x l)).
      constructor; [now apply le_total | exact Hy].
  Qed.

Lemma sort_desc_sorted (l : list A) : StronglySorted desc (Sort.sort_desc key le l).
Proof.
  induction l as [|x l IH]; cbn; [constructor | now apply insert_desc_sorted].
Qed.
End SortProperties.

Lemma cmp_opp (a b : list Z) :
  List.length a = List.length b -> Datetime.cmp b a = CompOpp (Datetime.cmp a b).
Proof.
  revert b. induction a as [|x a IH]; intros [|y b] Hlen; try discriminate; cbn.
  - reflexivity.
  - rewrite (Z.compare_antisym x y). destruct (x ?= y); cbn; [|reflexivity..].
    apply IH. now injection Hlen.
Qed.

Lemma cmp_le_trans (a b c : list Z) :
  List.length a = List.length b -> List.length b = List.length c ->
  Datetime.cmp a b <> Gt -> Datetime.cmp b c <> Gt -> Datetime.cmp a c <> Gt.
Proof.
  revert b c. induction a as [|x a IH]; intros [|y b] [|z c] Hab Hbc; try discriminate; cbn.
  assert (Hab' : List.length a = List.length b) by (now injection Hab).
  assert (Hbc' : List.length b = List.length c) by (now injection Hbc).
  destruct (x ?= y) eqn:Exy.
  - apply Z.compare_eq in Exy. subst y. destruct (x ?= z) eqn:Exz.
    + now apply IH.
    + intros _ _. discriminate.
    + intros _ H. exact H.
  - intros _. destruct (y ?= z) eqn:Eyz.
    + apply Z.compare_eq in Eyz. subst z. rewrite Exy. intros _. discriminate.
    + assert ((x ?= z) = Lt) as -> by (rewrite Z.compare_lt_iff in *; lia).
      intros _. discriminate.
    + intros H. now contradiction H.
  - intros H. now contradiction H.
Qed.

Lemma datetime_leb_total (a b : datetime) :
  Datetime.leb a b = false -> Datetime.leb b a = true.
Proof.
  unfold Datetime.leb, Datetime.compare.
  rewrite (cmp_opp (Datetime.fields a) (Datetime.fields b) eq_refl).
  now destruct (Datetime.cmp _ _).
Qed.

Lemma datetime_leb_trans (a b c : datetime) :
  Datetime.leb a b = true -> Datetime.leb b c = true -> Datetime.leb a c = true.
Proof.
  unfold Datetime.leb, Datetime.compare. intros Hab Hbc.
  pose proof (cmp_le_trans (Datetime.fields a) (Datetime.fields b) (Datetime.fields c)
                eq_refl eq_refl) as H.
  destruct (Datetime.cmp (Datetime.fields a) (Datetime.fields b)); try discriminate;
    destruct (Datetime.cmp (Datetime.fields b) (Datetime.fields c)); try discriminate;
    destruct (Datetime.cmp (Datetime.fields a) (Datetime.fields c)); try reflexivity;
    exfalso; apply H; congruence.
Qed.

Lemma main_sorts
    (lower : string -> string) (isoparse : string -> option datetime)
    (re_sub : string -> list ReFlag -> string -> string -> string)
    (tabulate : list (list string) -> list string -> string) (w : World)
    (args : Namespace) (st st1 st2 : State) (scraper : Scraper) (jobs : list JobPosting) :
  get_scraper lower (lower (ns_site args)) st = (Return scraper, st1) ->
  search lower isoparse re_sub w scraper (ns_query args) (ns_location args)
         (normalize_days (ns_days args)) (Some (ns_max_results args)) st1
  = (Return jobs, st2) ->
  main lower isoparse re_sub tabulate w args st
  = emit lower tabulate w (ns_output args) (sort_jobs jobs) st2.
Proof.
  intros Hget Hsearch. unfold main, bind, except_NotImplementedError.
  now rewrite Hget, Hsearch.
Qed.

(** C5: the list the orchestrator hands to the output sink is [sort_jobs]
    of what [search] returned; [sort_jobs] gives a permutation of its
    input in which no posting is dated before a later one, and the dates
    2024-01-01, 2024-03-01, 2024-02-01 come out as 03-01, 02-01, 01-01. *)
Theorem C5_sorted_descending
    (lower : string -> string) (isoparse : string -> option datetime)
    (re_sub : string -> list ReFlag -> string -> string -> string)
    (tabulate : list (list string) -> list string -> string) (w : World)
    (jobs : list JobPosting) :
  Permutation jobs (sort_jobs jobs)
  /\ StronglySorted
       (fun a b => Datetime.leb (publication_date b) (publication_date a) = true)
       (sort_jobs jobs)
  /\ map publication_date
         (sort_jobs [ posting_dated (sample_date 2024 1 1);
                      posting_dated (sample_date 2024 3 1);
                      posting_dated (sample_date 2024 2 1) ])
     = [sample_date 2024 3 1; sample_date 2024 2 1; sample_date 2024 1 1]
  /\ (forall args st st1 st2 scraper,
        get_scraper lower (lower (ns_site args)) st = (Return scraper, st1) ->
        search lower isoparse re_sub w scraper (ns_query args) (ns_location args)
               (normalize_days (ns_days args)) (Some (ns_max_results args)) st1
        = (Return jobs, st2) ->
        main lower isoparse re_sub tabulate w args st
        = emit lower tabulate w (ns_output args) (sort_jobs jobs) st2).
Proof.
  split; [|split; [|split]].
  - apply sort_desc_perm.
  - apply (sort_desc_sorted publication_date Datetime.leb
             datetime_leb_total datetime_leb_trans).
  - reflexivity.
  - intros args st st1 st2 scraper Hget Hsearch. now apply (main_sorts _ _ _ _ _ _ _ st1 _ scraper).
Qed.

Lemma C5_sorted_descending_witness :
  get_scraper Str.ascii_lower (Str.ascii_lower (ns_site sample_args)) initial_state
  = (Return RemotiveScraper, initial_state)
  /\ search Str.ascii_lower Datetime.fromisoformat sample_re_sub sample_world RemotiveScraper
            (ns_query sample_args) (ns_location sample_args)
            (normalize_days (ns_days sample_args)) (Some (ns_max_results sample_args))
            initial_state
     = (Return sample_found, snd (sample_search RemotiveScraper None (Some 50)))
  /\ main Str.ascii_lower Datetime.fromisoformat sample_re_sub sample_tabulate sample_world
          sample_args initial_state
     = emit Str.ascii_lower sample_tabulate sample_world (ns_output sample_args) (sort_jobs sample_found)
            (snd (sample_search RemotiveScraper None (Some 50))).
Proof.
  split; [reflexivity|]. split; [vm_compute; reflexivity|].
  apply (proj2 (proj2 (proj2
           (C5_sorted_descending Str.ascii_lower Datetime.fromisoformat sample_re_sub sample_tabulate
              sample_world sample_found)))) with (st1 := initial_state) (scraper := RemotiveScraper).
  - reflexivity.
  - vm_compute. reflexivity.
Defined.

(** ** The loops of the two scrapers *)

Lemma seen_recent_widen (w : World) (days : option Z) (lo hi lo' hi' : nat) (p : JobPosting) :
  (lo' <= lo)%nat -> (hi <= hi')%nat ->
  seen_recent w days lo hi p -> seen_recent w days lo' hi' p.
Proof.
  intros Hlo Hhi. destruct days as [D|]; cbn; [|trivial].
  intros (k & Hk & Hnew). exists k. split; [lia | exact Hnew].
Qed.

Section Loops.
Variable lower : string -> string.
Variable isoparse : string -> option datetime.
Variable re_sub : string -> list ReFlag -> string -> string -> string.
Variable w : World.

(** The recency check, for a number of days or none: it never raises, it
    reads the clock at most once, and a date it accepts has been found
    recent at that reading. *)
Lemma within_days_run (date : datetime) (days : option Z) (st : State) :
  exists b st',
    _within_days w date days st = (Return b, st')
    /\ (clock_reads st <= clock_reads st')%nat
    /\ sent st' = sent st /\ logged st' = logged st
    /\ (b = true -> forall p, publication_date p = date ->
          seen_recent w days (clock_reads st) (clock_reads st') p).
Proof.
  destruct days as [D|].
  - destruct (within_days_spec w date D st) as (b & Hrun & Hb).
    exists b, (tick st). split; [exact Hrun|]. cbn. repeat split; try lia.
    intros -> p Hp. exists (clock_reads st). split; [lia|].
    unfold newer_than. rewrite Hp.
    assert (Hlt := proj1 Hb eq_refl). lia.
  - exists true, st. repeat split; auto.
Qed.
Ltac widen := eapply seen_recent_widen; [| |eassumption]; lia.

(** The loop of Remotive never raises; it only reads the clock; what it
    adds to [results] has passed the recency check; and with a cap of at
    least one it does not go beyond the cap. *)
Lemma remotive_for_run (location : option string) (days max_results : option Z)
    (jobs : list RemotiveJob) :
  forall (results : list JobPosting) (st : State),
  exists out st',
    remotive_for lower isoparse re_sub w location days max_results jobs results st = (Return out, st')
    /\ (clock_reads st <= clock_reads st')%nat
    /\ sent st' = sent st /\ logged st' = logged st
    /\ (exists added, out = (results ++ added)%list
          /\ Forall (seen_recent w days (clock_reads st) (clock_reads st')) added)
    /\ (forall m, max_results = Some m -> 1 <= m ->
          Z.of_nat (List.length results) < m -> Z.of_nat (List.length out) <= m).
Proof.
  induction jobs as [|job jobs IH]; intros results st.
  - exists results, st. cbn. repeat split; auto; try lia.
    exists []. split; [now rewrite app_nil_r | constructor].
  - cbn [remotive_for].
    destruct (parse_publication_date isoparse (rj_publication_date job)) as [pub_date|];
      [|apply IH].
    unfold bind.
    destruct (within_days_run pub_date days st) as (b & st1 & -> & Hclk & Hsent & Hlog & Hb).
    assert (Hskip : exists out st',
      remotive_for lower isoparse re_sub w location days max_results jobs results st1 = (Return out, st')
      /\ (clock_reads st <= clock_reads st')%nat
      /\ sent st' = sent st /\ logged st' = logged st
      /\ (exists added, out = (results ++ added)%list
            /\ Forall (seen_recent w days (clock_reads st) (clock_reads st')) added)
      /\ (forall m, max_results = Some m -> 1 <= m ->
            Z.of_nat (List.length results) < m -> Z.of_nat (List.length out) <= m)).
    { destruct (IH results st1) as (out & st' & Hrun & Hclk' & Hsent' & Hlog' & Hadd & Hcap).
      exists out, st'. repeat split; try congruence; try lia; [|exact Hcap].
      destruct Hadd as (added & -> & Hall). exists added. split; [reflexivity|].
      eapply Forall_impl; [|exact Hall]. intros p Hp. widen. }
    destruct b; cbn [negb]; [|exact Hskip].
    destruct (remotive_location_pass lower location _); cbn [negb]; [|exact Hskip].
    set (posting := remotive_posting re_sub job _ pub_date).
    assert (Hposting : seen_recent w days (clock_reads st) (clock_reads st1) posting)
      by (now apply Hb).
    destruct (cap_reached max_results _) eqn:Hreached.
    + exists (results ++ [posting])%list, st1. repeat split; auto.
      * exists [posting]. split; [reflexivity|]. now constructor.
      * intros m -> Hm Hlen. rewrite length_app. cbn. lia.
    + destruct (IH (results ++ [posting])%list st1)
        as (out & st' & Hrun & Hclk' & Hsent' & Hlog' & Hadd & Hcap).
      exists out, st'. repeat split; try congruence; try lia.
      * destruct Hadd as (added & -> & Hall). exists (posting :: added).
        split; [now rewrite <- app_assoc|].
        constructor; [widen|].
        eapply Forall_impl; [|exact Hall]. intros p Hp. widen.
      * intros m -> Hm Hlen. apply (Hcap m eq_refl Hm).
        cbn in Hreached. apply Z.leb_gt in Hreached. exact Hreached.
Qed.

(** The same for the loop over one page of The Muse, which also counts the
    postings in [fetched]. *)
Lemma muse_for_run (location : option string) (days max_results : option Z)
    (jobs : list MuseJob) :
  forall (results : list JobPosting) (fetched : Z) (st : State),
  fetched = Z.of_nat (List.length results) ->
  exists exit st',
    muse_for lower isoparse re_sub w location days max_results jobs results fetched st
    = (Return exit, st')
    /\ (clock_reads st <= clock_reads st')%nat
    /\ sent st' = sent st /\ logged st' = logged st
    /\ (exists out added,
          (exit = Returned out \/ exit = Exhausted out (Z.of_nat (List.length out)))
          /\ out = (results ++ added)%list
          /\ Forall (seen_recent w days (clock_reads st) (clock_reads st')) added
          /\ (forall m, max_results = Some m -> 1 <= m ->
                Z.of_nat (List.length results) < m ->
                match exit with
                | Returned _ => Z.of_nat (List.length out) = m
                | Exhausted _ _ => Z.of_nat (List.length out) < m
                end)).
Proof.
  induction jobs as [|job jobs IH]; intros results fetched st Hfetched.
  - exists (Exhausted results fetched), st. cbn. repeat split; auto; try lia.
    exists results, []. subst fetched. repeat split; auto.
    + now rewrite app_nil_r.
  - cbn [muse_for].
    destruct (parse_publication_date isoparse (mj_publication_date job)) as [pub_date|];
      [|now apply IH].
    unfold bind.
    destruct (within_days_run pub_date days st) as (b & st1 & -> & Hclk & Hsent & Hlog & Hb).
    assert (Hskip : exists exit st',
      muse_for lower isoparse re_sub w location days max_results jobs results fetched st1
      = (Return exit, st')
      /\ (clock_reads st <= clock_reads st')%nat
      /\ sent st' = sent st /\ logged st' = logged st
      /\ (exists out added,
            (exit = Returned out \/ exit = Exhausted out (Z.of_nat (List.length out)))
            /\ out = (results ++ added)%list
            /\ Forall (seen_recent w days (clock_reads st) (clock_reads st')) added
            /\ (forall m, max_results = Some m -> 1 <= m ->
                  Z.of_nat (List.length results) < m ->
                  match exit with
                  | Returned _ => Z.of_nat (List.length out) = m
                  | Exhausted _ _ => Z.of_nat (List.length out) < m
                  end))).
    { destruct (IH results fetched st1 Hfetched)
        as (exit & st' & Hrun & Hclk' & Hsent' & Hlog' & out & added & Hexit & -> & Hall & Hcap).
      exists exit, st'. repeat split; try congruence; try lia.
      exists (results ++ added)%list, added. repeat split; auto.
      eapply Forall_impl; [|exact Hall]. intros p Hp. widen. }
    destruct b; cbn [negb]; [|exact Hskip].
    destruct (muse_location_pass lower location job); cbn [negb]; [|exact Hskip].
    set (posting := muse_posting re_sub job pub_date).
    assert (Hposting : seen_recent w days (clock_reads st) (clock_reads st1) posting)
      by (now apply Hb).
    assert (Hcount : fetched + 1 = Z.of_nat (List.length (results ++ [posting])%list))
      by (rewrite length_app; cbn; lia).
    destruct (cap_reached max_results (fetched + 1)) eqn:Hreached.
    + exists (Returned (results ++ [posting])%list), st1. repeat split; auto.
      exists (results ++ [posting])%list, [posting]. repeat split; auto.
      intros m -> Hm Hlen. cbn in Hreached. apply Z.leb_le in Hreached.
      rewrite length_app in *. cbn in *. lia.
    + destruct (IH (results ++ [posting])%list (fetched + 1) st1 Hcount)
        as (exit & st' & Hrun & Hclk' & Hsent' & Hlog' & out & added & Hexit & -> & Hall & Hcap).
      exists exit, st'. repeat split; try congruence; try lia.
      exists ((results ++ [posting]) ++ added)%list, (posting :: added).
      repeat split; auto.
      * now rewrite <- app_assoc.
      * constructor; [widen|].
        eapply Forall_impl; [|exact Hall]. intros p Hp. widen.
      * intros m -> Hm Hlen. apply (Hcap m eq_refl Hm).
        cbn in Hreached. apply Z.leb_gt in Hreached. lia.
Qed.

Lemma muse_body_run (query : string) (location : option string)
    (days max_results : option Z) (ls : MuseLoop) (st : State) :
  counted ls ->
  exists step st',
    muse_body lower isoparse re_sub w query location days max_results ls st = (Return step, st')
    /\ (clock_reads st <= clock_reads st')%nat
    /\ (exists out added,
          (step = Stop out \/ exists page total, step = Next (mk_MuseLoop out page (Z.of_nat (List.length out)) total))
          /\ out = (ml_results ls ++ added)%list
          /\ Forall (seen_recent w days (clock_reads st) (clock_reads st')) added
          /\ (forall m, max_results = Some m -> 1 <= m ->
                Z.of_nat (List.length (ml_results ls)) < m ->
                match step with
                | Stop _ => Z.of_nat (List.length out) <= m
                | Next _ => Z.of_nat (List.length out) < m
                end)).
Proof.
  intros Hcounted. unfold muse_body.
  assert (Hstop : forall st', (clock_reads st <= clock_reads st')%nat ->
    exists step st'',
      (Return (Stop (ml_results ls)), st') = (Return step, st'')
      /\ (clock_reads st <= clock_reads st'')%nat
      /\ (exists out added,
            (step = Stop out \/ exists page total, step = Next (mk_MuseLoop out page (Z.of_nat (List.length out)) total))
            /\ out = (ml_results ls ++ added)%list
            /\ Forall (seen_recent w days (clock_reads st) (clock_reads st'')) added
            /\ (forall m, max_results = Some m -> 1 <= m ->
                  Z.of_nat (List.length (ml_results ls)) < m ->
                  match step with
                  | Stop _ => Z.of_nat (List.length out) <= m
                  | Next _ => Z.of_nat (List.length out) < m
                  end))).
  { intros st' Hclk. exists (Stop (ml_results ls)), st'. repeat split; auto.
    exists (ml_results ls), []. repeat split; auto.
    - now rewrite app_nil_r.
    - intros; lia. }
  destruct (past_last_page ls); [now apply Hstop|].
  unfold bind at 1. cbn [muse_get].
  destruct (themuse_api w _ _) as [exc|code data].
  - apply Hstop. cbn. lia.
  - destruct (negb (code =? 200)); [apply Hstop; cbn; lia|].
    destruct (default [] (mp_results data)) as [|job jobs]; [apply Hstop; cbn; lia|].
    unfold bind.
    destruct (muse_for_run location days max_results (job :: jobs)
                (ml_results ls) (ml_fetched ls) (add_sent (muse_request query location (ml_page ls)) st) Hcounted)
      as (exit & st' & Hrun & Hclk & _ & _ & out & added & Hexit & -> & Hall & Hcap).
    unfold muse_request in Hrun. rewrite Hrun.
    destruct Hexit as [-> | ->].
    + eexists _, st'. split; [reflexivity|]. split; [exact Hclk|].
      exists (ml_results ls ++ added)%list, added. repeat split; auto.
      intros m Hm H1 Hlen. specialize (Hcap m Hm H1 Hlen). cbn in Hcap. lia.
    + eexists _, st'. split; [reflexivity|]. split; [exact Hclk|].
      exists (ml_results ls ++ added)%list, added. repeat split; eauto.
Qed.

Lemma muse_while_run (query : string) (location : option string)
    (days max_results : option Z) (ls : MuseLoop) (st : State) :
  counted ls ->
  muse_run_ok w days max_results ls st
    (muse_while lower isoparse re_sub w query location days max_results ls st).
Proof.
  apply (muse_while_elim lower isoparse re_sub w
           (fun _ _ d m ls st r => counted ls -> muse_run_ok w d m ls st r)).
  - intros q l d m ls0 st0 results st' Hbody _ Hcounted.
    destruct (muse_body_run q l d m ls0 st0 Hcounted)
      as (step & st'' & Hrun & Hclk & out & added & Hstep & -> & Hall & Hcap).
    rewrite Hbody in Hrun. injection Hrun as <- <-.
    destruct Hstep as [[= ->] | (? & ? & [=])].
    exists (ml_results ls0 ++ added)%list, st'. repeat split; eauto.
  - intros q l d m ls0 st0 ls' st' Hbody IH _ Hcounted.
    destruct (muse_body_run q l d m ls0 st0 Hcounted)
      as (step & st'' & Hrun & Hclk & out & added & Hstep & -> & Hall & Hcap).
    rewrite Hbody in Hrun. injection Hrun as <- <-.
    destruct Hstep as [[=] | (page & total & [= ->])].
    destruct IH as (out & st2 & Hr & Hclk2 & (added2 & -> & Hall2) & Hcap2); [reflexivity|].
    cbn [ml_results] in *.
    exists ((ml_results ls0 ++ added) ++ added2)%list, st2. repeat split; [exact Hr | lia | |].
    + exists (added ++ added2)%list. split; [now rewrite app_assoc|].
      apply Forall_app. split; (eapply Forall_impl; [|eassumption]); intros p Hp; widen.
    + intros m0 Hm H1 Hlen. apply (Hcap2 m0 Hm H1). now apply Hcap.
  - intros q l d m ls0 st0 e st' Hbody _ Hcounted.
    destruct (muse_body_run q l d m ls0 st0 Hcounted) as (step & st'' & Hrun & _).
    rewrite Hbody in Hrun. discriminate.
Qed.

End Loops.

(** ** What the working scrapers return *)

Section Searches.
Variable lower : string -> string.
Variable isoparse : string -> option datetime.
Variable re_sub : string -> list ReFlag -> string -> string -> string.
Variable w : World.

(** [search] of The Muse and of Remotive returns a list (it does not
    raise); its postings passed the recency check during the call; and a
    cap of at least one bounds its length. *)
Lemma search_run (self : Scraper) (query : string) (location : option string)
    (days max_results : option Z) (st : State) :
  self = TheMuseScraper \/ self = RemotiveScraper ->
  exists out st',
    search lower isoparse re_sub w self query location days max_results st = (Return out, st')
    /\ (clock_reads st <= clock_reads st')%nat
    /\ Forall (seen_recent w days (clock_reads st) (clock_reads st')) out
    /\ (forall m, max_results = Some m -> 1 <= m -> Z.of_nat (List.length out) <= m).
Proof.
  intros [-> | ->]; cbn [search].
  - destruct (muse_while_run lower isoparse re_sub w query location days max_results
                (mk_MuseLoop [] 1 0 None) st eq_refl)
      as (out & st' & Hrun & Hclk & (added & -> & Hall) & Hcap).
    exists ([] ++ added)%list, st'. repeat split; auto.
    intros m Hm H1. apply (Hcap m Hm H1). cbn. lia.
  - unfold remotive_search, bind. cbn [remotive_get].
    destruct (remotive_api w _ _) as [exc|code data].
    + eexists [], _. cbn. repeat split; auto. intros; lia.
    + destruct (negb (code =? 200)).
      * eexists [], _. cbn. repeat split; auto. intros; lia.
      * destruct (remotive_for_run lower isoparse re_sub w location days max_results
                    (default [] (rp_jobs data)) [] (add_sent (remotive_request query) st))
          as (out & st' & Hrun & Hclk & _ & _ & (added & -> & Hall) & Hcap).
        unfold remotive_request in Hrun. rewrite Hrun.
        exists ([] ++ added)%list, st'. repeat split; auto.
        intros m Hm H1. apply (Hcap m Hm H1). cbn. lia.
Qed.

End Searches.



(** One turn of the [while True] loop. *)
Lemma muse_while_step
    (lower : string -> string) (isoparse : string -> option datetime)
    (re_sub : string -> list ReFlag -> string -> string -> string) (w : World)
    (query : string) (location : option string) (days max_results : option Z)
    (ls : MuseLoop) (st : State) :
  muse_while lower isoparse re_sub w query location days max_results ls st
  = match muse_body lower isoparse re_sub w query location days max_results ls st with
    | (Return (Stop results), st') => (Return results, st')
    | (Return (Next ls'), st') =>
        muse_while lower isoparse re_sub w query location days max_results ls' st'
    | (Raise e, st') => (Raise e, st')
    end.
Proof.
  rewrite muse_while_equation_1.
  destruct (inspect (muse_body lower isoparse re_sub w query location days max_results ls st))
    as [[[[results|ls']|e] st'] E]; simpl; now rewrite E.
Qed.

(** ** The cap on the number of results *)

(** C1, at the failing input [max_results = 0]: a cap of zero is reached
    with nothing collected, and yet each of the two scrapers returns one
    posting, one more than the cap allows, because the cap is compared only
    after a posting has been appended. *)
Theorem C1_cap_zero_returns_a_posting :
  cap_reached (Some 0) 0 = true
  /\ (exists p st', sample_search TheMuseScraper None (Some 0) = (Return [p], st'))
  /\ (exists p st', sample_search RemotiveScraper None (Some 0) = (Return [p], st')).
Proof.
  split; [reflexivity|].
  split; eexists _, _; vm_compute; reflexivity.
Qed.

(** From a cap of one upwards the returned list is within the cap. *)
Lemma search_within_cap
    (lower : string -> string) (isoparse : string -> option datetime)
    (re_sub : string -> list ReFlag -> string -> string -> string) (w : World)
    (self : Scraper) (query : string) (location : option string)
    (days : option Z) (M : Z) (st st' : State) (jobs : list JobPosting) :
  1 <= M ->
  search lower isoparse re_sub w self query location days (Some M) st = (Return jobs, st') ->
  Z.of_nat (List.length jobs) <= M.
Proof.
  intros HM Hsearch. destruct self; try discriminate.
  - destruct (search_run lower isoparse re_sub w TheMuseScraper query location days (Some M) st
                (or_introl eq_refl)) as (out & st2 & Hrun & _ & _ & Hcap).
    rewrite Hsearch in Hrun. injection Hrun as -> ->. now apply Hcap.
  - destruct (search_run lower isoparse re_sub w RemotiveScraper query location days (Some M) st
                (or_intror eq_refl)) as (out & st2 & Hrun & _ & _ & Hcap).
    rewrite Hsearch in Hrun. injection Hrun as -> ->. now apply Hcap.
Qed.

(** *** From a cap of one upwards *)

Section Cap.
Variable lower : string -> string.
Variable isoparse : string -> option datetime.
Variable re_sub : string -> list ReFlag -> string -> string -> string.
Variable w : World.

(** When the loop of Remotive ends below the cap, the cap played no part:
    the loop without a cap returns the same list, so every item that passes
    the filters is in it. *)
Lemma remotive_for_below_cap (location : option string) (days : option Z) (m : Z)
    (jobs : list RemotiveJob) :
  forall (results out : list JobPosting) (st st' : State),
    remotive_for lower isoparse re_sub w location days (Some m) jobs results st = (Return out, st') ->
    Z.of_nat (List.length out) < m ->
    remotive_for lower isoparse re_sub w location days None jobs results st = (Return out, st').
Proof.
  induction jobs as [|job jobs IH]; intros results out st st' Hrun Hlen; [exact Hrun|].
  cbn [remotive_for] in *.
  destruct (parse_publication_date isoparse (rj_publication_date job)) as [pub_date|];
    [|now apply IH].
  unfold bind in *.
  destruct (_within_days w pub_date days st) as [[[|]|e] st1]; cbn [negb] in *;
    [|now apply IH|exact Hrun].
  destruct (remotive_location_pass lower location _); cbn [negb] in *; [|now apply IH].
  cbn [cap_reached] in *.
  destruct (m <=? _) eqn:Hreached.
  - injection Hrun as <- <-. apply Z.leb_le in Hreached. lia.
  - now apply IH.
Qed.

(** Once the cap is reached the loop of Remotive is over: the items after
    the one that filled the list change neither the result nor the state. *)
Lemma remotive_for_ignores_rest (location : option string) (days : option Z) (m : Z)
    (pre post : list RemotiveJob) :
  forall (results out : list JobPosting) (st st' : State),
    Z.of_nat (List.length results) < m ->
    remotive_for lower isoparse re_sub w location days (Some m) pre results st = (Return out, st') ->
    Z.of_nat (List.length out) = m ->
    remotive_for lower isoparse re_sub w location days (Some m) (pre ++ post)%list results st
    = (Return out, st').
Proof.
  induction pre as [|job pre IH]; intros results out st st' Hbelow Hrun Hlen.
  - cbn in Hrun. injection Hrun as <- <-. lia.
  - cbn [remotive_for app] in *.
    destruct (parse_publication_date isoparse (rj_publication_date job)) as [pub_date|];
      [|now apply IH].
    unfold bind in *.
    destruct (_within_days w pub_date days st) as [[[|]|e] st1]; cbn [negb] in *;
      [|now apply IH|exact Hrun].
    destruct (remotive_location_pass lower location _); cbn [negb] in *; [|now apply IH].
    cbn [cap_reached] in *.
    destruct (m <=? _) eqn:Hreached; [exact Hrun|].
    apply Z.leb_gt in Hreached. now apply IH.
Qed.

(** The same two facts for the loop over a page of The Muse. *)
Lemma muse_for_below_cap (location : option string) (days : option Z) (m : Z)
    (jobs : list MuseJob) :
  forall (results out : list JobPosting) (fetched fetched' : Z) (st st' : State),
    muse_for lower isoparse re_sub w location days (Some m) jobs results fetched st
    = (Return (Exhausted out fetched'), st') ->
    muse_for lower isoparse re_sub w location days None jobs results fetched st
    = (Return (Exhausted out fetched'), st').
Proof.
  induction jobs as [|job jobs IH]; intros results out fetched fetched' st st' Hrun;
    [exact Hrun|].
  cbn [muse_for] in *.
  destruct (parse_publication_date isoparse (mj_publication_date job)) as [pub_date|];
    [|now apply IH].
  unfold bind in *.
  destruct (_within_days w pub_date days st) as [[[|]|e] st1]; cbn [negb] in *;
    [|now apply IH|exact Hrun].
  destruct (muse_location_pass lower location job); cbn [negb] in *; [|now apply IH].
  cbn [cap_reached] in *.
  destruct (m <=? _) eqn:Hreached; [discriminate|]. now apply IH.
Qed.

Lemma muse_for_ignores_rest (location : option string) (days max_results : option Z)
    (pre post : list MuseJob) :
  forall (results out : list JobPosting) (fetched : Z) (st st' : State),
    muse_for lower isoparse re_sub w location days max_results pre results fetched st
    = (Return (Returned out), st') ->
    muse_for lower isoparse re_sub w location days max_results (pre ++ post)%list results fetched st
    = (Return (Returned out), st').
Proof.
  induction pre as [|job pre IH]; intros results out fetched st st' Hrun; [discriminate|].
  cbn [muse_for app] in *.
  destruct (parse_publication_date isoparse (mj_publication_date job)) as [pub_date|];
    [|now apply IH].
  unfold bind in *.
  destruct (_within_days w pub_date days st) as [[[|]|e] st1]; cbn [negb] in *;
    [|now apply IH|exact Hrun].
  destruct (muse_location_pass lower location job); cbn [negb] in *; [|now apply IH].
  destruct (cap_reached max_results _); [exact Hrun | now apply IH].
Qed.

Lemma muse_for_sends_nothing (location : option string) (days max_results : option Z)
    (jobs : list MuseJob) :
  forall (results : list JobPosting) (fetched : Z),
    sends_nothing (muse_for lower isoparse re_sub w location days max_results jobs results fetched).
Proof.
  unfold sends_nothing, preserves.
  induction jobs as [|job jobs IH]; intros results fetched st; [reflexivity|].
  cbn [muse_for].
  destruct (parse_publication_date isoparse (mj_publication_date job)) as [pub_date|];
    [|apply IH].
  unfold bind.
  destruct (within_days_run w pub_date days st) as (b & st1 & -> & _ & Hsent & _).
  destruct b; cbn [negb]; [|now rewrite IH].
  destruct (muse_location_pass lower location job); cbn [negb]; [|now rewrite IH].
  destruct (cap_reached max_results _); [exact Hsent | now rewrite IH].
Qed.

(** When [return results] is reached inside a page, the search is over with
    the state the loop over the page left: one request for this page, none
    after it. *)
Lemma muse_while_returns_at_cap (query : string) (location : option string)
    (days max_results : option Z) (ls : MuseLoop) (st st' : State)
    (data : MusePage) (out : list JobPosting) :
  past_last_page ls = false ->
  themuse_api w (List.length (sent st)) (muse_request query location (ml_page ls))
  = HttpResponse 200 data ->
  muse_for lower isoparse re_sub w location days max_results (default [] (mp_results data))
           (ml_results ls) (ml_fetched ls)
           (add_sent (muse_request query location (ml_page ls)) st)
  = (Return (Returned out), st') ->
  muse_while lower isoparse re_sub w query location days max_results ls st = (Return out, st')
  /\ sent st' = (sent st ++ [muse_request query location (ml_page ls)])%list.
Proof.
  intros Hpage Hresp Hfor. split.
  - rewrite muse_while_step. unfold muse_body. rewrite Hpage.
    unfold bind at 1. cbn [muse_get]. fold (muse_request query location (ml_page ls)).
    rewrite Hresp. cbn [Z.eqb Pos.eqb negb].
    destruct (default [] (mp_results data)) as [|job jobs]; [discriminate|].
    unfold bind. now rewrite Hfor.
  - pose proof (muse_for_sends_nothing location days max_results (default [] (mp_results data))
                  (ml_results ls) (ml_fetched ls)
                  (add_sent (muse_request query location (ml_page ls)) st)) as Hsent.
    rewrite Hfor in Hsent. exact Hsent.
Qed.

(** The body of the loop with the state written out. *)
Lemma muse_body_eq (query : string) (location : option string)
    (days max_results : option Z) (ls : MuseLoop) (st : State) :
  muse_body lower isoparse re_sub w query location days max_results ls st
  = if past_last_page ls then (Return (Stop (ml_results ls)), st)
    else
      let request := muse_request query location (ml_page ls) in
      let st1 := add_sent request st in
      match themuse_api w (List.length (sent st)) request with
      | RequestException exc =>
          (Return (Stop (ml_results ls)),
           add_error (mk_LogRecord "Error contacting The Muse API: %s" [PStr exc]) st1)
      | HttpResponse status_code data =>
          if negb (status_code =? 200) then
            (Return (Stop (ml_results ls)),
             add_error (mk_LogRecord "The Muse API returned non‑200 status %s for page %s"
                           [PInt status_code; PInt (ml_page ls)]) st1)
          else
            match default [] (mp_results data) with
            | [] => (Return (Stop (ml_results ls)), st1)
            | _ :: _ =>
                match muse_for lower isoparse re_sub w location days max_results
                        (default [] (mp_results data)) (ml_results ls) (ml_fetched ls) st1 with
                | (Return (Returned results), st2) => (Return (Stop results), st2)
                | (Return (Exhausted results fetched), st2) =>
                    (Return (Next (mk_MuseLoop results (ml_page ls + 1) fetched
                                     (Some match ml_total_pages ls with
                                           | Some total_pages => total_pages
                                           | None => page_count_of data
                                           end))), st2)
                | (Raise e, st2) => (Raise e, st2)
                end
            end
      end.
Proof.
  unfold muse_body. destruct (past_last_page ls); [reflexivity|].
  unfold bind at 1. cbn [muse_get]. fold (muse_request query location (ml_page ls)).
  cbv zeta.
  destruct (themuse_api w _ _) as [exc|code data]; [reflexivity|].
  destruct (negb (code =? 200)); [reflexivity|].
  destruct (default [] (mp_results data)) as [|job jobs]; [reflexivity|].
  unfold bind.
  destruct (muse_for _ _ _ _ _ _ _ _ _ _) as [[[results fetched|results]|e] st2]; reflexivity.
Qed.

(** A pass through the body of the loop that does not end at the cap is the
    same pass without a cap. *)
Lemma muse_body_below_cap (query : string) (location : option string) (days : option Z)
    (m : Z) (ls : MuseLoop) (st st' : State) (step : MuseStep) :
  1 <= m -> counted ls -> Z.of_nat (List.length (ml_results ls)) < m ->
  muse_body lower isoparse re_sub w query location days (Some m) ls st = (Return step, st') ->
  match step with
  | Stop out => Z.of_nat (List.length out) < m
  | Next _ => True
  end ->
  muse_body lower isoparse re_sub w query location days None ls st = (Return step, st').
Proof.
  intros Hm Hcounted Hbelow. rewrite !muse_body_eq.
  destruct (past_last_page ls); [trivial|]. cbv zeta.
  destruct (themuse_api w _ _) as [exc|code data]; [trivial|].
  destruct (negb (code =? 200)); [trivial|].
  destruct (default [] (mp_results data)) as [|job jobs]; [trivial|].
  destruct (muse_for_run lower isoparse re_sub w location days (Some m) (job :: jobs)
              (ml_results ls) (ml_fetched ls)
              (add_sent (muse_request query location (ml_page ls)) st) Hcounted)
    as (exit & st2 & Hrun & _ & _ & _ & out & added & Hexit & -> & _ & Hcap).
  rewrite Hrun. specialize (Hcap m eq_refl Hm Hbelow).
  destruct Hexit as [-> | ->].
  - intros [= <- <-] Hlen. lia.
  - rewrite (muse_for_below_cap _ _ _ _ _ _ _ _ _ _ Hrun). trivial.
Qed.

(** When the search of The Muse ends below the cap, the search without a
    cap returns the same list. *)
Lemma muse_while_below_cap (query : string) (location : option string) (days : option Z)
    (m : Z) (ls : MuseLoop) (st : State) :
  1 <= m -> counted ls -> Z.of_nat (List.length (ml_results ls)) < m ->
  forall out st',
    muse_while lower isoparse re_sub w query location days (Some m) ls st = (Return out, st') ->
    Z.of_nat (List.length out) < m ->
    muse_while lower isoparse re_sub w query location days None ls st = (Return out, st').
Proof.
  intros Hm.
  apply (muse_while_elim lower isoparse re_sub w
           (fun q l d mx ls st r =>
              mx = Some m -> counted ls -> Z.of_nat (List.length (ml_results ls)) < m ->
              forall out st',
                r = (Return out, st') -> Z.of_nat (List.length out) < m ->
                muse_while lower isoparse re_sub w q l d None ls st = (Return out, st')));
    [| | |reflexivity].
  - intros q l d mx ls0 st0 results st1 Hbody _ -> Hcounted Hbelow out st' [= -> ->] Hlen.
    rewrite muse_while_step.
    now rewrite (muse_body_below_cap q l d m ls0 st0 _ _ Hm Hcounted Hbelow Hbody Hlen).
  - intros q l d mx ls0 st0 ls' st1 Hbody IH _ -> Hcounted Hbelow out st' Hrun Hlen.
    rewrite muse_while_step.
    rewrite (muse_body_below_cap q l d m ls0 st0 _ _ Hm Hcounted Hbelow Hbody I).
    destruct (muse_body_run lower isoparse re_sub w q l d (Some m) ls0 st0 Hcounted)
      as (step & st2 & Hrun2 & _ & res & added & Hstep & -> & _ & Hcap).
    rewrite Hbody in Hrun2. injection Hrun2 as <- <-.
    destruct Hstep as [[=] | (page & total & [= ->])].
    specialize (Hcap m eq_refl Hm Hbelow).
    apply IH; auto. reflexivity.
  - intros q l d mx ls0 st0 e st1 Hbody _ _ _ _ out st' [=].
Qed.

(** For a cap of at least one: a search that returns fewer postings than
    the cap returns what the search without a cap returns, that is, every
    item the source supplied that passes the filters; so the length is the
    cap whenever there are that many. *)
Lemma search_below_cap (self : Scraper) (query : string) (location : option string)
    (days : option Z) (m : Z) (st st' : State) (out : list JobPosting) :
  1 <= m ->
  search lower isoparse re_sub w self query location days (Some m) st = (Return out, st') ->
  Z.of_nat (List.length out) < m ->
  search lower isoparse re_sub w self query location days None st = (Return out, st').
Proof.
  intros Hm Hrun Hlen. destruct self; try discriminate; cbn [search] in *.
  - unfold themuse_search in *.
    apply (muse_while_below_cap query location days m (mk_MuseLoop [] 1 0 None) st Hm);
      [reflexivity | cbn; lia | exact Hrun | exact Hlen].
  - unfold remotive_search, bind in *. cbn [remotive_get] in *.
    destruct (remotive_api w _ _) as [exc|code data]; [exact Hrun|].
    destruct (negb (code =? 200)); [exact Hrun|].
    now apply (remotive_for_below_cap location days m).
Qed.

End Cap.

(** ** The calendar: comparing datetimes and subtracting them *)

Lemma days_before_year_succ (y : Z) :
  Datetime.days_before_year (y + 1)
  = Datetime.days_before_year y + 365 + (if Datetime.is_leap y then 1 else 0).
Proof.
  unfold Datetime.days_before_year, Datetime.is_leap.
  replace (y + 1 - 1) with y by lia.
  destruct (Z.eqb_spec (y mod 4) 0), (Z.eqb_spec (y mod 100) 0), (Z.eqb_spec (y mod 400) 0);
    cbn [andb orb negb]; Z.div_mod_to_equations; lia.
Qed.

Lemma days_before_year_mono (y1 y2 : Z) :
  y1 <= y2 -> Datetime.days_before_year y1 <= Datetime.days_before_year y2.
Proof.
  unfold Datetime.days_before_year. intros H. Z.div_mod_to_equations. lia.
Qed.
Lemma month_cases (m : Z) :
  1 <= m <= 12 ->
  m = 1 \/ m = 2 \/ m = 3 \/ m = 4 \/ m = 5 \/ m = 6 \/ m = 7 \/ m = 8 \/ m = 9 \/ m = 10
  \/ m = 11 \/ m = 12.
Proof. lia. Qed.

Ltac split_month H :=
  repeat match type of H with
         | _ \/ _ => destruct H as [H | H]
         end; subst.

Ltac eval_to_nat :=
  repeat match goal with
         | |- context [Z.to_nat ?k] =>
             let n := eval vm_compute in (Z.to_nat k) in change (Z.to_nat k) with n
         end.

(** The day of the year of a valid month and day. *)
Lemma day_of_year_bounds (y m d : Z) :
  1 <= m <= 12 -> 1 <= d <= Datetime.days_in_month y m ->
  1 <= Datetime.days_before_month y m + d <= 365 + (if Datetime.is_leap y then 1 else 0).
Proof.
  intros Hm Hd. apply month_cases in Hm.
  unfold Datetime.days_before_month, Datetime.days_in_month in *.
  remember (Datetime.is_leap y) as leap eqn:Eleap; clear Eleap.
  split_month Hm; eval_to_nat; cbn in *; destruct leap; lia.
Qed.

Lemma day_of_year_month_lt (y m1 d1 m2 d2 : Z) :
  1 <= m1 -> m1 < m2 -> m2 <= 12 ->
  1 <= d1 <= Datetime.days_in_month y m1 -> 1 <= d2 ->
  Datetime.days_before_month y m1 + d1 < Datetime.days_before_month y m2 + d2.
Proof.
  intros H1 H12 H2 Hd1 Hd2.
  assert (Hm1 : 1 <= m1 <= 12) by lia. assert (Hm2 : 1 <= m2 <= 12) by lia.
  apply month_cases in Hm1, Hm2.
  unfold Datetime.days_before_month, Datetime.days_in_month in *.
  remember (Datetime.is_leap y) as leap eqn:Eleap; clear Eleap.
  split_month Hm1; split_month Hm2; try lia; eval_to_nat; cbn in *; destruct leap; lia.
Qed.

Lemma toordinal_lt (a b : datetime) :
  Datetime.valid a -> Datetime.valid b ->
  year a < year b
  \/ (year a = year b /\ (month a < month b \/ (month a = month b /\ day a < day b))) ->
  Datetime.toordinal a < Datetime.toordinal b.
Proof.
  intros (Hya & Hma & Hda & _) (Hyb & Hmb & Hdb & _) Hlt. unfold Datetime.toordinal.
  destruct Hlt as [Hy | (Hy & [Hm | (Hm & Hd)])].
  - pose proof (day_of_year_bounds (year a) (month a) (day a) Hma Hda) as Ha.
    pose proof (day_of_year_bounds (year b) (month b) (day b) Hmb Hdb) as Hb.
    pose proof (days_before_year_succ (year a)) as Hsucc.
    pose proof (days_before_year_mono (year a + 1) (year b) ltac:(lia)) as Hmono.
    lia.
  - rewrite Hy in *.
    pose proof (day_of_year_month_lt (year b) (month a) (day a) (month b) (day b)).
    lia.
  - rewrite Hy, Hm. lia.
Qed.

Lemma seconds_of_day_bounds (d : datetime) :
  Datetime.valid d -> 0 <= Datetime.seconds_of_day d < 86400.
Proof. intros (_ & _ & _ & Hh & Hm & Hs & _). unfold Datetime.seconds_of_day. lia. Qed.

(** On valid datetimes the comparison by fields is the order of the time
    line, on which differences are taken. *)
Lemma compare_timeline (a b : datetime) :
  Datetime.valid a -> Datetime.valid b ->
  Datetime.compare a b = (Datetime.timeline a ?= Datetime.timeline b).
Proof.
  intros Ha Hb.
  assert (Hlt : forall x y, Datetime.valid x -> Datetime.valid y ->
                  Datetime.compare x y = Lt -> Datetime.timeline x < Datetime.timeline y).
  { clear. intros x y Hx Hy. unfold Datetime.compare, Datetime.fields. cbn [Datetime.cmp].
    pose proof (seconds_of_day_bounds x Hx) as Hsx.
    pose proof (seconds_of_day_bounds y Hy) as Hsy.
    pose proof (toordinal_lt x y Hx Hy) as Hord.
    destruct Hx as (_ & _ & _ & Hhx & Hmx & Hsecx & Husx).
    destruct Hy as (_ & _ & _ & Hhy & Hmy & Hsecy & Husy).
    unfold Datetime.timeline, Datetime.us_per_second, Datetime.seconds_per_day.
    destruct (Z.compare_spec (year x) (year y)) as [Ey|Ey|Ey]; [|intros _; lia|discriminate].
    destruct (Z.compare_spec (month x) (month y)) as [Em|Em|Em]; [|intros _; lia|discriminate].
    destruct (Z.compare_spec (day x) (day y)) as [Ed|Ed|Ed]; [|intros _; lia|discriminate].
    assert (Datetime.toordinal x = Datetime.toordinal y) as Eord
        by (unfold Datetime.toordinal; congruence).
    unfold Datetime.seconds_of_day in *.
    destruct (Z.compare_spec (hour x) (hour y)) as [Eh|Eh|Eh]; [|intros _; lia|discriminate].
    destruct (Z.compare_spec (minute x) (minute y)) as [Emi|Emi|Emi]; [|intros _; lia|discriminate].
    destruct (Z.compare_spec (second x) (second y)) as [Es|Es|Es]; [|intros _; lia|discriminate].
    destruct (Z.compare_spec (microsecond x) (microsecond y)) as [Eu|Eu|Eu];
      [discriminate|intros _; lia|discriminate]. }
  destruct (Datetime.compare a b) eqn:Hcmp; symmetry.
  - apply Z.compare_eq_iff. unfold Datetime.compare, Datetime.fields in Hcmp.
    cbn [Datetime.cmp] in Hcmp.
    destruct (Z.compare_spec (year a) (year b)); try discriminate.
    destruct (Z.compare_spec (month a) (month b)); try discriminate.
    destruct (Z.compare_spec (day a) (day b)); try discriminate.
    destruct (Z.compare_spec (hour a) (hour b)); try discriminate.
    destruct (Z.compare_spec (minute a) (minute b)); try discriminate.
    destruct (Z.compare_spec (second a) (second b)); try discriminate.
    destruct (Z.compare_spec (microsecond a) (microsecond b)); try discriminate.
    destruct a, b; cbn in *; congruence.
  - apply Z.compare_lt_iff. now apply Hlt.
  - apply Z.compare_gt_iff. apply Hlt; try assumption.
    unfold Datetime.compare in *.
    rewrite (cmp_opp (Datetime.fields a) (Datetime.fields b) eq_refl), Hcmp. reflexivity.
Qed.

(** A posting whose date compares as later than the reading of the clock
    passes the recency check for every positive number of days. *)
Lemma future_dates_pass_by_fields (w : World) (date : datetime) (D : Z) (st : State) :
  Datetime.valid date -> Datetime.valid (utcnow w (clock_reads st)) -> 0 < D ->
  Datetime.ltb (utcnow w (clock_reads st)) date = true ->
  fst (_within_days w date (Some D) st) = Return true.
Proof.
  intros Hdate Hnow HD Hlater.
  unfold Datetime.ltb in Hlater. rewrite (compare_timeline _ _ Hnow Hdate) in Hlater.
  destruct (Z.compare_spec (Datetime.timeline (utcnow w (clock_reads st)))
              (Datetime.timeline date)) as [|Hlt|]; try discriminate.
  destruct (within_days_spec w date D st) as (b & Hrun & Hb).
  rewrite Hrun. cbn [fst]. f_equal.
  apply Hb. pose proof us_per_day_pos as Hday. nia.
Qed.

(** ** The ISO format of a datetime *)







(** ** The JSON text and its decoder *)

























(** ** Reading the postings back *)







(** ** Texts with a UTF-8 form *)



















(** ** The pieces [json.dump] writes *)
















(** ** The output sink *)

Section Sink.
Variable lower : string -> string.
Variable w : World.




Lemma write_output_unsupported (jobs : list JobPosting) (path : string) (st : State) :
  output_ext lower path <> ".json" -> output_ext lower path <> ".csv" ->
  write_output lower w jobs path st
  = (Raise (ValueError (unsupported_message (output_ext lower path))), st).
Proof.
  intros Hjson Hcsv. unfold write_output. fold (output_ext lower path).
  apply String.eqb_neq in Hjson, Hcsv. now rewrite Hjson, Hcsv.
Qed.




End Sink.










(** * Further properties of the code *)

(** ** The recency check on the time line *)

Lemma within_days_recent_at (w : World) (date : datetime) (days : option Z) (st : State) :
  _within_days w date days st
  = (Return (recent_at w days (clock_reads st) date),
     match days with Some _ => tick st | None => st end).
Proof.
  destruct days as [D|]; [|reflexivity].
  rewrite within_days_some. unfold recent_at. do 2 f_equal.
  rewrite sub_days.
  destruct (_ <? D * _) eqn:E.
  - apply days_lt_iff. now apply Z.ltb_lt.
  - apply not_true_is_false. intros H. apply days_lt_iff, Z.ltb_lt in H. congruence.
Qed.

(** ** What [search] does to the state *)

Lemma footprint_refl (st : State) : footprint 0 [] [] st st.
Proof.
  unfold footprint. destruct st; cbn. now rewrite Nat.add_0_r, !app_nil_r.
Qed.

Lemma footprint_trans (k1 k2 : nat) (r1 r2 : list Request) (l1 l2 : list LogRecord)
    (st1 st2 st3 : State) :
  footprint k1 r1 l1 st1 st2 -> footprint k2 r2 l2 st2 st3 ->
  footprint (k1 + k2) (r1 ++ r2) (l1 ++ l2) st1 st3.
Proof.
  unfold footprint. intros -> ->. cbn. now rewrite Nat.add_assoc, map_app, !app_assoc.
Qed.

Lemma footprint_tick (st : State) : footprint 1 [] [] st (tick st).
Proof. unfold footprint, tick. now rewrite Nat.add_1_r, !app_nil_r. Qed.

Lemma footprint_add_sent (r : Request) (st : State) : footprint 0 [r] [] st (add_sent r st).
Proof. unfold footprint, add_sent. now rewrite Nat.add_0_r, !app_nil_r. Qed.

Lemma footprint_add_error (l : LogRecord) (st : State) :
  footprint 0 [] [l] st (add_error l st).
Proof.
  unfold footprint, add_error, add_stderr, add_logged. cbn.
  now rewrite Nat.add_0_r, !app_nil_r.
Qed.

Lemma footprint_clock (k : nat) (reqs : list Request) (logs : list LogRecord) (st st' : State) :
  footprint k reqs logs st st' -> clock_reads st' = (clock_reads st + k)%nat.
Proof. now intros ->. Qed.

Lemma footprint_sent (k : nat) (reqs : list Request) (logs : list LogRecord) (st st' : State) :
  footprint k reqs logs st st' -> sent st' = (sent st ++ reqs)%list.
Proof. now intros ->. Qed.

Section Footprints.
Variable lower : string -> string.
Variable isoparse : string -> option datetime.
Variable re_sub : string -> list ReFlag -> string -> string -> string.
Variable w : World.

(** The loop of Remotive reads the clock at most once for each item, not at
    all without a number of days, and does nothing else to the state. *)
Lemma remotive_for_footprint (location : option string) (days max_results : option Z)
    (jobs : list RemotiveJob) :
  forall (results : list JobPosting) (st : State),
  exists k out st',
    remotive_for lower isoparse re_sub w location days max_results jobs results st = (Return out, st')
    /\ footprint k [] [] st st'
    /\ (k <= List.length jobs)%nat /\ (days = None -> k = 0%nat).
Proof.
  induction jobs as [|job jobs IH]; intros results st.
  - exists 0%nat, results, st. cbn.
    split; [reflexivity | split; [apply footprint_refl | split; [lia | reflexivity]]].
  - cbn [remotive_for List.length].
    destruct (parse_publication_date isoparse (rj_publication_date job)) as [pub_date|].
    2:{ destruct (IH results st) as (k & out & st' & Hrun & Hk & Hle & Hnone).
        exists k, out, st'. repeat split; auto. }
    unfold bind. rewrite within_days_recent_at.
    set (st1 := match days with Some _ => tick st | None => st end).
    assert (H1 : exists k1, footprint k1 [] [] st st1 /\ (k1 <= 1)%nat /\ (days = None -> k1 = 0%nat)).
    { subst st1. destruct days.
      - exists 1%nat. split; [apply footprint_tick | split; [lia | discriminate]].
      - exists 0%nat. split; [apply footprint_refl | split; [lia | reflexivity]]. }
    destruct H1 as (k1 & Hk1 & Hle1 & Hnone1).
    assert (Hgo : forall results',
      exists k out st',
        remotive_for lower isoparse re_sub w location days max_results jobs results' st1
        = (Return out, st')
        /\ footprint k [] [] st st'
        /\ (k <= S (List.length jobs))%nat /\ (days = None -> k = 0%nat)).
    { intros results'. destruct (IH results' st1) as (k & out & st' & Hrun & Hk & Hle & Hnone).
      exists (k1 + k)%nat, out, st'. split; [exact Hrun|]. split; [|split; [lia|]].
      - apply (footprint_trans k1 k [] [] [] [] st st1 _ Hk1 Hk).
      - intros Hd. rewrite (Hnone Hd), (Hnone1 Hd). reflexivity. }
    destruct (recent_at w days (clock_reads st) pub_date); cbn [negb]; [|apply Hgo].
    destruct (remotive_location_pass lower location _); cbn [negb]; [|apply Hgo].
    destruct (cap_reached max_results _); [|apply Hgo].
    eexists k1, _, st1. split; [reflexivity|]. split; [exact Hk1 | split; [lia | exact Hnone1]].
Qed.

Lemma muse_for_footprint (location : option string) (days max_results : option Z)
    (jobs : list MuseJob) :
  forall (results : list JobPosting) (fetched : Z) (st : State),
  exists k exit st',
    muse_for lower isoparse re_sub w location days max_results jobs results fetched st
    = (Return exit, st')
    /\ footprint k [] [] st st'
    /\ (k <= List.length jobs)%nat /\ (days = None -> k = 0%nat).
Proof.
  induction jobs as [|job jobs IH]; intros results fetched st.
  - exists 0%nat, (Exhausted results fetched), st. cbn.
    split; [reflexivity | split; [apply footprint_refl | split; [lia | reflexivity]]].
  - cbn [muse_for List.length].
    destruct (parse_publication_date isoparse (mj_publication_date job)) as [pub_date|].
    2:{ destruct (IH results fetched st) as (k & out & st' & Hrun & Hk & Hle & Hnone).
        exists k, out, st'. repeat split; auto. }
    unfold bind. rewrite within_days_recent_at.
    set (st1 := match days with Some _ => tick st | None => st end).
    assert (H1 : exists k1, footprint k1 [] [] st st1 /\ (k1 <= 1)%nat /\ (days = None -> k1 = 0%nat)).
    { subst st1. destruct days.
      - exists 1%nat. split; [apply footprint_tick | split; [lia | discriminate]].
      - exists 0%nat. split; [apply footprint_refl | split; [lia | reflexivity]]. }
    destruct H1 as (k1 & Hk1 & Hle1 & Hnone1).
    assert (Hgo : forall results' fetched',
      exists k exit st',
        muse_for lower isoparse re_sub w location days max_results jobs results' fetched' st1
        = (Return exit, st')
        /\ footprint k [] [] st st'
        /\ (k <= S (List.length jobs))%nat /\ (days = None -> k = 0%nat)).
    { intros results' fetched'.
      destruct (IH results' fetched' st1) as (k & out & st' & Hrun & Hk & Hle & Hnone).
      exists (k1 + k)%nat, out, st'. split; [exact Hrun|]. split; [|split; [lia|]].
      - apply (footprint_trans k1 k [] [] [] [] st st1 _ Hk1 Hk).
      - intros Hd. rewrite (Hnone Hd), (Hnone1 Hd). reflexivity. }
    destruct (recent_at w days (clock_reads st) pub_date); cbn [negb]; [|apply Hgo].
    destruct (muse_location_pass lower location job); cbn [negb]; [|apply Hgo].
    destruct (cap_reached max_results _); [|apply Hgo].
    eexists k1, _, st1. split; [reflexivity|]. split; [exact Hk1 | split; [lia | exact Hnone1]].
Qed.

(** One pass through the body of the loop of The Muse: past the last page
    it does nothing; otherwise it sends the request for the page, logs at
    most one error, and goes on only after an answer with status 200 and at
    least one item, to the next page, with the page count it knew or the one
    this answer announced. *)
Lemma muse_body_pages (query : string) (location : option string)
    (days max_results : option Z) (ls : MuseLoop) (st : State) :
  let r := muse_body lower isoparse re_sub w query location days max_results ls st in
  let request := muse_request query location (ml_page ls) in
  (past_last_page ls = true /\ r = (Return (Stop (ml_results ls)), st))
  \/ (past_last_page ls = false
      /\ exists k logs,
           footprint k [request] logs st (snd r)
           /\ (List.length logs <= 1)%nat /\ (days = None -> k = 0%nat)
           /\ match fst r with
              | Return (Next ls') =>
                  logs = [] /\ ml_page ls' = ml_page ls + 1
                  /\ ml_total_pages ls'
                     = Some match ml_total_pages ls with
                            | Some total_pages => total_pages
                            | None =>
                                announced_pages (themuse_api w (List.length (sent st)) request)
                            end
                  /\ muse_items (themuse_api w (List.length (sent st)) request) <> []
              | Return (Stop _) => True
              | Raise _ => False
              end).
Proof.
  cbv zeta. rewrite muse_body_eq.
  destruct (past_last_page ls); [left; now split | right; split; [reflexivity|]].
  cbv zeta. set (request := muse_request query location (ml_page ls)).
  pose proof (footprint_add_sent request st) as Hsent.
  destruct (themuse_api w _ _) as [exc|code data].
  - exists 0%nat, [mk_LogRecord "Error contacting The Muse API: %s" [PStr exc]].
    cbn [fst snd]. repeat split; auto.
    apply (footprint_trans 0 0 [request] [] [] [_] _ _ _ Hsent (footprint_add_error _ _)).
  - destruct (code =? 200) eqn:Hcode; cbn [negb].
    2:{ eexists 0%nat, [_]. cbn [fst snd]. repeat split; auto.
        apply (footprint_trans 0 0 [request] [] [] [_] _ _ _ Hsent (footprint_add_error _ _)). }
    + destruct (default [] (mp_results data)) as [|job jobs] eqn:Hjobs.
      * exists 0%nat, []. cbn [fst snd]. repeat split; auto.
      * destruct (muse_for_footprint location days max_results (job :: jobs)
                    (ml_results ls) (ml_fetched ls) (add_sent request st))
          as (k & exit & st2 & Hrun & Hk & _ & Hnone).
        rewrite Hrun. exists k, [].
        pose proof (footprint_trans 0 k [request] [] [] [] _ _ _ Hsent Hk) as Hfoot.
        destruct exit as [results fetched|results]; cbn [fst snd]; repeat split; auto.
        cbn [muse_items]. rewrite Hcode, Hjobs. discriminate.
Qed.

(** The loop of The Muse asks for consecutive pages, beginning with the
    one it stands at, and for no page beyond the count it knows. *)
Lemma muse_while_pages (query : string) (location : option string)
    (days max_results : option Z) (ls : MuseLoop) (st : State) :
  exists k n logs,
    footprint k (map (muse_request query location) (pages_from (ml_page ls) n)) logs st
      (snd (muse_while lower isoparse re_sub w query location days max_results ls st))
    /\ (List.length logs <= 1)%nat /\ (days = None -> k = 0%nat)
    /\ pages_answered w query location (List.length (sent st)) (ml_page ls) n
    /\ match ml_total_pages ls with
       | Some total_pages => Z.of_nat n <= Z.max 0 (total_pages + 1 - ml_page ls)
       | None =>
           (1 <= n)%nat
           /\ Z.of_nat n
              <= Z.max 1 (announced_pages
                            (themuse_api w (List.length (sent st))
                               (muse_request query location (ml_page ls)))
                          + 1 - ml_page ls)
       end.
Proof.
  apply (muse_while_elim lower isoparse re_sub w
           (fun q l d m ls st r =>
              exists k n logs,
                footprint k (map (muse_request q l) (pages_from (ml_page ls) n)) logs st (snd r)
                /\ (List.length logs <= 1)%nat /\ (d = None -> k = 0%nat)
                /\ pages_answered w q l (List.length (sent st)) (ml_page ls) n
                /\ match ml_total_pages ls with
                   | Some total_pages => Z.of_nat n <= Z.max 0 (total_pages + 1 - ml_page ls)
                   | None =>
                       (1 <= n)%nat
                       /\ Z.of_nat n
                          <= Z.max 1 (announced_pages
                                        (themuse_api w (List.length (sent st))
                                           (muse_request q l (ml_page ls)))
                                      + 1 - ml_page ls)
                   end)).
  - intros q l d m ls0 st0 results st' Hbody _.
    destruct (muse_body_pages q l d m ls0 st0) as [[Hpast Hr] | (Hpast & k & logs & Hfoot & Hlogs & Hnone & _)].
    + rewrite Hbody in Hr. injection Hr as -> ->.
      exists 0%nat, 0%nat, []. cbn [snd pages_from map List.length].
      split; [apply footprint_refl|]. split; [lia|]. split; [reflexivity|]. split; [exact I|].
      unfold past_last_page in Hpast. destruct (ml_total_pages ls0); [lia | discriminate].
    + rewrite Hbody in Hfoot. cbn [snd] in Hfoot.
      exists k, 1%nat, logs. cbn [snd pages_from map].
      split; [exact Hfoot|]. split; [exact Hlogs|]. split; [exact Hnone|]. split; [exact I|].
      unfold past_last_page in Hpast. destruct (ml_total_pages ls0) as [tp|].
      * apply Z.ltb_ge in Hpast. lia.
      * lia.
  - intros q l d m ls0 st0 ls' st' Hbody IH _.
    destruct (muse_body_pages q l d m ls0 st0) as [[Hpast Hr] | (Hpast & k & logs & Hfoot & Hlogs & Hnone & Hnext)].
    + rewrite Hbody in Hr. discriminate.
    + rewrite Hbody in Hfoot, Hnext. cbn [fst snd] in Hfoot, Hnext.
      destruct Hnext as (-> & Hpage & Htotal & Hitems).
      destruct IH as (k' & n' & logs' & Hfoot' & Hlogs' & Hnone' & Hans & Hbound).
      rewrite Hpage in Hfoot', Hans. rewrite Htotal, Hpage in Hbound.
      rewrite (footprint_sent _ _ _ _ _ Hfoot), length_app, Nat.add_1_r in Hans.
      exists (k + k')%nat, (S n'), logs'. cbn [pages_from map].
      split; [|split; [exact Hlogs'|split; [|split]]].
      * apply (footprint_trans k k' [_] _ [] logs' _ _ _ Hfoot Hfoot').
      * intros Hd. now rewrite (Hnone Hd), (Hnone' Hd).
      * cbn [pages_answered]. destruct n'; [exact I | now split].
      * unfold past_last_page in Hpast. destruct (ml_total_pages ls0) as [tp|].
        -- apply Z.ltb_ge in Hpast. lia.
        -- lia.
  - intros q l d m ls0 st0 e st' Hbody _.
    destruct (muse_body_pages q l d m ls0 st0) as [[Hpast Hr] | (Hpast & k & logs & Hfoot & Hlogs & Hnone & Hnext)].
    + rewrite Hbody in Hr. discriminate.
    + rewrite Hbody in Hnext. cbn in Hnext. contradiction.
Qed.

End Footprints.

(** X1: the recency check compares elapsed time, not calendar days.  With a
    number of days [D] it reads the clock once and accepts a date exactly
    when less than [D] times 24 hours lie between the date and the reading: a
    posting published exactly [D] days before the reading is rejected, one
    published a microsecond later is accepted. *)
Theorem within_days_elapsed_time (w : World) (date : datetime) (D : Z) (st : State) :
  let elapsed := Datetime.timeline (utcnow w (clock_reads st)) - Datetime.timeline date in
  _within_days w date (Some D) st = (Return (elapsed <? D * Datetime.us_per_day), tick st)
  /\ (elapsed = D * Datetime.us_per_day ->
      _within_days w date (Some D) st = (Return false, tick st))
  /\ (elapsed = D * Datetime.us_per_day - 1 ->
      _within_days w date (Some D) st = (Return true, tick st)).
Proof.
  cbv zeta. pose proof (within_days_recent_at w date (Some D) st) as H. cbn [recent_at] in H.
  split; [exact H|]. split; intros E; rewrite H, E.
  - now rewrite Z.ltb_irrefl.
  - do 2 f_equal. apply Z.ltb_lt. lia.
Qed.

Lemma within_days_elapsed_time_witness :
  Datetime.timeline (utcnow sample_world (clock_reads initial_state))
  - Datetime.timeline (mk_datetime 2024 2 24 12 0 0 0)
  = 7 * Datetime.us_per_day
  /\ _within_days sample_world (mk_datetime 2024 2 24 12 0 0 0) (Some 7) initial_state
     = (Return false, tick initial_state).
Proof.
  split; [reflexivity|].
  apply (proj1 (proj2 (within_days_elapsed_time sample_world (mk_datetime 2024 2 24 12 0 0 0)
                         7 initial_state))).
  reflexivity.
Defined.

(** ** Where the postings come from *)

Lemma omap_cons_eq {A B : Type} (f : A -> option B) (x : A) (l : list A) :
  omap f (x :: l) = match f x with Some y => y :: omap f l | None => omap f l end.
Proof. reflexivity. Qed.

Section Origin.
Variable lower : string -> string.
Variable isoparse : string -> option datetime.
Variable re_sub : string -> list ReFlag -> string -> string -> string.
Variable w : World.

(** What the loop of Remotive adds to [results] is, in the order of the
    items, a selection of the postings of those items that parse and pass
    the location filter: all of them when there is neither a number of days
    nor a cap. *)
Lemma remotive_for_origin (location : option string) (days max_results : option Z)
    (jobs : list RemotiveJob) :
  forall (results out : list JobPosting) (st st' : State),
    remotive_for lower isoparse re_sub w location days max_results jobs results st = (Return out, st') ->
    exists added,
      out = (results ++ added)%list
      /\ sublist added (omap (remotive_select lower isoparse re_sub location) jobs)
      /\ (days = None -> max_results = None ->
          added = omap (remotive_select lower isoparse re_sub location) jobs).
Proof.
  induction jobs as [|job jobs IH]; intros results out st st' Hrun.
  - injection Hrun as <- <-. exists []. rewrite app_nil_r. repeat split; constructor.
  - cbn [remotive_for] in Hrun. rewrite omap_cons_eq.
    change (remotive_select lower isoparse re_sub location job)
      with (match parse_publication_date isoparse (rj_publication_date job) with
            | Some pub_date =>
                if remotive_location_pass lower location (remotive_job_location job)
                then Some (remotive_posting re_sub job (remotive_job_location job) pub_date)
                else None
            | None => None
            end).
    destruct (parse_publication_date isoparse (rj_publication_date job)) as [pub_date|];
      [|now apply (IH _ _ _ _ Hrun)].
    unfold bind in Hrun. rewrite within_days_recent_at in Hrun.
    fold (remotive_job_location job) in Hrun.
    destruct (recent_at w days (clock_reads st) pub_date) eqn:Hrecent; cbn [negb] in Hrun.
    2:{ destruct (IH _ _ _ _ Hrun) as (added & -> & Hsub & Hall).
        exists added. split; [reflexivity|]. split.
        - destruct (remotive_location_pass lower location _); [now apply sublist_cons | exact Hsub].
        - intros -> _. discriminate. }
    destruct (remotive_location_pass lower location (remotive_job_location job)); cbn [negb] in Hrun;
      [|now apply (IH _ _ _ _ Hrun)].
    set (posting := remotive_posting re_sub job (remotive_job_location job) pub_date) in *.
    destruct (cap_reached max_results _) eqn:Hcap.
    + injection Hrun as <- <-. exists [posting]. split; [reflexivity|]. split.
      * apply sublist_skip, sublist_nil_l.
      * intros _ ->. discriminate.
    + destruct (IH _ _ _ _ Hrun) as (added & -> & Hsub & Hall).
      exists (posting :: added). split; [now rewrite <- app_assoc|]. split.
      * now apply sublist_skip.
      * intros Hd Hm. now rewrite (Hall Hd Hm).
Qed.

Lemma muse_for_origin (location : option string) (days max_results : option Z)
    (jobs : list MuseJob) :
  forall (results : list JobPosting) (fetched : Z) (exit : ForExit) (st st' : State),
    muse_for lower isoparse re_sub w location days max_results jobs results fetched st
    = (Return exit, st') ->
    exists added,
      match exit with
      | Exhausted out _ => out = (results ++ added)%list
      | Returned out => out = (results ++ added)%list
      end
      /\ sublist added (omap (muse_select lower isoparse re_sub location) jobs)
      /\ (days = None -> max_results = None ->
          added = omap (muse_select lower isoparse re_sub location) jobs).
Proof.
  induction jobs as [|job jobs IH]; intros results fetched exit st st' Hrun.
  - injection Hrun as <- <-. exists []. rewrite app_nil_r. repeat split; constructor.
  - cbn [muse_for] in Hrun. rewrite omap_cons_eq.
    change (muse_select lower isoparse re_sub location job)
      with (match parse_publication_date isoparse (mj_publication_date job) with
            | Some pub_date =>
                if muse_location_pass lower location job
                then Some (muse_posting re_sub job pub_date)
                else None
            | None => None
            end).
    destruct (parse_publication_date isoparse (mj_publication_date job)) as [pub_date|];
      [|now apply (IH _ _ _ _ _ Hrun)].
    unfold bind in Hrun. rewrite within_days_recent_at in Hrun.
    destruct (recent_at w days (clock_reads st) pub_date) eqn:Hrecent; cbn [negb] in Hrun.
    2:{ destruct (IH _ _ _ _ _ Hrun) as (added & Hout & Hsub & Hall).
        exists added. split; [exact Hout|]. split.
        - destruct (muse_location_pass lower location _); [now apply sublist_cons | exact Hsub].
        - intros -> _. discriminate. }
    destruct (muse_location_pass lower location job); cbn [negb] in Hrun;
      [|now apply (IH _ _ _ _ _ Hrun)].
    set (posting := muse_posting re_sub job pub_date) in *.
    destruct (cap_reached max_results _) eqn:Hcap.
    + injection Hrun as <- <-. exists [posting]. split; [reflexivity|]. split.
      * apply sublist_skip, sublist_nil_l.
      * intros _ ->. discriminate.
    + destruct (IH _ _ _ _ _ Hrun) as (added & Hout & Hsub & Hall).
      exists (posting :: added). split; [|split].
      * destruct exit; rewrite Hout; now rewrite <- app_assoc.
      * now apply sublist_skip.
      * intros Hd Hm. now rewrite (Hall Hd Hm).
Qed.

Lemma muse_received_app (i : nat) (reqs reqs' : list Request) :
  muse_received w i (reqs ++ reqs')%list
  = (muse_received w i reqs ++ muse_received w (i + List.length reqs) reqs')%list.
Proof.
  revert i. induction reqs as [|r reqs IH]; intros i; cbn [muse_received app List.length].
  - now rewrite Nat.add_0_r.
  - rewrite IH, <- app_assoc. do 3 f_equal. lia.
Qed.

Lemma muse_body_origin (query : string) (location : option string)
    (days max_results : option Z) (ls : MuseLoop) (st : State) :
  exists step st' reqs added,
    muse_body lower isoparse re_sub w query location days max_results ls st = (Return step, st')
    /\ sent st' = (sent st ++ reqs)%list
    /\ step_results step = (ml_results ls ++ added)%list
    /\ sublist added
         (omap (muse_select lower isoparse re_sub location) (muse_received w (List.length (sent st)) reqs))
    /\ (days = None -> max_results = None ->
        added = omap (muse_select lower isoparse re_sub location)
                     (muse_received w (List.length (sent st)) reqs)).
Proof.
  rewrite muse_body_eq.
  destruct (past_last_page ls).
  { exists (Stop (ml_results ls)), st, [], []. cbn. rewrite !app_nil_r. repeat split; constructor. }
  cbv zeta. set (request := muse_request query location (ml_page ls)).
  assert (Hnone : forall st',
    sent st' = (sent st ++ [request])%list ->
    muse_items (themuse_api w (List.length (sent st)) request) = [] ->
    exists step st'' reqs added,
      (Return (Stop (ml_results ls)), st') = (Return step, st'')
      /\ sent st'' = (sent st ++ reqs)%list
      /\ step_results step = (ml_results ls ++ added)%list
      /\ sublist added
           (omap (muse_select lower isoparse re_sub location)
                 (muse_received w (List.length (sent st)) reqs))
      /\ (days = None -> max_results = None ->
          added = omap (muse_select lower isoparse re_sub location)
                       (muse_received w (List.length (sent st)) reqs))).
  { intros st' Hsent Hitems. exists (Stop (ml_results ls)), st', [request], [].
    cbn [muse_received step_results]. rewrite Hitems. cbn. rewrite app_nil_r.
    repeat split; auto. }
  destruct (themuse_api w _ _) as [exc|code data] eqn:Hresp.
  - apply Hnone; reflexivity.
  - destruct (code =? 200) eqn:Hcode; cbn [negb].
    2:{ apply Hnone; [reflexivity | cbn; now rewrite Hcode]. }
    destruct (default [] (mp_results data)) as [|job jobs] eqn:Hjobs.
    { apply Hnone; [reflexivity | cbn; now rewrite Hcode]. }
    destruct (muse_for_footprint lower isoparse re_sub w location days max_results (job :: jobs)
                (ml_results ls) (ml_fetched ls) (add_sent request st))
      as (k & exit & st2 & Hrun & Hfoot & _).
    rewrite Hrun.
    destruct (muse_for_origin location days max_results (job :: jobs) _ _ _ _ _ Hrun)
      as (added & Hout & Hsub & Hall).
    assert (Hsent : sent st2 = (sent st ++ [request])%list).
    { rewrite Hfoot. cbn. now rewrite app_nil_r. }
    assert (Hrecv : muse_received w (List.length (sent st)) [request] = (job :: jobs)).
    { cbn [muse_received]. rewrite Hresp. cbn [muse_items]. rewrite Hcode, Hjobs.
      now rewrite app_nil_r. }
    destruct exit as [out fetched|out]; subst out.
    + eexists (Next _), st2, [request], added. rewrite Hrecv. now repeat split.
    + exists (Stop (ml_results ls ++ added)%list), st2, [request], added.
      rewrite Hrecv. now repeat split.
Qed.

(** The postings the loop of The Muse adds come from the items of the
    answers to the requests it sends, in their order. *)
Lemma muse_while_origin (query : string) (location : option string)
    (days max_results : option Z) (ls : MuseLoop) (st : State) :
  exists out st' reqs added,
    muse_while lower isoparse re_sub w query location days max_results ls st = (Return out, st')
    /\ sent st' = (sent st ++ reqs)%list
    /\ out = (ml_results ls ++ added)%list
    /\ sublist added
         (omap (muse_select lower isoparse re_sub location) (muse_received w (List.length (sent st)) reqs))
    /\ (days = None -> max_results = None ->
        added = omap (muse_select lower isoparse re_sub location)
                     (muse_received w (List.length (sent st)) reqs)).
Proof.
  apply (muse_while_elim lower isoparse re_sub w
           (fun q l d m ls st r =>
              exists out st' reqs added,
                r = (Return out, st')
                /\ sent st' = (sent st ++ reqs)%list
                /\ out = (ml_results ls ++ added)%list
                /\ sublist added
                     (omap (muse_select lower isoparse re_sub l) (muse_received w (List.length (sent st)) reqs))
                /\ (d = None -> m = None ->
                    added = omap (muse_select lower isoparse re_sub l)
                                 (muse_received w (List.length (sent st)) reqs)))).
  - intros q l d m ls0 st0 results st' Hbody _.
    destruct (muse_body_origin q l d m ls0 st0)
      as (step & st1 & reqs & added & Hrun & Hsent & Hres & Hsub & Hall).
    rewrite Hbody in Hrun. injection Hrun as <- <-. cbn in Hres.
    exists results, st', reqs, added. now repeat split.
  - intros q l d m ls0 st0 ls' st' Hbody IH _.
    destruct (muse_body_origin q l d m ls0 st0)
      as (step & st1 & reqs & added & Hrun & Hsent & Hres & Hsub & Hall).
    rewrite Hbody in Hrun. injection Hrun as <- <-. cbn in Hres.
    destruct IH as (out & st2 & reqs' & added' & Hr & Hsent' & -> & Hsub' & Hall').
    rewrite Hsent, length_app in Hsub', Hall'.
    exists (ml_results ls' ++ added')%list, st2, (reqs ++ reqs')%list, (added ++ added')%list.
    rewrite muse_received_app, omap_app.
    split; [exact Hr|]. split; [now rewrite Hsent', Hsent, app_assoc|].
    split; [now rewrite Hres, app_assoc|]. split.
    + now apply sublist_app.
    + intros Hd Hm. now rewrite (Hall Hd Hm), (Hall' Hd Hm).
  - intros q l d m ls0 st0 e st' Hbody _.
    destruct (muse_body_origin q l d m ls0 st0) as (step & st1 & reqs & added & Hrun & _).
    rewrite Hbody in Hrun. discriminate.
Qed.

End Origin.

(** ** Failing requests *)



Section Failures.
Variable lower : string -> string.
Variable isoparse : string -> option datetime.
Variable re_sub : string -> list ReFlag -> string -> string -> string.
Variable w : World.



End Failures.




(** ** Nothing that qualifies is left out *)

Section Complete.
Variable lower : string -> string.
Variable isoparse : string -> option datetime.
Variable re_sub : string -> list ReFlag -> string -> string -> string.
Variable w : World.

(** Without a cap, the loop of Remotive returns the posting of every item
    that parses, passes the location filter and is recent at every reading of
    the clock the loop takes. *)
Lemma remotive_for_complete (location : option string) (days : option Z)
    (jobs : list RemotiveJob) :
  forall (results out : list JobPosting) (st st' : State),
    remotive_for lower isoparse re_sub w location days None jobs results st = (Return out, st') ->
    forall job date p,
      In job jobs ->
      parse_publication_date isoparse (rj_publication_date job) = Some date ->
      remotive_select lower isoparse re_sub location job = Some p ->
      (forall k, (clock_reads st <= k < clock_reads st')%nat -> recent_at w days k date = true) ->
      In p out.
Proof.
  induction jobs as [|job0 jobs IH]; intros results out st st' Hrun job date p HIn Hdate Hsel Hwin;
    [contradiction|].
  cbn [remotive_for] in Hrun.
  assert (Hclk : forall results1 st1,
            remotive_for lower isoparse re_sub w location days None jobs results1 st1 = (Return out, st') ->
            (clock_reads st1 <= clock_reads st')%nat
            /\ exists added, out = (results1 ++ added)%list).
  { intros results1 st1 H1.
    destruct (remotive_for_run lower isoparse re_sub w location days None jobs results1 st1)
      as (out1 & st1' & Hr & Hle & _ & _ & (added & Hadd & _) & _).
    rewrite H1 in Hr. injection Hr as <- <-. split; [exact Hle | now exists added]. }
  destruct HIn as [<- | HIn].
  - unfold remotive_select in Hsel. rewrite Hdate in *.
    unfold bind in Hrun. rewrite within_days_recent_at in Hrun.
    fold (remotive_job_location job0) in Hrun.
    destruct (remotive_location_pass lower location (remotive_job_location job0)); [|discriminate].
    injection Hsel as <-.
    destruct (recent_at w days (clock_reads st) date) eqn:Hrecent; cbn [negb cap_reached] in Hrun.
    + destruct (Hclk _ _ Hrun) as (_ & added & ->).
      apply in_or_app. left. apply in_or_app. right. now left.
    + exfalso. destruct days as [D|]; [|discriminate].
      destruct (Hclk _ _ Hrun) as [Hle _]. cbn in Hle.
      rewrite Hwin in Hrecent; [discriminate | lia].
  - destruct (parse_publication_date isoparse (rj_publication_date job0)) as [pub_date|];
      [|now apply (IH _ _ _ _ Hrun job date p)].
    unfold bind in Hrun. rewrite within_days_recent_at in Hrun.
    set (st1 := match days with Some _ => tick st | None => st end) in *.
    assert (Hst1 : (clock_reads st <= clock_reads st1)%nat)
      by (subst st1; destruct days; cbn; lia).
    assert (Hwin1 : forall k, (clock_reads st1 <= k < clock_reads st')%nat ->
                      recent_at w days k date = true) by (intros k Hk; apply Hwin; lia).
    destruct (recent_at w days (clock_reads st) pub_date); cbn [negb] in Hrun;
      [|now apply (IH _ _ _ _ Hrun job date p)].
    destruct (remotive_location_pass lower location _); cbn [negb cap_reached] in Hrun;
      now apply (IH _ _ _ _ Hrun job date p).
Qed.

Lemma muse_for_complete (location : option string) (days : option Z)
    (jobs : list MuseJob) :
  forall (results out : list JobPosting) (fetched fetched' : Z) (st st' : State),
    muse_for lower isoparse re_sub w location days None jobs results fetched st
    = (Return (Exhausted out fetched'), st') ->
    forall job date p,
      In job jobs ->
      parse_publication_date isoparse (mj_publication_date job) = Some date ->
      muse_select lower isoparse re_sub location job = Some p ->
      (forall k, (clock_reads st <= k < clock_reads st')%nat -> recent_at w days k date = true) ->
      In p out.
Proof.
  induction jobs as [|job0 jobs IH];
    intros results out fetched fetched' st st' Hrun job date p HIn Hdate Hsel Hwin;
    [contradiction|].
  cbn [muse_for] in Hrun.
  assert (Hclk : forall results1 fetched1 st1,
            muse_for lower isoparse re_sub w location days None jobs results1 fetched1 st1
            = (Return (Exhausted out fetched'), st') ->
            (clock_reads st1 <= clock_reads st')%nat
            /\ exists added, out = (results1 ++ added)%list).
  { intros results1 fetched1 st1 H1.
    destruct (muse_for_footprint lower isoparse re_sub w location days None jobs results1 fetched1 st1)
      as (k & exit & st1' & Hr & Hfoot & _).
    destruct (muse_for_origin lower isoparse re_sub w location days None jobs _ _ _ _ _ H1)
      as (added & Hout & _).
    rewrite H1 in Hr. injection Hr as <- <-.
    apply footprint_clock in Hfoot. split; [lia | now exists added]. }
  destruct HIn as [<- | HIn].
  - unfold muse_select in Hsel. rewrite Hdate in *.
    unfold bind in Hrun. rewrite within_days_recent_at in Hrun.
    destruct (muse_location_pass lower location job0); [|discriminate].
    injection Hsel as <-.
    destruct (recent_at w days (clock_reads st) date) eqn:Hrecent; cbn [negb cap_reached] in Hrun.
    + destruct (Hclk _ _ _ Hrun) as (_ & added & ->).
      apply in_or_app. left. apply in_or_app. right. now left.
    + exfalso. destruct days as [D|]; [|discriminate].
      destruct (Hclk _ _ _ Hrun) as [Hle _]. cbn in Hle.
      rewrite Hwin in Hrecent; [discriminate | lia].
  - destruct (parse_publication_date isoparse (mj_publication_date job0)) as [pub_date|];
      [|now apply (IH _ _ _ _ _ _ Hrun job date p)].
    unfold bind in Hrun. rewrite within_days_recent_at in Hrun.
    set (st1 := match days with Some _ => tick st | None => st end) in *.
    assert (Hst1 : (clock_reads st <= clock_reads st1)%nat)
      by (subst st1; destruct days; cbn; lia).
    assert (Hwin1 : forall k, (clock_reads st1 <= k < clock_reads st')%nat ->
                      recent_at w days k date = true) by (intros k Hk; apply Hwin; lia).
    destruct (recent_at w days (clock_reads st) pub_date); cbn [negb] in Hrun;
      [|now apply (IH _ _ _ _ _ _ Hrun job date p)].
    destruct (muse_location_pass lower location job0); cbn [negb cap_reached] in Hrun;
      now apply (IH _ _ _ _ _ _ Hrun job date p).
Qed.

(** Without a cap the loop over a page never reaches [return results]. *)
Lemma muse_for_no_cap_exhausts (location : option string) (days : option Z)
    (jobs : list MuseJob) :
  forall (results : list JobPosting) (fetched : Z) (st : State) (out : list JobPosting)
         (st' : State),
    muse_for lower isoparse re_sub w location days None jobs results fetched st
    <> (Return (Returned out), st').
Proof.
  induction jobs as [|job jobs IH]; intros results fetched st out st'; cbn [muse_for].
  - discriminate.
  - destruct (parse_publication_date _ _); [|apply IH].
    unfold bind. rewrite within_days_recent_at.
    destruct (recent_at _ _ _ _); cbn [negb]; [|apply IH].
    destruct (muse_location_pass lower _ _); cbn [negb cap_reached]; apply IH.
Qed.

Lemma muse_body_complete (query : string) (location : option string)
    (days : option Z) (ls : MuseLoop) (st st' : State) (step : MuseStep) (reqs : list Request) :
  muse_body lower isoparse re_sub w query location days None ls st = (Return step, st') ->
  sent st' = (sent st ++ reqs)%list ->
  forall job date p,
    In job (muse_received w (List.length (sent st)) reqs) ->
    parse_publication_date isoparse (mj_publication_date job) = Some date ->
    muse_select lower isoparse re_sub location job = Some p ->
    (forall k, (clock_reads st <= k < clock_reads st')%nat -> recent_at w days k date = true) ->
    In p (step_results step).
Proof.
  rewrite muse_body_eq. intros Hrun Hsent job date p HIn Hdate Hsel Hwin.
  destruct (past_last_page ls).
  { injection Hrun as <- <-. apply (f_equal (@List.length _)) in Hsent.
    rewrite length_app in Hsent. destruct reqs; [contradiction | cbn in Hsent; lia]. }
  cbv zeta in Hrun. set (request := muse_request query location (ml_page ls)) in *.
  assert (Hone : sent st' = (sent st ++ [request])%list -> reqs = [request]).
  { intros H. rewrite Hsent in H. now apply app_inv_head in H. }
  destruct (themuse_api w _ _) as [exc|code data] eqn:Hresp.
  { injection Hrun as <- <-. rewrite (Hone eq_refl) in HIn. cbn in HIn. now rewrite Hresp in HIn. }
  destruct (code =? 200) eqn:Hcode; cbn [negb] in Hrun.
  2:{ injection Hrun as <- <-. rewrite (Hone eq_refl) in HIn. cbn in HIn.
      rewrite Hresp in HIn. cbn in HIn. now rewrite Hcode in HIn. }
  destruct (default [] (mp_results data)) as [|job0 jobs] eqn:Hjobs.
  { injection Hrun as <- <-. rewrite (Hone eq_refl) in HIn. cbn in HIn.
    rewrite Hresp in HIn. cbn in HIn. now rewrite Hcode, Hjobs in HIn. }
  destruct (muse_for_footprint lower isoparse re_sub w location days None (job0 :: jobs)
              (ml_results ls) (ml_fetched ls) (add_sent request st))
    as (k & exit & st2 & Hfor & Hfoot & _).
  rewrite Hfor in Hrun.
  assert (Hst2 : st2 = st') by (destruct exit; now injection Hrun).
  subst st2.
  assert (Hs : sent st' = (sent st ++ [request])%list).
  { rewrite (footprint_sent _ _ _ _ _ Hfoot). cbn. now rewrite app_nil_r. }
  rewrite (Hone Hs) in HIn.
  cbn in HIn. rewrite Hresp in HIn. cbn in HIn. rewrite Hcode, Hjobs, app_nil_r in HIn.
  destruct exit as [out fetched|out].
  - injection Hrun as <-. cbn [step_results ml_results].
    apply (muse_for_complete location days (job0 :: jobs) _ _ _ _ _ _ Hfor job date p);
      auto.
  - exfalso. exact (muse_for_no_cap_exhausts _ _ _ _ _ _ _ _ Hfor).
Qed.

(** Without a cap, the loop of The Muse returns the posting of every item
    of the answers to its requests that parses, passes the location filter
    and is recent at every reading of the clock the loop takes. *)
Lemma muse_while_complete (query : string) (location : option string)
    (days : option Z) (ls : MuseLoop) (st : State) :
  forall out st' reqs,
    muse_while lower isoparse re_sub w query location days None ls st = (Return out, st') ->
    sent st' = (sent st ++ reqs)%list ->
    forall job date p,
      In job (muse_received w (List.length (sent st)) reqs) ->
      parse_publication_date isoparse (mj_publication_date job) = Some date ->
      muse_select lower isoparse re_sub location job = Some p ->
      (forall k, (clock_reads st <= k < clock_reads st')%nat -> recent_at w days k date = true) ->
      In p out.
Proof.
  apply (muse_while_elim lower isoparse re_sub w
           (fun q l d m ls st r =>
              m = None ->
              forall out st' reqs,
                r = (Return out, st') ->
                sent st' = (sent st ++ reqs)%list ->
                forall job date p,
                  In job (muse_received w (List.length (sent st)) reqs) ->
                  parse_publication_date isoparse (mj_publication_date job) = Some date ->
                  muse_select lower isoparse re_sub l job = Some p ->
                  (forall k, (clock_reads st <= k < clock_reads st')%nat ->
                     recent_at w d k date = true) ->
                  In p out)); [| | |reflexivity].
  - intros q l d m ls0 st0 results st1 Hbody _ -> out st' reqs [= <- <-] Hsent job date p
           HIn Hdate Hsel Hwin.
    apply (muse_body_complete q l d ls0 st0 st1 (Stop results) reqs Hbody Hsent job date p);
      auto.
  - intros q l d m ls0 st0 ls' st1 Hbody IH _ -> out st' reqs Hrun Hsent job date p
           HIn Hdate Hsel Hwin.
    destruct (muse_body_origin lower isoparse re_sub w q l d None ls0 st0)
      as (step & st1' & rb & added & Hrun1 & Hsent1 & _).
    rewrite Hbody in Hrun1. injection Hrun1 as <- <-.
    destruct (muse_while_origin lower isoparse re_sub w q l d None ls' st1)
      as (out2 & st2 & rr & added2 & Hrun2 & Hsent2 & Hout2 & _).
    rewrite Hrun in Hrun2. injection Hrun2 as <- <-.
    assert (Hreqs : reqs = (rb ++ rr)%list).
    { rewrite Hsent1, <- app_assoc in Hsent2. rewrite Hsent in Hsent2.
      now apply app_inv_head in Hsent2. }
    destruct (muse_while_pages lower isoparse re_sub w q l d None ls' st1)
      as (k2 & n2 & logs2 & Hfoot2 & _).
    rewrite Hrun in Hfoot2. apply footprint_clock in Hfoot2. cbn [snd] in Hfoot2.
    destruct (muse_body_pages lower isoparse re_sub w q l d None ls0 st0)
      as [[_ Hr] | (_ & k1 & logs1 & Hfoot1 & _)].
    { rewrite Hbody in Hr. discriminate. }
    rewrite Hbody in Hfoot1. apply footprint_clock in Hfoot1. cbn [snd] in Hfoot1.
    rewrite Hreqs, muse_received_app in HIn. apply in_app_or in HIn.
    destruct HIn as [HIn | HIn].
    + rewrite Hout2. apply in_or_app. left.
      apply (muse_body_complete q l d ls0 st0 st1 (Next ls') rb Hbody Hsent1 job date p);
        auto.
      intros k Hk. apply Hwin. lia.
    + apply (IH eq_refl out st' rr Hrun (eq_trans Hsent2 eq_refl) job date p); auto.
      * now rewrite Hsent1, length_app.
      * intros k Hk. apply Hwin. lia.
  - intros q l d m ls0 st0 e st1 Hbody _ _ out st' reqs [=].
Qed.

End Complete.

(** ** The cap only truncates *)

Section Prefix.
Variable lower : string -> string.
Variable isoparse : string -> option datetime.
Variable re_sub : string -> list ReFlag -> string -> string -> string.
Variable w : World.

(** The number of postings the loops stop at when they hold [n] postings
    and the cap is [m]: the cap, but at least one more than they hold. *)
Lemma remotive_for_prefix (location : option string) (days : option Z) (m : Z)
    (jobs : list RemotiveJob) :
  forall (results out2 : list JobPosting) (st st2 : State),
    remotive_for lower isoparse re_sub w location days None jobs results st = (Return out2, st2) ->
    exists out1 st1,
      remotive_for lower isoparse re_sub w location days (Some m) jobs results st = (Return out1, st1)
      /\ out1 = firstn (Z.to_nat (Z.max m (Z.of_nat (List.length results) + 1))) out2.
Proof.
  induction jobs as [|job jobs IH]; intros results out2 st st2 Hrun.
  - injection Hrun as <- <-. exists results, st. split; [reflexivity|].
    symmetry. apply firstn_all2. lia.
  - cbn [remotive_for] in *.
    destruct (parse_publication_date isoparse (rj_publication_date job)) as [pub_date|];
      [|now apply (IH _ _ _ _ Hrun)].
    unfold bind in *. rewrite within_days_recent_at in *.
    destruct (recent_at w days (clock_reads st) pub_date); cbn [negb] in *;
      [|now apply (IH _ _ _ _ Hrun)].
    destruct (remotive_location_pass lower location _); cbn [negb] in *;
      [|now apply (IH _ _ _ _ Hrun)].
    cbn [cap_reached] in *.
    set (results' := (results ++ [_])%list) in *.
    assert (Hlen : Z.of_nat (List.length results') = Z.of_nat (List.length results) + 1)
      by (subst results'; rewrite length_app; cbn; lia).
    destruct (m <=? _) eqn:Hreached.
    + apply Z.leb_le in Hreached. eexists _, _. split; [reflexivity|].
      destruct (remotive_for_origin lower isoparse re_sub w location days None jobs _ _ _ _ Hrun)
        as (added & -> & _).
      replace (Z.to_nat _) with (List.length results') by lia.
      symmetry. apply take_app_length.
    + apply Z.leb_gt in Hreached.
      destruct (IH _ _ _ _ Hrun) as (out1 & st1 & Hr & ->).
      exists (firstn (Z.to_nat (Z.max m (Z.of_nat (List.length results') + 1))) out2), st1.
      split; [exact Hr|]. f_equal. lia.
Qed.

Lemma muse_for_prefix (location : option string) (days : option Z) (m : Z)
    (jobs : list MuseJob) :
  forall (results out2 : list JobPosting) (fetched fetched2 : Z) (st st2 : State),
    fetched = Z.of_nat (List.length results) ->
    muse_for lower isoparse re_sub w location days None jobs results fetched st
    = (Return (Exhausted out2 fetched2), st2) ->
    (muse_for lower isoparse re_sub w location days (Some m) jobs results fetched st
     = (Return (Exhausted out2 fetched2), st2)
     /\ Z.max m (Z.of_nat (List.length out2) + 1) = Z.max m (Z.of_nat (List.length results) + 1))
    \/ (exists out1 st1,
          muse_for lower isoparse re_sub w location days (Some m) jobs results fetched st
          = (Return (Returned out1), st1)
          /\ out1 = firstn (Z.to_nat (Z.max m (Z.of_nat (List.length results) + 1))) out2
          /\ List.length out1 = Z.to_nat (Z.max m (Z.of_nat (List.length results) + 1))).
Proof.
  induction jobs as [|job jobs IH]; intros results out2 fetched fetched2 st st2 Hfetched Hrun.
  - injection Hrun as <- <- <-. left. split; reflexivity.
  - cbn [muse_for] in *.
    destruct (parse_publication_date isoparse (mj_publication_date job)) as [pub_date|];
      [|now apply (IH _ _ _ _ _ _ Hfetched Hrun)].
    unfold bind in *. rewrite within_days_recent_at in *.
    destruct (recent_at w days (clock_reads st) pub_date); cbn [negb] in *;
      [|now apply (IH _ _ _ _ _ _ Hfetched Hrun)].
    destruct (muse_location_pass lower location job); cbn [negb] in *;
      [|now apply (IH _ _ _ _ _ _ Hfetched Hrun)].
    cbn [cap_reached] in *.
    set (results' := (results ++ [_])%list) in *.
    assert (Hlen : Z.of_nat (List.length results') = Z.of_nat (List.length results) + 1)
      by (subst results'; rewrite length_app; cbn; lia).
    assert (Hfetched' : fetched + 1 = Z.of_nat (List.length results')) by lia.
    destruct (m <=? _) eqn:Hreached.
    + apply Z.leb_le in Hreached. right. eexists _, _. split; [reflexivity|].
      destruct (muse_for_origin lower isoparse re_sub w location days None jobs _ _ _ _ _ Hrun)
        as (added & -> & _).
      replace (Z.to_nat _) with (List.length results') by lia.
      split; [symmetry; apply take_app_length | reflexivity].
    + apply Z.leb_gt in Hreached.
      destruct (IH _ _ _ _ _ _ Hfetched' Hrun) as [[Hr Hmax] | (out1 & st1 & Hr & Hout & Hl)].
      * left. split; [exact Hr | lia].
      * right. exists out1, st1. split; [exact Hr|].
        replace (Z.max m (Z.of_nat (List.length results) + 1))
          with (Z.max m (Z.of_nat (List.length results') + 1)) by lia.
        now split.
Qed.

(** The capped loop of The Muse returns the first postings of what the loop
    without a cap returns. *)
Lemma muse_while_prefix (m : Z) (query : string) (location : option string)
    (days : option Z) (ls : MuseLoop) (st : State) :
  counted ls ->
  forall out2 st2,
    muse_while lower isoparse re_sub w query location days None ls st = (Return out2, st2) ->
    exists out1 st1,
      muse_while lower isoparse re_sub w query location days (Some m) ls st = (Return out1, st1)
      /\ out1 = firstn (Z.to_nat (Z.max m (Z.of_nat (List.length (ml_results ls)) + 1))) out2
      /\ exists more, sent st2 = (sent st1 ++ more)%list.
Proof.
  apply (muse_while_elim lower isoparse re_sub w
           (fun q l d mx ls st r =>
              mx = None -> counted ls ->
              forall out2 st2,
                r = (Return out2, st2) ->
                exists out1 st1,
                  muse_while lower isoparse re_sub w q l d (Some m) ls st = (Return out1, st1)
                  /\ out1 = firstn (Z.to_nat (Z.max m (Z.of_nat (List.length (ml_results ls)) + 1)))
                                   out2
                  /\ exists more, sent st2 = (sent st1 ++ more)%list)); [| | |reflexivity].
  - intros q l d mx ls0 st0 results st' Hbody _ -> Hcounted out2 st2 [= <- <-].
    rewrite muse_while_step. rewrite muse_body_eq in Hbody |- *.
    assert (Hsame : forall s : State,
      exists out1 st1,
        (Return (ml_results ls0), s) = (Return out1, st1)
        /\ out1 = firstn (Z.to_nat (Z.max m (Z.of_nat (List.length (ml_results ls0)) + 1)))
                         (ml_results ls0)
        /\ exists more, sent s = (sent st1 ++ more)%list).
    { intros s. exists (ml_results ls0), s. split; [reflexivity|]. split.
      - symmetry. apply firstn_all2. lia.
      - exists []. now rewrite app_nil_r. }
    destruct (past_last_page ls0); [injection Hbody as <- <-; apply Hsame|].
    cbv zeta in *.
    destruct (themuse_api w _ _) as [exc|code data]; [injection Hbody as <- <-; apply Hsame|].
    destruct (negb (code =? 200)); [injection Hbody as <- <-; apply Hsame|].
    destruct (default [] (mp_results data)) as [|job jobs];
      [injection Hbody as <- <-; apply Hsame|].
    destruct (muse_for lower isoparse re_sub w l d None _ _ _ _) as [[[out f|out]|e] s] eqn:Hfor;
      try discriminate.
    exfalso. exact (muse_for_no_cap_exhausts lower isoparse re_sub w _ _ _ _ _ _ _ _ Hfor).
  - intros q l d mx ls0 st0 ls' st' Hbody IH _ -> Hcounted out2 st2 Hrun.
    rewrite muse_while_step. rewrite muse_body_eq in Hbody |- *.
    destruct (past_last_page ls0); [discriminate|].
    cbv zeta in *.
    destruct (themuse_api w _ _) as [exc|code data]; [discriminate|].
    destruct (negb (code =? 200)); [discriminate|].
    destruct (default [] (mp_results data)) as [|job jobs]; [discriminate|].
    destruct (muse_for lower isoparse re_sub w l d None _ _ _ _) as [[[out f|out]|e] s] eqn:Hfor;
      try discriminate.
    injection Hbody as <- <-.
    destruct (muse_for_run lower isoparse re_sub w l d None (job :: jobs) _ _
                (add_sent (muse_request q l (ml_page ls0)) st0) Hcounted)
      as (exit & s' & Hfor' & _ & _ & _ & out' & added & Hexit & _).
    rewrite Hfor in Hfor'. injection Hfor' as <- <-.
    assert (Hf : f = Z.of_nat (List.length out)).
    { destruct Hexit as [[=] | [= -> ->]]. reflexivity. }
    destruct (IH eq_refl Hf out2 st2 Hrun) as (out1 & st1 & Hr & Hout1 & Hmore).
    cbn [ml_results] in Hout1.
    pose proof (muse_for_sends_nothing lower isoparse re_sub w l d None (job :: jobs)
                  (ml_results ls0) (ml_fetched ls0)
                  (add_sent (muse_request q l (ml_page ls0)) st0)) as Hsent.
    rewrite Hfor in Hsent. cbn [snd] in Hsent.
    destruct (muse_for_prefix l d m (job :: jobs) _ _ _ _ _ _ Hcounted Hfor)
      as [[Hcap Hmax] | (outc & stc & Hcap & Houtc & Hlen)].
    + rewrite Hcap. exists out1, st1. split; [exact Hr|]. split; [|exact Hmore].
      rewrite Hout1. f_equal. lia.
    + pose proof (muse_for_sends_nothing lower isoparse re_sub w l d (Some m) (job :: jobs)
                    (ml_results ls0) (ml_fetched ls0)
                    (add_sent (muse_request q l (ml_page ls0)) st0)) as Hsentc.
      rewrite Hcap in Hsentc |- *. cbn [snd] in Hsentc.
      exists outc, stc. split; [reflexivity|].
      destruct (muse_while_origin lower isoparse re_sub w q l d None
                  (mk_MuseLoop out (ml_page ls0 + 1) f
                     (Some match ml_total_pages ls0 with
                           | Some total_pages => total_pages
                           | None => page_count_of data
                           end)) s)
        as (o & s2 & reqs & added2 & Hr2 & Hs2 & Ho & _).
      rewrite Hrun in Hr2. injection Hr2 as <- <-. cbn [ml_results] in Ho. subst out2.
      split.
      * rewrite Houtc. symmetry. apply take_app_le.
        rewrite Houtc, length_take in Hlen. lia.
      * exists reqs. now rewrite Hs2, Hsent, Hsentc.
  - intros q l d mx ls0 st0 e st' Hbody _ _ _ out2 st2 [=].
Qed.

End Prefix.

(** ** Properties of the two searches *)

Lemma remotive_search_trace
    (lower : string -> string) (isoparse : string -> option datetime)
    (re_sub : string -> list ReFlag -> string -> string -> string) (w : World)
    (query : string) (location : option string) (days max_results : option Z) (st : State) :
  exists k logs,
    footprint k [remotive_request query] logs st
      (snd (search lower isoparse re_sub w RemotiveScraper query location days max_results st))
    /\ (k <= List.length
               (remotive_items (remotive_api w (List.length (sent st)) (remotive_request query))))%nat
    /\ (List.length logs <= 1)%nat
    /\ (days = None -> k = 0%nat).
Proof.
  cbn [search]. unfold remotive_search, bind. cbn [remotive_get].
  fold (remotive_request query).
  pose proof (footprint_add_sent (remotive_request query) st) as Hsent.
  destruct (remotive_api w _ _) as [exc|code data].
  - eexists 0%nat, [_]. cbn [snd remotive_items List.length].
    split; [|split; [lia|split; [lia|reflexivity]]].
    apply (footprint_trans 0 0 [_] [] [] [_] _ _ _ Hsent (footprint_add_error _ _)).
  - cbn [remotive_items]. destruct (code =? 200); cbn [negb].
    + destruct (remotive_for_footprint lower isoparse re_sub w location days max_results
                  (default [] (rp_jobs data)) [] (add_sent (remotive_request query) st))
        as (k & out & st' & Hrun & Hfoot & Hle & Hnone).
      rewrite Hrun. exists k, []. cbn [snd List.length].
      split; [|split; [exact Hle|split; [lia|exact Hnone]]].
      apply (footprint_trans 0 k [_] [] [] [] _ _ _ Hsent Hfoot).
    + eexists 0%nat, [_]. cbn [snd List.length].
      split; [|split; [lia|split; [lia|reflexivity]]].
      apply (footprint_trans 0 0 [_] [] [] [_] _ _ _ Hsent (footprint_add_error _ _)).
Qed.

(** Each of the two working scrapers returns a list, sends at least one
    request, and apart from its requests, its log records and its readings
    of the clock leaves the state as it was. *)
Lemma search_trace
    (lower : string -> string) (isoparse : string -> option datetime)
    (re_sub : string -> list ReFlag -> string -> string -> string) (w : World)
    (self : Scraper) (query : string) (location : option string)
    (days max_results : option Z) (st : State) :
  self = TheMuseScraper \/ self = RemotiveScraper ->
  exists out st' k reqs logs,
    search lower isoparse re_sub w self query location days max_results st = (Return out, st')
    /\ footprint k reqs logs st st' /\ reqs <> [] /\ (days = None -> k = 0%nat).
Proof.
  intros Hself.
  destruct (search_run lower isoparse re_sub w self query location days max_results st Hself)
    as (out & st' & Hrun & _).
  exists out, st'. destruct Hself as [-> | ->].
  - destruct (muse_while_pages lower isoparse re_sub w query location days max_results
                (mk_MuseLoop [] 1 0 None) st) as (k & n & logs & Hfoot & _ & Hnone & _ & Hn & _).
    cbn [search] in Hrun. unfold themuse_search in Hrun. rewrite Hrun in Hfoot.
    eexists k, _, logs. split; [exact Hrun|]. split; [exact Hfoot|]. split; [|exact Hnone].
    destruct n; [lia | discriminate].
  - destruct (remotive_search_trace lower isoparse re_sub w query location days max_results st)
      as (k & logs & Hfoot & _ & _ & Hnone).
    rewrite Hrun in Hfoot. eexists k, _, logs. split; [exact Hrun|]. split; [exact Hfoot|].
    split; [discriminate | exact Hnone].
Qed.

(** X2: a search of The Muse asks for the pages 1, 2, ..., n one after the
    other: at least page 1, and no page beyond the page count the first
    answer announces; every page but the last one asked for was answered
    with status 200 and at least one item.  The search logs at most one
    error, whose message the logging library prints on standard error as
    no handler is configured; it reads no clock without a number of days and
    leaves the registry, the files and standard output as they were. *)
Theorem themuse_search_pages
    (lower : string -> string) (isoparse : string -> option datetime)
    (re_sub : string -> list ReFlag -> string -> string -> string) (w : World)
    (query : string) (location : option string) (days max_results : option Z) (st : State) :
  exists k n logs,
    footprint k (map (muse_request query location) (pages_from 1 n)) logs st
      (snd (search lower isoparse re_sub w TheMuseScraper query location days max_results st))
    /\ (1 <= n)%nat
    /\ Z.of_nat n
       <= Z.max 1 (announced_pages
                     (themuse_api w (List.length (sent st)) (muse_request query location 1)))
    /\ pages_answered w query location (List.length (sent st)) 1 n
    /\ (List.length logs <= 1)%nat
    /\ match days with None => k = 0%nat | Some _ => True end
    /\ stderr (snd (search lower isoparse re_sub w TheMuseScraper query location days
                      max_results st))
       = (stderr st ++ map log_line logs)%list.
Proof.
  destruct (muse_while_pages lower isoparse re_sub w query location days max_results
              (mk_MuseLoop [] 1 0 None) st)
    as (k & n & logs & Hfoot & Hlogs & Hnone & Hans & Hn & Hbound).
  cbn [ml_page] in *. exists k, n, logs.
  split; [exact Hfoot|]. split; [exact Hn|]. split; [lia|]. split; [exact Hans|].
  split; [exact Hlogs|].
  split; [destruct days; [exact I | now apply Hnone]|].
  cbn [search]. unfold themuse_search. now rewrite Hfoot.
Qed.

(** X3: a search of Remotive sends exactly one request, whatever the
    location, the number of days and the cap are: its only parameter is
    [search], left out for an empty query.  It reads the clock at most once
    for each item of the answer, not at all without a number of days, and
    logs at most one error, whose message the logging library prints on
    standard error as no handler is configured; the registry, the files and
    standard output are left as they were. *)
Theorem remotive_search_one_request
    (lower : string -> string) (isoparse : string -> option datetime)
    (re_sub : string -> list ReFlag -> string -> string -> string) (w : World)
    (query : string) (location : option string) (days max_results : option Z) (st : State) :
  exists k logs,
    footprint k [remotive_request query] logs st
      (snd (search lower isoparse re_sub w RemotiveScraper query location days max_results st))
    /\ (k <= List.length
               (remotive_items (remotive_api w (List.length (sent st)) (remotive_request query))))%nat
    /\ (List.length logs <= 1)%nat
    /\ match days with None => k = 0%nat | Some _ => True end
    /\ dom (req_params (remotive_request query)) ⊆ ({[ "search" ]} : gset string)
    /\ req_params (remotive_request query) !! "search"
       = (if Str.truthy query then Some (PStr query) else None)
    /\ stderr (snd (search lower isoparse re_sub w RemotiveScraper query location days
                      max_results st))
       = (stderr st ++ map log_line logs)%list.
Proof.
  destruct (remotive_search_trace lower isoparse re_sub w query location days max_results st)
    as (k & logs & Hfoot & Hle & Hlogs & Hnone).
  exists k, logs. split; [exact Hfoot|]. split; [exact Hle|]. split; [exact Hlogs|].
  split; [destruct days; [exact I | now apply Hnone]|].
  assert (Hparams : dom (req_params (remotive_request query)) ⊆ ({[ "search" ]} : gset string)
                    /\ req_params (remotive_request query) !! "search"
                       = (if Str.truthy query then Some (PStr query) else None)).
  { unfold remotive_request. cbn [req_params].
    destruct (Str.truthy query); split.
    - now rewrite dom_singleton_L.
    - apply lookup_singleton_eq.
    - rewrite dom_empty_L. apply empty_subseteq.
    - apply lookup_empty. }
  destruct Hparams as [Hdom Hlookup].
  split; [exact Hdom|]. split; [exact Hlookup|]. now rewrite Hfoot.
Qed.

(** The parameters of the request for a page. *)
Lemma muse_params_lookup (query : string) (location : option string) (page : Z) :
  muse_params query location page !! "page" = Some (PInt page)
  /\ muse_params query location page !! "q"
     = (if Str.truthy query then Some (PStr query) else None)
  /\ muse_params query location page !! "location"
     = match location with
       | Some l => if Str.truthy l then Some (PStr l) else None
       | None => None
       end
  /\ dom (muse_params query location page) ⊆ ({[ "page"; "q"; "location" ]} : gset string).
Proof.
  unfold muse_params, location_given.
  split; [|split; [|split]].
  - destruct (Str.truthy query), location as [l|]; try destruct (Str.truthy l); cbv zeta;
      repeat (rewrite lookup_insert_ne by discriminate); apply lookup_singleton_eq.
  - destruct (Str.truthy query), location as [l|]; try destruct (Str.truthy l); cbv zeta;
      try rewrite (lookup_insert_ne _ "location" "q") by discriminate;
      first [apply lookup_insert_eq | apply lookup_singleton_ne; discriminate].
  - destruct (Str.truthy query), location as [l|]; try destruct (Str.truthy l); cbv zeta;
      first [apply lookup_insert_eq
            | repeat (rewrite lookup_insert_ne by discriminate);
              apply lookup_singleton_ne; discriminate].
  - destruct (Str.truthy query), location as [l|]; try destruct (Str.truthy l); cbv zeta;
      rewrite ?dom_insert_L, dom_singleton_L; intros k;
      rewrite !elem_of_union, !elem_of_singleton; tauto.
Qed.

(** X4: every request a search of The Muse sends goes to the endpoint of
    the board with a time-out of ten seconds, and carries a page number, [q]
    only for a query that is not empty, [location] only for a location that
    is given and not empty, and nothing else: the number of days and the cap
    are never sent. *)
Theorem themuse_request_parameters
    (lower : string -> string) (isoparse : string -> option datetime)
    (re_sub : string -> list ReFlag -> string -> string -> string) (w : World)
    (query : string) (location : option string) (days max_results : option Z) (st : State) :
  exists reqs,
    sent (snd (search lower isoparse re_sub w TheMuseScraper query location days max_results st))
    = (sent st ++ reqs)%list
    /\ Forall (fun r =>
                 req_url r = THEMUSE_API_ENDPOINT /\ req_timeout r = 10
                 /\ (exists page, req_params r !! "page" = Some (PInt page))
                 /\ req_params r !! "q" = (if Str.truthy query then Some (PStr query) else None)
                 /\ req_params r !! "location"
                    = match location with
                      | Some l => if Str.truthy l then Some (PStr l) else None
                      | None => None
                      end
                 /\ dom (req_params r) ⊆ ({[ "page"; "q"; "location" ]} : gset string)) reqs.
Proof.
  destruct (muse_while_pages lower isoparse re_sub w query location days max_results
              (mk_MuseLoop [] 1 0 None) st) as (k & n & logs & Hfoot & _).
  exists (map (muse_request query location) (pages_from (ml_page (mk_MuseLoop [] 1 0 None)) n)).
  split; [exact (footprint_sent _ _ _ _ _ Hfoot)|].
  apply Forall_forall. intros r Hr. apply in_map_iff in Hr as (page & <- & _).
  destruct (muse_params_lookup query location page) as (Hpage & Hq & Hloc & Hdom).
  cbn [muse_request req_url req_timeout req_params].
  split; [reflexivity|]. split; [reflexivity|]. split; [now exists page|]. now repeat split.
Qed.

Lemma remotive_search_origin
    (lower : string -> string) (isoparse : string -> option datetime)
    (re_sub : string -> list ReFlag -> string -> string -> string) (w : World)
    (query : string) (location : option string) (days max_results : option Z)
    (st st' : State) (out : list JobPosting) :
  search lower isoparse re_sub w RemotiveScraper query location days max_results st
  = (Return out, st') ->
  sublist out
    (omap (remotive_select lower isoparse re_sub location)
          (remotive_items (remotive_api w (List.length (sent st)) (remotive_request query))))
  /\ (days = None -> max_results = None ->
      out = omap (remotive_select lower isoparse re_sub location)
              (remotive_items (remotive_api w (List.length (sent st)) (remotive_request query)))).
Proof.
  cbn [search]. unfold remotive_search, bind. cbn [remotive_get].
  fold (remotive_request query).
  destruct (remotive_api w _ _) as [exc|code data]; cbn [remotive_items].
  - intros [= <- <-]. split; [constructor | reflexivity].
  - destruct (code =? 200); cbn [negb]; [|intros [= <- <-]; split; [constructor | reflexivity]].
    intros Hrun.
    destruct (remotive_for_origin lower isoparse re_sub w location days max_results _ _ _ _ _ Hrun)
      as (added & -> & Hsub & Hall).
    split; [exact Hsub | exact Hall].
Qed.

(** X5: when a search of Remotive returns a list, that list is, in the
    order of the answer, a selection of the postings of those items of the
    answer whose date parses and that pass the location filter; without a
    number of days and without a cap it is all of them.  A failed request
    leaves no items. *)
Theorem remotive_search_selects
    (lower : string -> string) (isoparse : string -> option datetime)
    (re_sub : string -> list ReFlag -> string -> string -> string) (w : World)
    (query : string) (location : option string) (days max_results : option Z)
    (st st' : State) (out : list JobPosting) :
  search lower isoparse re_sub w RemotiveScraper query location days max_results st
  = (Return out, st') ->
  let items := remotive_items (remotive_api w (List.length (sent st)) (remotive_request query)) in
  sublist out (omap (remotive_select lower isoparse re_sub location) items)
  /\ match days, max_results with
     | None, None => out = omap (remotive_select lower isoparse re_sub location) items
     | _, _ => True
     end.
Proof.
  intros Hrun. cbv zeta.
  destruct (remotive_search_origin lower isoparse re_sub w query location days max_results
              st st' out Hrun) as [Hsub Hall].
  split; [exact Hsub|]. destruct days, max_results; auto.
Qed.

Lemma remotive_search_selects_witness :
  search Str.ascii_lower Datetime.fromisoformat sample_re_sub sample_world RemotiveScraper
         "engineer" None None None initial_state
  = (Return sample_remotive_all_jobs, snd sample_remotive_all)
  /\ sublist sample_remotive_all_jobs
       (omap (remotive_select Str.ascii_lower Datetime.fromisoformat sample_re_sub None)
             (remotive_items (remotive_api sample_world (List.length (sent initial_state))
                                (remotive_request "engineer"))))
  /\ sample_remotive_all_jobs
     = omap (remotive_select Str.ascii_lower Datetime.fromisoformat sample_re_sub None)
            (remotive_items (remotive_api sample_world (List.length (sent initial_state))
                               (remotive_request "engineer")))
  /\ List.length sample_remotive_all_jobs = 3%nat.
Proof.
  split; [vm_compute; reflexivity|].
  destruct (remotive_search_selects Str.ascii_lower Datetime.fromisoformat sample_re_sub
              sample_world "engineer" None None None initial_state (snd sample_remotive_all)
              sample_remotive_all_jobs) as [Hsub Hall]; [vm_compute; reflexivity|].
  split; [exact Hsub|]. split; [exact Hall | reflexivity].
Defined.

(** X6: the same for The Muse, over the items of the answers with status
    200 to the requests the search sends, page after page. *)
Theorem themuse_search_selects
    (lower : string -> string) (isoparse : string -> option datetime)
    (re_sub : string -> list ReFlag -> string -> string -> string) (w : World)
    (query : string) (location : option string) (days max_results : option Z)
    (st st' : State) (out : list JobPosting) :
  search lower isoparse re_sub w TheMuseScraper query location days max_results st
  = (Return out, st') ->
  exists reqs,
    sent st' = (sent st ++ reqs)%list
    /\ sublist out
         (omap (muse_select lower isoparse re_sub location)
               (muse_received w (List.length (sent st)) reqs))
    /\ match days, max_results with
       | None, None =>
           out = omap (muse_select lower isoparse re_sub location)
                      (muse_received w (List.length (sent st)) reqs)
       | _, _ => True
       end.
Proof.
  intros Hsearch.
  destruct (muse_while_origin lower isoparse re_sub w query location days max_results
              (mk_MuseLoop [] 1 0 None) st)
    as (out0 & st0 & reqs & added & Hrun & Hsent & -> & Hsub & Hall).
  cbn [search] in Hsearch. unfold themuse_search in Hsearch.
  rewrite Hsearch in Hrun. injection Hrun as -> ->.
  exists reqs. cbn [app ml_results].
  split; [exact Hsent|]. split; [exact Hsub|].
  destruct days, max_results; auto.
Qed.

Lemma themuse_search_selects_witness :
  search Str.ascii_lower Datetime.fromisoformat sample_re_sub sample_world TheMuseScraper
         "engineer" None None None initial_state
  = (Return sample_muse_all_jobs, snd sample_muse_all)
  /\ List.length sample_muse_all_jobs = 2%nat
  /\ exists reqs,
       sent (snd sample_muse_all) = (sent initial_state ++ reqs)%list
       /\ sublist sample_muse_all_jobs
            (omap (muse_select Str.ascii_lower Datetime.fromisoformat sample_re_sub None)
                  (muse_received sample_world (List.length (sent initial_state)) reqs))
       /\ sample_muse_all_jobs
          = omap (muse_select Str.ascii_lower Datetime.fromisoformat sample_re_sub None)
                 (muse_received sample_world (List.length (sent initial_state)) reqs).
Proof.
  split; [vm_compute; reflexivity|]. split; [reflexivity|].
  apply (themuse_search_selects Str.ascii_lower Datetime.fromisoformat sample_re_sub
           sample_world "engineer" None None None initial_state (snd sample_muse_all)).
  vm_compute. reflexivity.
Defined.

(** X7: with a location that is given and not empty, every posting a
    search of Remotive returns carries a location that contains it once
    [str.lower] has been applied to both, whatever [str.lower] does, and
    that location is the [candidate_required_location] of an item of the
    answer with the white space of Unicode stripped from its ends.  Unlike
    The Muse, Remotive lets no remote or flexible posting through on other
    grounds. *)
Theorem remotive_location_filter
    (lower : string -> string) (isoparse : string -> option datetime)
    (re_sub : string -> list ReFlag -> string -> string -> string) (w : World)
    (query : string) (loc : option string) (l : string)
    (days max_results : option Z) (st st' : State) (out : list JobPosting) :
  location_given loc = Some l ->
  search lower isoparse re_sub w RemotiveScraper query loc days max_results st
  = (Return out, st') ->
  Forall (fun p =>
            SubstringNoCase lower l (location p)
            /\ exists job,
                 In job (remotive_items
                           (remotive_api w (List.length (sent st)) (remotive_request query)))
                 /\ location p
                    = Str.strip (default "" (rj_candidate_required_location job))) out.
Proof.
  intros Hloc Hsearch.
  pose proof (proj1 (remotive_search_origin lower isoparse re_sub w query loc days max_results
                       st st' out Hsearch)) as Hsub.
  apply Forall_forall. intros p Hp.
  apply list_elem_of_In in Hp. apply (elem_of_sublist _ _ _ Hp) in Hsub.
  apply list_elem_of_omap in Hsub. destruct Hsub as (job & Hjob & Hsel).
  unfold remotive_select in Hsel.
  destruct (parse_publication_date _ _) as [d|]; [|discriminate].
  unfold remotive_location_pass in Hsel. rewrite Hloc in Hsel.
  destruct (Str.contains _ _) eqn:Hc; [|discriminate].
  injection Hsel as <-. cbn [location remotive_posting]. split.
  - now apply contains_spec.
  - exists job. split; [now apply list_elem_of_In | reflexivity].
Qed.

Lemma remotive_location_filter_witness :
  location_given (Some "world") = Some "world"
  /\ search Str.ascii_lower Datetime.fromisoformat sample_re_sub sample_world RemotiveScraper "engineer"
            (Some "world") None None initial_state
     = (Return sample_located_jobs, snd sample_located)
  /\ Forall (fun p =>
               SubstringNoCase Str.ascii_lower "world" (location p)
               /\ exists job,
                    In job (remotive_items
                              (remotive_api sample_world (List.length (sent initial_state))
                                 (remotive_request "engineer")))
                    /\ location p = Str.strip (default "" (rj_candidate_required_location job)))
            sample_located_jobs.
Proof.
  split; [reflexivity|]. split; [vm_compute; reflexivity|].
  apply (remotive_location_filter Str.ascii_lower Datetime.fromisoformat sample_re_sub sample_world "engineer"
           (Some "world") "world" None None initial_state (snd sample_located));
    [reflexivity | vm_compute; reflexivity].
Defined.

(** X8: nothing that qualifies is left out of a search of Remotive without
    a cap: the posting of every item of the answer that parses and passes the
    location filter is returned, provided its date passes the recency check
    at every reading of the clock taken during the call. *)
Theorem remotive_search_complete
    (lower : string -> string) (isoparse : string -> option datetime)
    (re_sub : string -> list ReFlag -> string -> string -> string) (w : World)
    (query : string) (loc : option string) (days : option Z)
    (st st' : State) (out : list JobPosting) (job : RemotiveJob) (p : JobPosting) :
  search lower isoparse re_sub w RemotiveScraper query loc days None st = (Return out, st') ->
  In job (remotive_items (remotive_api w (List.length (sent st)) (remotive_request query))) ->
  remotive_select lower isoparse re_sub loc job = Some p ->
  (forall k, (clock_reads st <= k < clock_reads st')%nat ->
     recent_at w days k (publication_date p) = true) ->
  In p out.
Proof.
  cbn [search]. unfold remotive_search, bind. cbn [remotive_get].
  fold (remotive_request query). intros Hrun HIn Hsel Hwin.
  destruct (remotive_api w _ _) as [exc|code data]; cbn [remotive_items] in HIn;
    [contradiction|].
  destruct (code =? 200); cbn [negb] in Hrun; [|contradiction].
  assert (Hdate : parse_publication_date isoparse (rj_publication_date job)
                  = Some (publication_date p)).
  { unfold remotive_select in Hsel.
    destruct (parse_publication_date _ _) as [d|]; [|discriminate].
    destruct (remotive_location_pass lower _ _); [|discriminate]. now injection Hsel as <-. }
  apply (remotive_for_complete lower isoparse re_sub w loc days _ _ _ _ _ Hrun job
           (publication_date p) p HIn Hdate Hsel).
  exact Hwin.
Qed.

Lemma remotive_search_complete_witness :
  search Str.ascii_lower Datetime.fromisoformat sample_re_sub sample_world RemotiveScraper "engineer" None
         (Some 7) None initial_state
  = (Return sample_recent_jobs, snd sample_recent)
  /\ In sample_remotive_job
        (remotive_items (remotive_api sample_world (List.length (sent initial_state))
                           (remotive_request "engineer")))
  /\ remotive_select Str.ascii_lower Datetime.fromisoformat sample_re_sub None sample_remotive_job
     = Some sample_remotive_posting
  /\ In sample_remotive_posting sample_recent_jobs.
Proof.
  split; [vm_compute; reflexivity|]. split; [right; left; reflexivity|].
  split; [vm_compute; reflexivity|].
  apply (remotive_search_complete Str.ascii_lower Datetime.fromisoformat sample_re_sub sample_world "engineer"
           None (Some 7) initial_state (snd sample_recent) sample_recent_jobs
           sample_remotive_job sample_remotive_posting).
  - vm_compute. reflexivity.
  - right. left. reflexivity.
  - vm_compute. reflexivity.
  - intros k Hk. change (clock_reads (snd sample_recent)) with 3%nat in Hk.
    destruct k as [|[|[|k]]]; [reflexivity | reflexivity | reflexivity | cbn in Hk; lia].
Defined.

(** X9: the same for The Muse, over the items of the answers with status
    200 to the requests the search sent. *)
Theorem themuse_search_complete
    (lower : string -> string) (isoparse : string -> option datetime)
    (re_sub : string -> list ReFlag -> string -> string -> string) (w : World)
    (query : string) (loc : option string) (days : option Z)
    (st st' : State) (out : list JobPosting) (reqs : list Request)
    (job : MuseJob) (p : JobPosting) :
  search lower isoparse re_sub w TheMuseScraper query loc days None st = (Return out, st') ->
  sent st' = (sent st ++ reqs)%list ->
  In job (muse_received w (List.length (sent st)) reqs) ->
  muse_select lower isoparse re_sub loc job = Some p ->
  (forall k, (clock_reads st <= k < clock_reads st')%nat ->
     recent_at w days k (publication_date p) = true) ->
  In p out.
Proof.
  cbn [search]. unfold themuse_search. intros Hrun Hsent HIn Hsel Hwin.
  assert (Hdate : parse_publication_date isoparse (mj_publication_date job)
                  = Some (publication_date p)).
  { unfold muse_select in Hsel.
    destruct (parse_publication_date _ _) as [d|]; [|discriminate].
    destruct (muse_location_pass lower _ _); [|discriminate]. now injection Hsel as <-. }
  exact (muse_while_complete lower isoparse re_sub w query loc days _ st out st' reqs Hrun Hsent
           job (publication_date p) p HIn Hdate Hsel Hwin).
Qed.

Lemma themuse_search_complete_witness :
  search Str.ascii_lower Datetime.fromisoformat sample_re_sub sample_world TheMuseScraper "engineer" None
         None None initial_state
  = sample_muse_all
  /\ In sample_muse_posting
        match fst sample_muse_all with Return jobs => jobs | Raise _ => [] end.
Proof.
  split; [reflexivity|].
  apply (themuse_search_complete Str.ascii_lower Datetime.fromisoformat sample_re_sub sample_world "engineer"
           None None initial_state (snd sample_muse_all) _
           [muse_request "engineer" None 1; muse_request "engineer" None 2]
           sample_muse_job sample_muse_posting).
  - vm_compute. reflexivity.
  - vm_compute. reflexivity.
  - left. reflexivity.
  - vm_compute. reflexivity.
  - intros k _. reflexivity.
Defined.

(** The search with a cap returns the first postings of the search without
    one, and has sent no request the other did not send. *)
Lemma search_prefix
    (lower : string -> string) (isoparse : string -> option datetime)
    (re_sub : string -> list ReFlag -> string -> string -> string) (w : World)
    (self : Scraper) (query : string) (loc : option string) (days : option Z) (m : Z)
    (st st_all : State) (all : list JobPosting) :
  search lower isoparse re_sub w self query loc days None st = (Return all, st_all) ->
  exists capped st_capped,
    search lower isoparse re_sub w self query loc days (Some m) st = (Return capped, st_capped)
    /\ capped = firstn (cap_length m) all
    /\ exists more, sent st_all = (sent st_capped ++ more)%list.
Proof.
  intros Hall.
  assert (Hcap : cap_length m = Z.to_nat (Z.max m (Z.of_nat (@List.length JobPosting []) + 1)))
    by (unfold cap_length; cbn; f_equal; lia).
  rewrite Hcap.
  destruct self; try discriminate; cbn [search] in *.
  - unfold themuse_search in *.
    exact (muse_while_prefix lower isoparse re_sub w m query loc days (mk_MuseLoop [] 1 0 None) st
             eq_refl all st_all Hall).
  - unfold remotive_search, bind in *. cbn [remotive_get] in *.
    destruct (remotive_api w _ _) as [exc|code data].
    + injection Hall as <- <-. eexists [], _. split; [reflexivity|]. split.
      * now rewrite firstn_nil.
      * exists []. now rewrite app_nil_r.
    + destruct (negb (code =? 200)).
      * injection Hall as <- <-. eexists [], _. split; [reflexivity|]. split.
        -- now rewrite firstn_nil.
        -- exists []. now rewrite app_nil_r.
      * destruct (remotive_for_prefix lower isoparse re_sub w loc days m _ _ _ _ _ Hall)
          as (capped & st_capped & Hrun & Hout).
        exists capped, st_capped. split; [exact Hrun|]. split; [exact Hout|].
        exists [].
        destruct (remotive_for_run lower isoparse re_sub w loc days None (default [] (rp_jobs data)) []
                    (add_sent (remotive_request query) st))
          as (o1 & s1 & Hr1 & _ & Hs1 & _).
        destruct (remotive_for_run lower isoparse re_sub w loc days (Some m)
                    (default [] (rp_jobs data)) [] (add_sent (remotive_request query) st))
          as (o2 & s2 & Hr2 & _ & Hs2 & _).
        unfold remotive_request in Hr1, Hr2.
        rewrite Hall in Hr1. rewrite Hrun in Hr2.
        injection Hr1 as <- <-. injection Hr2 as <- <-.
        now rewrite Hs1, Hs2, app_nil_r.
Qed.

(** X10: the cap only truncates.  For both working scrapers the search
    with the cap [m] returns the first postings of what the search without a
    cap returns from the same state: as many as the cap allows, but one when
    the cap is below one.  The capped search sends no request the other does
    not send. *)
Theorem search_cap_truncates
    (lower : string -> string) (isoparse : string -> option datetime)
    (re_sub : string -> list ReFlag -> string -> string -> string) (w : World)
    (self : Scraper) (query : string) (loc : option string) (days : option Z) (m : Z)
    (st : State) :
  self = TheMuseScraper \/ self = RemotiveScraper ->
  exists all st_all capped st_capped more,
    search lower isoparse re_sub w self query loc days None st = (Return all, st_all)
    /\ search lower isoparse re_sub w self query loc days (Some m) st = (Return capped, st_capped)
    /\ capped = firstn (cap_length m) all
    /\ sent st_all = (sent st_capped ++ more)%list.
Proof.
  intros Hself.
  destruct (search_run lower isoparse re_sub w self query loc days None st Hself)
    as (all & st_all & Hall & _).
  destruct (search_prefix lower isoparse re_sub w self query loc days m st st_all all Hall)
    as (capped & st_capped & Hcapped & Hout & more & Hmore).
  exists all, st_all, capped, st_capped, more. now repeat split.
Qed.

Lemma search_cap_truncates_witness :
  exists all st_all capped st_capped more,
    sample_search RemotiveScraper None None = (Return all, st_all)
    /\ sample_search RemotiveScraper None (Some 2) = (Return capped, st_capped)
    /\ capped = firstn (cap_length 2) all
    /\ sent st_all = (sent st_capped ++ more)%list.
Proof.
  apply (search_cap_truncates Str.ascii_lower Datetime.fromisoformat sample_re_sub sample_world RemotiveScraper
           "engineer" None None 2 initial_state).
  right. reflexivity.
Defined.

(** ** The command line from end to end *)

Section CommandLine.
Variable lower : string -> string.
Variable isoparse : string -> option datetime.
Variable re_sub : string -> list ReFlag -> string -> string -> string.
Variable tabulate : list (list string) -> list string -> string.
Variable w : World.

(** With one of the two working sites, [main] searches and hands the sorted
    results to the output sink. *)
Lemma main_working_site (args : Namespace) (self : Scraper) (st : State) :
  lowers_ascii lower ->
  registry st = SCRAPERS ->
  self = TheMuseScraper \/ self = RemotiveScraper ->
  lower (ns_site args) = site_name self ->
  exists jobs st1 k reqs logs,
    search lower isoparse re_sub w self (ns_query args) (ns_location args)
           (normalize_days (ns_days args)) (Some (ns_max_results args)) st
    = (Return jobs, st1)
    /\ footprint k reqs logs st st1 /\ reqs <> []
    /\ main lower isoparse re_sub tabulate w args st
       = emit lower tabulate w (ns_output args) (sort_jobs jobs) st1.
Proof.
  intros Hlow Hreg Hself Hsite.
  destruct (search_trace lower isoparse re_sub w self (ns_query args) (ns_location args)
              (normalize_days (ns_days args)) (Some (ns_max_results args)) st Hself)
    as (jobs & st1 & k & reqs & logs & Hrun & Hfoot & Hreqs & _).
  exists jobs, st1, k, reqs, logs. split; [exact Hrun|]. split; [exact Hfoot|].
  split; [exact Hreqs|].
  apply (main_sorts lower isoparse re_sub tabulate w args st st st1 self jobs); [|exact Hrun].
  unfold get_scraper. rewrite Hreg, Hsite.
  destruct Hself as [-> | ->]; cbn [site_name];
    [rewrite (Hlow "themuse" eq_refl) | rewrite (Hlow "remotive" eq_refl)]; reflexivity.
Qed.


End CommandLine.

(** X11: for the sites [indeed] and [linkedin], [main] prints the
    explanation of the scraper on standard error and exits with status 1:
    nothing is printed on standard output, no request is sent, no file is
    written.  Of [str.lower] only what it does to ASCII text is used. *)
Theorem main_placeholder_exits
    (lower : string -> string) (isoparse : string -> option datetime)
    (re_sub : string -> list ReFlag -> string -> string -> string)
    (tabulate : list (list string) -> list string -> string) (w : World)
    (args : Namespace) (st : State) :
  lowers_ascii lower ->
  registry st = SCRAPERS ->
  lower (ns_site args) = "indeed" \/ lower (ns_site args) = "linkedin" ->
  exists msg,
    main lower isoparse re_sub tabulate w args st = (Raise (SystemExit 1), add_stderr msg st)
    /\ Substring "scraping is not implemented" msg.
Proof.
  intros Hlow Hreg Hsite. unfold main, bind, get_scraper, except_NotImplementedError.
  rewrite Hreg.
  destruct Hsite as [-> | ->];
    [rewrite (Hlow "indeed" eq_refl) | rewrite (Hlow "linkedin" eq_refl)];
    cbn; eexists; (split; [reflexivity|]).
  - now exists "Indeed ",
      ". Indeed restricts scraping; consider using their official API or third‑party services.".
  - now exists "LinkedIn ",
      ". LinkedIn terms of service prohibit automated scraping; please use their official API or other tools.".
Qed.

Lemma main_placeholder_exits_witness :
  lowers_ascii Str.ascii_lower
  /\ registry initial_state = SCRAPERS
  /\ Str.ascii_lower (ns_site sample_args_indeed) = "indeed"
  /\ exists msg,
       main Str.ascii_lower Datetime.fromisoformat sample_re_sub sample_tabulate sample_world
            sample_args_indeed initial_state
       = (Raise (SystemExit 1), add_stderr msg initial_state)
       /\ Substring "scraping is not implemented" msg.
Proof.
  split; [exact lowers_ascii_ascii_lower|]. split; [reflexivity|]. split; [reflexivity|].
  apply (main_placeholder_exits Str.ascii_lower Datetime.fromisoformat sample_re_sub
           sample_tabulate sample_world sample_args_indeed initial_state);
    [exact lowers_ascii_ascii_lower | reflexivity | left; reflexivity].
Defined.






(** X14: the extension of the output path is looked at only after the
    search.  With a working site and a path that is neither [.json] nor
    [.csv], [main] raises [ValueError] when the requests have been sent and
    answered; the results are dropped: no file is written and nothing is
    printed on standard output.  Standard error receives the messages of the
    errors the search logged and nothing else. *)
Theorem main_checks_extension_late
    (lower : string -> string) (isoparse : string -> option datetime)
    (re_sub : string -> list ReFlag -> string -> string -> string)
    (tabulate : list (list string) -> list string -> string) (w : World)
    (args : Namespace) (self : Scraper) (path : string) (st : State) :
  lowers_ascii lower ->
  registry st = SCRAPERS ->
  self = TheMuseScraper \/ self = RemotiveScraper ->
  lower (ns_site args) = site_name self ->
  ns_output args = Some path -> path <> "" ->
  output_ext lower path <> ".json" -> output_ext lower path <> ".csv" ->
  exists jobs st1 logs,
    search lower isoparse re_sub w self (ns_query args) (ns_location args)
           (normalize_days (ns_days args)) (Some (ns_max_results args)) st
    = (Return jobs, st1)
    /\ main lower isoparse re_sub tabulate w args st
       = (Raise (ValueError (unsupported_message (output_ext lower path))), st1)
    /\ (List.length (sent st) < List.length (sent st1))%nat
    /\ fs st1 = fs st /\ stdout st1 = stdout st
    /\ logged st1 = (logged st ++ logs)%list
    /\ stderr st1 = (stderr st ++ map log_line logs)%list.
Proof.
  intros Hlow Hreg Hself Hsite Hout Hpath Hjson Hcsv.
  destruct (main_working_site lower isoparse re_sub tabulate w args self st Hlow Hreg Hself Hsite)
    as (jobs & st1 & k & reqs & logs & Hrun & Hfoot & Hreqs & Hmain).
  exists jobs, st1, logs. split; [exact Hrun|]. split; [|split].
  - rewrite Hmain, Hout. cbn [emit].
    destruct path as [|c path]; [contradiction|].
    now apply write_output_unsupported.
  - rewrite Hfoot. cbn [sent]. rewrite length_app.
    destruct reqs; [contradiction | cbn; lia].
  - rewrite Hfoot. repeat split.
Qed.

Lemma main_checks_extension_late_witness :
  lowers_ascii Str.ascii_lower
  /\ registry initial_state = SCRAPERS
  /\ Str.ascii_lower (ns_site sample_args_txt) = site_name RemotiveScraper
  /\ ns_output sample_args_txt = Some "jobs.txt"
  /\ output_ext Str.ascii_lower "jobs.txt" <> ".json"
  /\ output_ext Str.ascii_lower "jobs.txt" <> ".csv"
  /\ exists jobs st1 logs,
       search Str.ascii_lower Datetime.fromisoformat sample_re_sub sample_world RemotiveScraper
              (ns_query sample_args_txt) (ns_location sample_args_txt)
              (normalize_days (ns_days sample_args_txt))
              (Some (ns_max_results sample_args_txt)) initial_state
       = (Return jobs, st1)
       /\ main Str.ascii_lower Datetime.fromisoformat sample_re_sub sample_tabulate sample_world
               sample_args_txt initial_state
          = (Raise (ValueError (unsupported_message (output_ext Str.ascii_lower "jobs.txt"))),
             st1)
       /\ (List.length (sent initial_state) < List.length (sent st1))%nat
       /\ fs st1 = fs initial_state /\ stdout st1 = stdout initial_state
       /\ logged st1 = (logged initial_state ++ logs)%list
       /\ stderr st1 = (stderr initial_state ++ map log_line logs)%list.
Proof.
  split; [exact lowers_ascii_ascii_lower|].
  split; [reflexivity|]. split; [reflexivity|]. split; [reflexivity|].
  split; [discriminate|]. split; [discriminate|].
  apply (main_checks_extension_late Str.ascii_lower Datetime.fromisoformat sample_re_sub
           sample_tabulate sample_world sample_args_txt RemotiveScraper "jobs.txt"
           initial_state);
    [exact lowers_ascii_ascii_lower | reflexivity | right; reflexivity | reflexivity
    | reflexivity | discriminate | discriminate | discriminate].
Defined.

(** ** The console table *)






(** ** The sort keeps the order of equal dates *)

Section Stable.
Context {A K : Type} (key : A -> K) (le : K -> K -> bool).
Hypothesis le_trans : forall a b c, le a b = true -> le b c = true -> le a c = true.

Lemma insert_desc_filter (k : K) (x : A) (l : list A) :
  List.filter (same_key key le k) (Sort.insert_desc key le x l)
  = if same_key key le k x then x :: List.filter (same_key key le k) l
    else List.filter (same_key key le k) l.
Proof.
  induction l as [|y l IH]; cbn [Sort.insert_desc List.filter]; [reflexivity|].
  destruct (le (key y) (key x)) eqn:Hyx; cbn [List.filter]; [reflexivity|].
  rewrite IH.
  destruct (same_key key le k x) eqn:Hx, (same_key key le k y) eqn:Hy; try reflexivity.
  exfalso. unfold same_key in Hx, Hy. apply andb_prop in Hx as [Hkx _], Hy as [_ Hyk].
  rewrite (le_trans _ _ _ Hyk Hkx) in Hyx. discriminate.
Qed.

Lemma sort_desc_filter (k : K) (l : list A) :
  List.filter (same_key key le k) (Sort.sort_desc key le l) = List.filter (same_key key le k) l.
Proof.
  induction l as [|x l IH]; cbn [Sort.sort_desc List.filter]; [reflexivity|].
  rewrite insert_desc_filter, IH. now destruct (same_key key le k x).
Qed.
End Stable.

Lemma cmp_eq (a b : list Z) : Datetime.cmp a b = Eq -> a = b.
Proof.
  revert b. induction a as [|x a IH]; intros [|y b]; cbn; try discriminate; [reflexivity|].
  destruct (x ?= y) eqn:Hxy; try discriminate.
  intros H. apply Z.compare_eq in Hxy. subst y. f_equal. now apply IH.
Qed.

(** X17: the sort of [main] is stable.  Among postings with the same
    publication date, the order in which the search returned them is kept;
    and the key takes two dates for the same only when they are equal in
    every field. *)
Theorem sort_jobs_stable (jobs : list JobPosting) (d : datetime) :
  List.filter (same_date d) (sort_jobs jobs) = List.filter (same_date d) jobs
  /\ Forall (fun p => same_date d p = true <-> publication_date p = d) jobs.
Proof.
  split.
  - apply (sort_desc_filter publication_date Datetime.leb datetime_leb_trans d jobs).
  - apply Forall_forall. intros p _. unfold same_date, same_key, Datetime.leb, Datetime.compare. split.
    + intros H. apply andb_prop in H as [H1 H2].
      rewrite (cmp_opp (Datetime.fields d) (Datetime.fields (publication_date p)) eq_refl) in H2.
      destruct (Datetime.cmp (Datetime.fields d) (Datetime.fields (publication_date p))) eqn:E;
        try discriminate.
      apply cmp_eq in E. destruct d, (publication_date p). cbn in E. now injection E as <- <- <- <- <- <- <-.
    + intros ->.
      assert (E : forall l, Datetime.cmp l l = Eq).
      { induction l as [|x l IH]; cbn; [reflexivity | now rewrite Z.compare_refl]. }
      now rewrite E.
Qed.

(** ** Items without a usable date *)

(** X18: an item whose publication date is missing or does not parse is
    passed over without any effect: neither loop raises, reads the clock or
    logs for it, and each returns the result and the state it returns for the
    list without such items. *)
Theorem unparseable_items_skipped
    (lower : string -> string) (isoparse : string -> option datetime)
    (re_sub : string -> list ReFlag -> string -> string -> string) (w : World)
    (loc : option string) (days max_results : option Z) :
  (forall jobs results st,
     remotive_for lower isoparse re_sub w loc days max_results
                  (List.filter (remotive_parseable isoparse) jobs) results st
     = remotive_for lower isoparse re_sub w loc days max_results jobs results st)
  /\ (forall jobs results fetched st,
        muse_for lower isoparse re_sub w loc days max_results
                 (List.filter (muse_parseable isoparse) jobs) results fetched st
        = muse_for lower isoparse re_sub w loc days max_results jobs results fetched st).
Proof.
  split.
  - induction jobs as [|job jobs IH]; intros results st; [reflexivity|].
    cbn [List.filter remotive_for]. unfold remotive_parseable at 1.
    destruct (parse_publication_date isoparse (rj_publication_date job)) as [d|] eqn:Hd;
      [|apply IH].
    cbn [remotive_for]. rewrite Hd. unfold bind.
    destruct (_within_days w d days st) as [[recent|e] st1]; [|reflexivity].
    destruct (negb recent); [apply IH|].
    destruct (negb (remotive_location_pass lower loc _)); [apply IH|].
    destruct (cap_reached max_results _); [reflexivity | apply IH].
  - induction jobs as [|job jobs IH]; intros results fetched st; [reflexivity|].
    cbn [List.filter muse_for]. unfold muse_parseable at 1.
    destruct (parse_publication_date isoparse (mj_publication_date job)) as [d|] eqn:Hd;
      [|apply IH].
    cbn [muse_for]. rewrite Hd. unfold bind.
    destruct (_within_days w d days st) as [[recent|e] st1]; [|reflexivity].
    destruct (negb recent); [apply IH|].
    destruct (negb (muse_location_pass lower loc job)); [apply IH|].
    destruct (cap_reached max_results _); [reflexivity | apply IH].
Qed.

(** ** The texts of a posting are trimmed *)

Lemma lstrip_no_leading (s : string) : starts_with_space (Str.lstrip s) = false.
Proof.
  assert (H : forall n s, (String.length s <= n)%nat ->
                          starts_with_space (Str.lstrip s) = false).
  { induction n as [|n IH]; intros [|a s1] Hlen; try reflexivity; [cbn in Hlen; lia|].
    cbn [String.length] in Hlen. cbn [Str.lstrip].
    destruct (Str.is_space a) eqn:Ha; [apply IH; lia|].
    destruct s1 as [|b s2]; [exact Ha|].
    cbn [String.length] in Hlen.
    destruct (Str.is_space2 a b); [apply IH; lia|].
    destruct s2 as [|c s3]; [exact Ha|].
    cbn [String.length] in Hlen.
    destruct (Str.is_space3 a b c); [apply IH; lia | exact Ha]. }
  apply (H (String.length s)). lia.
Qed.

Lemma lstrip_space (c : ascii) (s : string) :
  Str.is_space c = true -> Str.lstrip (String c s) = Str.lstrip s.
Proof. intros Hc. cbn [Str.lstrip]. now rewrite Hc. Qed.

Lemma rstrip_empty (s : string) : Str.rstrip s = "" -> Str.lstrip s = "".
Proof.
  destruct s as [|c s]; [reflexivity|]. cbn [Str.rstrip].
  destruct (Str.lstrip (String c s)); [reflexivity | discriminate].
Qed.

Lemma rstrip_no_trailing (s : string) : ends_with_space (Str.rstrip s) = false.
Proof.
  induction s as [|c s IH]; [reflexivity|]. cbn [Str.rstrip].
  destruct (Str.lstrip (String c s)) as [|d r] eqn:Hl; [reflexivity|].
  cbn [ends_with_space]. destruct (Str.rstrip s) as [|e r'] eqn:Hr; [|exact IH].
  destruct (Str.is_space c) eqn:Hc; [|reflexivity].
  rewrite (lstrip_space c s Hc), (rstrip_empty s Hr) in Hl. discriminate.
Qed.

Lemma rstrip_keeps_start (s : string) :
  starts_with_space s = false -> starts_with_space (Str.rstrip s) = false.
Proof.
  destruct s as [|c s]; [reflexivity|]. intros Hc. cbn [Str.rstrip].
  destruct (Str.lstrip (String c s)); [reflexivity | exact Hc].
Qed.

Lemma strip_trimmed (s : string) : trimmed (Str.strip s).
Proof.
  unfold trimmed, Str.strip. split.
  - apply rstrip_keeps_start, lstrip_no_leading.
  - apply rstrip_no_trailing.
Qed.

(** X19: the title, the company and the description of every posting a
    search returns neither begin nor end with white space, whatever the
    board sent and whatever [re.sub] does; for Remotive the same holds for
    the location and the url. *)
Theorem postings_are_trimmed
    (lower : string -> string) (isoparse : string -> option datetime)
    (re_sub : string -> list ReFlag -> string -> string -> string) (w : World)
    (self : Scraper) (query : string) (loc : option string) (days max_results : option Z)
    (st st' : State) (out : list JobPosting) :
  search lower isoparse re_sub w self query loc days max_results st = (Return out, st') ->
  Forall (fun p =>
            trimmed (title p) /\ trimmed (company p) /\ trimmed (description p)
            /\ match self with
               | RemotiveScraper => trimmed (location p) /\ trimmed (url p)
               | _ => True
               end) out.
Proof.
  intros Hrun. apply Forall_forall. intros p Hp. apply list_elem_of_In in Hp.
  destruct self; try discriminate.
  - destruct (muse_while_origin lower isoparse re_sub w query loc days max_results
                (mk_MuseLoop [] 1 0 None) st)
      as (out0 & st0 & reqs & added & Hrun0 & _ & Hout & Hsub & _).
    cbn [search] in Hrun. unfold themuse_search in Hrun. rewrite Hrun in Hrun0.
    injection Hrun0 as <- <-. cbn in Hout. subst added.
    apply (elem_of_sublist _ _ _ Hp) in Hsub. apply list_elem_of_omap in Hsub.
    destruct Hsub as (job & _ & Hsel). unfold muse_select in Hsel.
    destruct (parse_publication_date _ _) as [d|]; [|discriminate].
    destruct (muse_location_pass lower _ _); [|discriminate].
    injection Hsel as <-. cbn [muse_posting title company description].
    unfold _strip_html. repeat split; apply strip_trimmed.
  - pose proof (proj1 (remotive_search_origin lower isoparse re_sub w query loc days
                         max_results st st' out Hrun)) as Hsub.
    apply (elem_of_sublist _ _ _ Hp) in Hsub. apply list_elem_of_omap in Hsub.
    destruct Hsub as (job & _ & Hsel). unfold remotive_select in Hsel.
    destruct (parse_publication_date _ _) as [d|]; [|discriminate].
    destruct (remotive_location_pass lower _ _); [|discriminate].
    injection Hsel as <-. cbn [remotive_posting title company description location url].
    unfold _strip_html, remotive_job_location. repeat split; apply strip_trimmed.
Qed.

Lemma postings_are_trimmed_witness :
  search Str.ascii_lower Datetime.fromisoformat sample_re_sub sample_world RemotiveScraper "engineer"
         (Some "world") None None initial_state
  = (Return sample_located_jobs, snd sample_located)
  /\ Forall (fun p =>
               trimmed (title p) /\ trimmed (company p) /\ trimmed (description p)
               /\ (trimmed (location p) /\ trimmed (url p))) sample_located_jobs.
Proof.
  split; [vm_compute; reflexivity|].
  apply (postings_are_trimmed Str.ascii_lower Datetime.fromisoformat sample_re_sub sample_world RemotiveScraper
           "engineer" (Some "world") None None initial_state (snd sample_located)).
  vm_compute. reflexivity.
Defined.

(** ** Switching the date filter off *)

Lemma clock_f_write (w : World) (path text : string) :
  preserves clock_reads (f_write w path text).
Proof.
  intros st. unfold f_write.
  destruct (Str.has_surrogate text); [reflexivity|].
  now destruct (write_error w path text).
Qed.

Lemma clock_write_output (lower : string -> string) (w : World)
    (jobs : list JobPosting) (path : string) :
  preserves clock_reads (write_output lower w jobs path).
Proof.
  assert (Hopen : preserves clock_reads (open_w w path)).
  { intros st. unfold open_w. now destruct (open_error w path). }
  assert (Hprint : forall s, preserves clock_reads (print s)) by (intros s st; reflexivity).
  assert (Hchunks : forall chunks, preserves clock_reads (write_chunks w path chunks)).
  { induction chunks as [|chunk chunks IH]; cbn [write_chunks].
    - apply preserves_ret.
    - apply preserves_bind; [apply clock_f_write | intros _; exact IH]. }
  assert (Hrows : forall rows, preserves clock_reads (csv_writerows w path rows)).
  { induction rows as [|job rows IH]; cbn [csv_writerows].
    - apply preserves_ret.
    - destruct (Csv.dict_to_list _ _); [|apply preserves_raise].
      apply preserves_bind; [apply clock_f_write | intros _; exact IH]. }
  unfold write_output, json_dump.
  repeat first [ apply preserves_if | apply preserves_raise
               | apply preserves_bind; [|intros _]
               | apply Hopen | apply Hprint | apply Hchunks | apply Hrows
               | apply clock_f_write ].
Qed.

Lemma emit_keeps_clock (lower : string -> string)
    (tabulate : list (list string) -> list string -> string) (w : World)
    (output : option string) (jobs : list JobPosting) (st : State) :
  clock_reads (snd (emit lower tabulate w output jobs st)) = clock_reads st.
Proof.
  unfold emit. destruct output as [path|]; [|reflexivity].
  destruct (Str.truthy path); [apply clock_write_output | reflexivity].
Qed.

(** X20: [--days 0] and every negative number of days switch the date
    filter off, and then [main] never reads the clock, neither in the search
    nor in the output.  Of [str.lower] only what it does to ASCII text is
    used. *)
Theorem main_without_days
    (lower : string -> string) (isoparse : string -> option datetime)
    (re_sub : string -> list ReFlag -> string -> string -> string)
    (tabulate : list (list string) -> list string -> string) (w : World)
    (args : Namespace) (self : Scraper) (st : State) :
  lowers_ascii lower ->
  registry st = SCRAPERS ->
  self = TheMuseScraper \/ self = RemotiveScraper ->
  lower (ns_site args) = site_name self ->
  ns_days args <= 0 ->
  normalize_days (ns_days args) = None
  /\ exists jobs st1,
       search lower isoparse re_sub w self (ns_query args) (ns_location args) None
              (Some (ns_max_results args)) st
       = (Return jobs, st1)
       /\ main lower isoparse re_sub tabulate w args st
          = emit lower tabulate w (ns_output args) (sort_jobs jobs) st1
       /\ clock_reads (snd (main lower isoparse re_sub tabulate w args st)) = clock_reads st.
Proof.
  intros Hlow Hreg Hself Hsite Hdays.
  assert (Hnone : normalize_days (ns_days args) = None).
  { unfold normalize_days. destruct (0 <? ns_days args) eqn:E; [|reflexivity].
    apply Z.ltb_lt in E. lia. }
  split; [exact Hnone|].
  destruct (search_trace lower isoparse re_sub w self (ns_query args) (ns_location args)
              None (Some (ns_max_results args)) st Hself)
    as (jobs & st1 & k & reqs & logs & Hrun & Hfoot & _ & Hk).
  exists jobs, st1. split; [exact Hrun|].
  assert (Hmain : main lower isoparse re_sub tabulate w args st
                  = emit lower tabulate w (ns_output args) (sort_jobs jobs) st1).
  { apply (main_sorts lower isoparse re_sub tabulate w args st st st1 self jobs).
    - unfold get_scraper. rewrite Hreg, Hsite.
      destruct Hself as [-> | ->]; cbn [site_name];
        [rewrite (Hlow "themuse" eq_refl) | rewrite (Hlow "remotive" eq_refl)]; reflexivity.
    - rewrite Hnone. exact Hrun. }
  split; [exact Hmain|].
  rewrite Hmain, emit_keeps_clock, (footprint_clock _ _ _ _ _ Hfoot), (Hk eq_refl). lia.
Qed.

Lemma main_without_days_witness :
  lowers_ascii Str.ascii_lower
  /\ registry initial_state = SCRAPERS
  /\ Str.ascii_lower (ns_site sample_args_no_days) = site_name TheMuseScraper
  /\ ns_days sample_args_no_days <= 0
  /\ normalize_days (ns_days sample_args_no_days) = None
  /\ exists jobs st1,
       search Str.ascii_lower Datetime.fromisoformat sample_re_sub sample_world TheMuseScraper
              (ns_query sample_args_no_days) (ns_location sample_args_no_days) None
              (Some (ns_max_results sample_args_no_days)) initial_state
       = (Return jobs, st1)
       /\ main Str.ascii_lower Datetime.fromisoformat sample_re_sub sample_tabulate sample_world
               sample_args_no_days initial_state
          = emit Str.ascii_lower sample_tabulate sample_world (ns_output sample_args_no_days)
                 (sort_jobs jobs) st1
       /\ clock_reads (snd (main Str.ascii_lower Datetime.fromisoformat sample_re_sub sample_tabulate
                                 sample_world sample_args_no_days initial_state))
          = clock_reads initial_state.
Proof.
  split; [exact lowers_ascii_ascii_lower|].
  split; [reflexivity|]. split; [reflexivity|]. split; [cbn; lia|].
  apply (main_without_days Str.ascii_lower Datetime.fromisoformat sample_re_sub sample_tabulate
           sample_world sample_args_no_days TheMuseScraper initial_state);
    [exact lowers_ascii_ascii_lower | reflexivity | left; reflexivity | reflexivity
    | cbn; lia].
Defined.

(** ** The cap is applied before the sort *)

(** X21: [main] sorts what the capped search returned: the postings handed
    to the output sink are the first ones the board listed that pass the
    filters, as many as the cap allows (one for a cap below one), put in
    order of date afterwards; they need not be the newest the board has.
    Of [str.lower] only what it does to ASCII text is used. *)
Theorem main_truncates_before_sorting
    (lower : string -> string) (isoparse : string -> option datetime)
    (re_sub : string -> list ReFlag -> string -> string -> string)
    (tabulate : list (list string) -> list string -> string) (w : World)
    (args : Namespace) (self : Scraper) (st : State) :
  lowers_ascii lower ->
  registry st = SCRAPERS ->
  self = TheMuseScraper \/ self = RemotiveScraper ->
  lower (ns_site args) = site_name self ->
  exists all st_all st1,
    search lower isoparse re_sub w self (ns_query args) (ns_location args)
           (normalize_days (ns_days args)) None st
    = (Return all, st_all)
    /\ main lower isoparse re_sub tabulate w args st
       = emit lower tabulate w (ns_output args)
              (sort_jobs (firstn (cap_length (ns_max_results args)) all)) st1.
Proof.
  intros Hlow Hreg Hself Hsite.
  destruct (search_run lower isoparse re_sub w self (ns_query args) (ns_location args)
              (normalize_days (ns_days args)) None st Hself)
    as (all & st_all & Hall & _).
  destruct (search_prefix lower isoparse re_sub w self (ns_query args) (ns_location args)
              (normalize_days (ns_days args)) (ns_max_results args) st st_all all Hall)
    as (capped & st1 & Hcapped & -> & _).
  exists all, st_all, st1. split; [exact Hall|].
  apply (main_sorts lower isoparse re_sub tabulate w args st st st1 self); [|exact Hcapped].
  unfold get_scraper. rewrite Hreg, Hsite.
  destruct Hself as [-> | ->]; cbn [site_name];
    [rewrite (Hlow "themuse" eq_refl) | rewrite (Hlow "remotive" eq_refl)]; reflexivity.
Qed.

Lemma main_truncates_before_sorting_witness :
  lowers_ascii Str.ascii_lower
  /\ registry initial_state = SCRAPERS
  /\ Str.ascii_lower (ns_site sample_args_csv) = site_name RemotiveScraper
  /\ exists all st_all st1,
       search Str.ascii_lower Datetime.fromisoformat sample_re_sub sample_world RemotiveScraper
              (ns_query sample_args_csv) (ns_location sample_args_csv)
              (normalize_days (ns_days sample_args_csv)) None initial_state
       = (Return all, st_all)
       /\ main Str.ascii_lower Datetime.fromisoformat sample_re_sub sample_tabulate sample_world
               sample_args_csv initial_state
          = emit Str.ascii_lower sample_tabulate sample_world (ns_output sample_args_csv)
                 (sort_jobs (firstn (cap_length (ns_max_results sample_args_csv)) all)) st1.
Proof.
  split; [exact lowers_ascii_ascii_lower|]. split; [reflexivity|]. split; [reflexivity|].
  apply (main_truncates_before_sorting Str.ascii_lower Datetime.fromisoformat sample_re_sub
           sample_tabulate sample_world sample_args_csv RemotiveScraper initial_state);
    [exact lowers_ascii_ascii_lower | reflexivity | right; reflexivity | reflexivity].
Defined.



(** ** The location filter of The Muse, over a whole search *)

(** X23: with a location that is given and not empty, every posting a
    search of The Muse returns comes from an item one of whose location names
    contains the location once [str.lower] has been applied to both, or
    contains [remote] or [flexible] once it has been applied to the name,
    whatever [str.lower] does; the location the posting shows is the first
    location name of the item, which need not be the one that matched. *)
Theorem themuse_location_filter
    (lower : string -> string) (isoparse : string -> option datetime)
    (re_sub : string -> list ReFlag -> string -> string -> string) (w : World)
    (query : string) (loc : option string) (l : string)
    (days max_results : option Z) (st st' : State) (out : list JobPosting) :
  location_given loc = Some l ->
  search lower isoparse re_sub w TheMuseScraper query loc days max_results st = (Return out, st') ->
  Forall (fun p =>
            exists job,
              location p = hd "" (muse_loc_names job)
              /\ ((exists name, In name (muse_loc_names job) /\ SubstringNoCase lower l name)
                  \/ (exists name keyword,
                        In name (muse_loc_names job) /\ In keyword remote_keywords
                        /\ Substring keyword (lower name)))) out.
Proof.
  intros Hloc Hrun. apply Forall_forall. intros p Hp. apply list_elem_of_In in Hp.
  destruct (muse_while_origin lower isoparse re_sub w query loc days max_results
              (mk_MuseLoop [] 1 0 None) st)
    as (out0 & st0 & reqs & added & Hrun0 & _ & Hout & Hsub & _).
  cbn [search] in Hrun. unfold themuse_search in Hrun. rewrite Hrun in Hrun0.
  injection Hrun0 as <- <-. cbn in Hout. subst added.
  apply (elem_of_sublist _ _ _ Hp) in Hsub. apply list_elem_of_omap in Hsub.
  destruct Hsub as (job & _ & Hsel). unfold muse_select in Hsel.
  destruct (parse_publication_date _ _) as [d|]; [|discriminate].
  destruct (muse_location_pass lower loc job) eqn:Hpass; [|discriminate].
  injection Hsel as <-. exists job. split.
  - cbn [muse_posting location]. unfold muse_loc_names.
    now destruct (default [] (mj_locations job)).
  - unfold muse_location_pass in Hpass. rewrite Hloc in Hpass.
    now apply muse_location_match_spec.
Qed.

Lemma themuse_location_filter_witness :
  location_given (Some "boston") = Some "boston"
  /\ search Str.ascii_lower Datetime.fromisoformat sample_re_sub sample_world TheMuseScraper "engineer"
            (Some "boston") None None initial_state
     = (Return sample_muse_located_jobs, snd sample_muse_located)
  /\ Forall (fun p =>
               exists job,
                 location p = hd "" (muse_loc_names job)
                 /\ ((exists name, In name (muse_loc_names job)
                                   /\ SubstringNoCase Str.ascii_lower "boston" name)
                     \/ (exists name keyword,
                           In name (muse_loc_names job) /\ In keyword remote_keywords
                           /\ Substring keyword (Str.ascii_lower name))))
            sample_muse_located_jobs.
Proof.
  split; [reflexivity|]. split; [vm_compute; reflexivity|].
  apply (themuse_location_filter Str.ascii_lower Datetime.fromisoformat sample_re_sub sample_world "engineer"
           (Some "boston") "boston" None None initial_state (snd sample_muse_located));
    [reflexivity | vm_compute; reflexivity].
Defined.

(** ** Remotive without a number of days, in closed form *)

Lemma footprint_nothing (st st' : State) : footprint 0 [] [] st st' -> st' = st.
Proof.
  unfold footprint. intros ->. destruct st; cbn. now rewrite Nat.add_0_r, !app_nil_r.
Qed.

(** X25: when Remotive answers with status 200 and no number of days is
    given, the search is a function of the answer alone.  It returns, in the
    order of the answer, the postings of the items whose date parses and that
    pass the location filter, cut to the cap (to one posting for a cap below
    one), and the only change of the state is the one request sent. *)
Theorem remotive_search_no_days
    (lower : string -> string) (isoparse : string -> option datetime)
    (re_sub : string -> list ReFlag -> string -> string -> string) (w : World)
    (query : string) (loc : option string) (max_results : option Z) (st : State)
    (data : RemotivePage) :
  remotive_api w (List.length (sent st)) (remotive_request query) = HttpResponse 200 data ->
  let all := omap (remotive_select lower isoparse re_sub loc) (default [] (rp_jobs data)) in
  search lower isoparse re_sub w RemotiveScraper query loc None max_results st
  = (Return match max_results with
            | Some m => firstn (cap_length m) all
            | None => all
            end,
     add_sent (remotive_request query) st).
Proof.
  intros Hresp. cbv zeta.
  assert (Hrun : forall mr,
    search lower isoparse re_sub w RemotiveScraper query loc None mr st
    = remotive_for lower isoparse re_sub w loc None mr (default [] (rp_jobs data)) []
                   (add_sent (remotive_request query) st)).
  { intros mr. cbn [search]. unfold remotive_search, bind. cbn [remotive_get].
    fold (remotive_request query). now rewrite Hresp. }
  assert (Hstate : forall mr,
    exists out,
      remotive_for lower isoparse re_sub w loc None mr (default [] (rp_jobs data)) []
                   (add_sent (remotive_request query) st)
      = (Return out, add_sent (remotive_request query) st)).
  { intros mr.
    destruct (remotive_for_footprint lower isoparse re_sub w loc None mr (default [] (rp_jobs data))
                [] (add_sent (remotive_request query) st))
      as (k & out & st' & Hfor & Hfoot & _ & Hk).
    rewrite (Hk eq_refl) in Hfoot. apply footprint_nothing in Hfoot. subst st'.
    now exists out. }
  destruct (Hstate None) as (all & Hall).
  destruct (remotive_for_origin lower isoparse re_sub w loc None None _ _ _ _ _ Hall)
    as (added & Hout & _ & Hexact).
  cbn [app] in Hout. subst all. rewrite (Hexact eq_refl eq_refl) in Hall.
  rewrite Hrun. destruct max_results as [m|]; [|exact Hall].
  destruct (remotive_for_prefix lower isoparse re_sub w loc None m _ _ _ _ _ Hall)
    as (capped & st_capped & Hcapped & ->).
  destruct (Hstate (Some m)) as (out & Hout). rewrite Hcapped in Hout.
  injection Hout as _ ->. rewrite Hcapped. do 3 f_equal. unfold cap_length. cbn. lia.
Qed.

Lemma remotive_search_no_days_witness :
  exists data,
    remotive_api sample_world (List.length (sent initial_state)) (remotive_request "engineer")
    = HttpResponse 200 data
    /\ search Str.ascii_lower Datetime.fromisoformat sample_re_sub sample_world RemotiveScraper "engineer" None
              None (Some 2) initial_state
       = (Return (firstn (cap_length 2)
                    (omap (remotive_select Str.ascii_lower Datetime.fromisoformat sample_re_sub None)
                          (default [] (rp_jobs data)))),
          add_sent (remotive_request "engineer") initial_state).
Proof.
  eexists. split; [reflexivity|].
  apply (remotive_search_no_days Str.ascii_lower Datetime.fromisoformat sample_re_sub sample_world "engineer"
           None (Some 2) initial_state).
  reflexivity.
Defined.

(** ** Errors are logged only for failed requests *)

Lemma footprint_logged (k : nat) (reqs : list Request) (logs : list LogRecord) (st st' : State) :
  footprint k reqs logs st st' -> logged st' = (logged st ++ logs)%list.
Proof. now intros ->. Qed.

(** X26: nothing is logged without a failure.  When the board a scraper
    talks to answers every request with status 200, a search leaves the log
    as it was. *)
Theorem no_failure_no_log
    (lower : string -> string) (isoparse : string -> option datetime)
    (re_sub : string -> list ReFlag -> string -> string -> string) (w : World)
    (self : Scraper) (query : string) (loc : option string) (days max_results : option Z)
    (st : State) :
  (forall i r, ~ failed_at w self i r) ->
  logged (snd (search lower isoparse re_sub w self query loc days max_results st)) = logged st.
Proof.
  intros Hok. destruct self; cbn [search failed_at] in *; try reflexivity.
  - unfold themuse_search.
    apply (muse_while_elim lower isoparse re_sub w
             (fun q l d m ls st r => logged (snd r) = logged st)).
    + intros q l d m ls0 st0 results st' Hbody _. cbn [snd].
      rewrite muse_body_eq in Hbody.
      destruct (past_last_page ls0); [now injection Hbody as _ <-|].
      cbv zeta in Hbody.
      pose proof (Hok (List.length (sent st0)) (muse_request q l (ml_page ls0))) as Hresp.
      destruct (themuse_api w _ _) as [exc|code data]; [exfalso; now apply Hresp|].
      destruct (code =? 200) eqn:Hcode; cbn [negb] in Hbody.
      2:{ exfalso. apply Hresp. cbn. now apply Z.eqb_neq. }
      destruct (default [] (mp_results data)) as [|job jobs]; [now injection Hbody as _ <-|].
      destruct (muse_for_footprint lower isoparse re_sub w l d m (job :: jobs) (ml_results ls0)
                  (ml_fetched ls0) (add_sent (muse_request q l (ml_page ls0)) st0))
        as (k & exit & st2 & Hfor & Hfoot & _).
      rewrite Hfor in Hbody. apply footprint_logged in Hfoot.
      destruct exit; injection Hbody as _ <-; rewrite Hfoot; cbn; now rewrite app_nil_r.
    + intros q l d m ls0 st0 ls' st' Hbody IH _. rewrite IH.
      rewrite muse_body_eq in Hbody.
      destruct (past_last_page ls0); [discriminate|].
      cbv zeta in Hbody.
      destruct (themuse_api w _ _) as [exc|code data]; [discriminate|].
      destruct (negb (code =? 200)); [discriminate|].
      destruct (default [] (mp_results data)) as [|job jobs]; [discriminate|].
      destruct (muse_for_footprint lower isoparse re_sub w l d m (job :: jobs) (ml_results ls0)
                  (ml_fetched ls0) (add_sent (muse_request q l (ml_page ls0)) st0))
        as (k & exit & st2 & Hfor & Hfoot & _).
      rewrite Hfor in Hbody. apply footprint_logged in Hfoot.
      destruct exit; injection Hbody as _ <-; rewrite Hfoot; cbn; now rewrite app_nil_r.
    + intros q l d m ls0 st0 e st' Hbody _. exfalso.
      destruct (muse_body_origin lower isoparse re_sub w q l d m ls0 st0)
        as (step & st1 & reqs & added & Hrun & _).
      rewrite Hbody in Hrun. discriminate.
  - unfold remotive_search, bind. cbn [remotive_get]. fold (remotive_request query).
    pose proof (Hok (List.length (sent st)) (remotive_request query)) as Hresp.
    destruct (remotive_api w _ _) as [exc|code data]; [exfalso; now apply Hresp|].
    destruct (code =? 200) eqn:Hcode; cbn [negb].
    2:{ exfalso. apply Hresp. cbn. now apply Z.eqb_neq. }
    destruct (remotive_for_footprint lower isoparse re_sub w loc days max_results
                (default [] (rp_jobs data)) [] (add_sent (remotive_request query) st))
      as (k & out & st' & Hrun & Hfoot & _).
    rewrite Hrun. apply footprint_logged in Hfoot. cbn [snd]. rewrite Hfoot. cbn.
    now rewrite app_nil_r.
Qed.

Lemma no_failure_no_log_witness :
  (forall i r, ~ failed_at sample_world RemotiveScraper i r)
  /\ logged (snd (search Str.ascii_lower Datetime.fromisoformat sample_re_sub sample_world RemotiveScraper
                         "engineer" None (Some 7) None initial_state))
     = logged initial_state.
Proof.
  assert (Hok : forall i r, ~ failed_at sample_world RemotiveScraper i r)
    by (intros i r H; apply H; reflexivity).
  split; [exact Hok|].
  apply (no_failure_no_log Str.ascii_lower Datetime.fromisoformat sample_re_sub sample_world RemotiveScraper
           "engineer" None (Some 7) None initial_state Hok).
Defined.
